(** * InceptionNet-pytorch: the forward graph of [Inception_Net.ipynb]

    The notebook defines three [nn.Module] classes ([Inception_Block],
    [Auxiliary_Classifier], [Inception_Net]) and a loss cell.  They are
    embedded here as programs of a small state-and-error monad over a
    store of tensor storages, on top of a model of the PyTorch primitives
    the notebook calls ([nn.Conv2d], [nn.MaxPool2d], [nn.AvgPool2d],
    [nn.Linear], [nn.Dropout], [F.relu], [torch.cat], [Tensor.reshape],
    [Tensor.clone], [F.cross_entropy]).

    Layout of the file:
    - [TorchError], [result]: what a PyTorch call can raise;
    - [Scalar], [Tensor]: dense row-major tensors over a scalar type;
    - the primitives, each as a shape function plus a data function;
    - the store, tensor references and the monad [M];
    - the three classes of the notebook and the loss cell;
    - the theorems. *)

From Stdlib Require Import ZArith List Lia Bool String QArith Reals Lra.
Import ListNotations.
Local Open Scope list_scope.
Local Open Scope Z_scope.

Set Implicit Arguments.

(** ** Errors and results *)

(** The exceptions the modelled PyTorch calls raise.  [Dangling] is not a
    PyTorch error: it marks a reference to a storage the store does not
    hold, which no program of this file produces. *)
Inductive TorchError : Type :=
| SizeNotInt64                         (* torch.empty: a size is no 64-bit integer *)
| NegativeDimension                    (* torch.empty with a negative size *)
| StorageOverflow                      (* torch.empty: 2^63 bytes or more *)
| InvalidProbability                   (* nn.Dropout with p outside [0,1] *)
| KeyError (key : string)              (* dict lookup *)
| BadRank                              (* input of a rank the layer refuses *)
| NonPositiveStride
| EmptyWeight                          (* conv weight with no output channel *)
| ChannelMismatch (expected got : Z)   (* conv: input channels <> in_channels *)
| KernelTooLarge                       (* conv: kernel larger than padded input *)
| EmptyInput                           (* pooling over a zero-size dimension *)
| PadTooLarge                          (* pooling: pad > kernel / 2 *)
| OutputTooSmall                       (* pooling: computed output size < 1 *)
| CatEmpty
| CatMismatch                          (* torch.cat: sizes differ off the axis *)
| ShapeInvalid                         (* reshape: shape invalid for the size *)
| ShapeAmbiguous                       (* reshape: -1 with zero elements *)
| MatMulMismatch (expected got : Z)    (* linear: last dim <> in_features *)
| IndexOutOfRange                      (* x.shape[i] past the rank *)
| BatchMismatch                        (* cross_entropy: batch sizes differ *)
| TargetOutOfBounds                    (* cross_entropy: label outside [0,C) *)
| Dangling.

Inductive result (X : Type) : Type :=
| Ok (x : X)
| Raise (e : TorchError).
Arguments Ok {X} x.
Arguments Raise {X} e.

Definition rbind {X Y : Type} (r : result X) (k : X -> result Y) : result Y :=
  match r with
  | Ok x => k x
  | Raise e => Raise e
  end.

Declare Scope result_scope.
Delimit Scope result_scope with result.
Notation "x <-- r ;;; k" := (rbind r (fun x => k))
  (at level 100, r at next level, right associativity) : result_scope.

(** ** Scalars *)

(** The element type of a tensor.  The network only adds, multiplies,
    takes maxima, divides by a window size (average pooling) and rescales
    by a rational (dropout). *)
Class Scalar (A : Type) : Type := {
  szero : A;
  sadd : A -> A -> A;
  smul : A -> A -> A;
  smax : A -> A -> A;
  sdivZ : A -> Z -> A;
  sscaleQ : Q -> A -> A
}.

Definition Qmax (a b : Q) : Q := if Qle_bool a b then b else a.

#[global] Instance Scalar_Q : Scalar Q := {|
  szero := 0%Q;
  sadd := Qplus;
  smul := Qmult;
  smax := Qmax;
  sdivZ := fun a n => Qdiv a (inject_Z n);
  sscaleQ := Qmult
|}.

(** ** Shapes and row-major indexing *)

Definition numel (sh : list Z) : Z := fold_right Z.mul 1 sh.

(** Offset of a multi-index in a contiguous row-major tensor. *)
Fixpoint ravel (sh idx : list Z) : Z :=
  match sh, idx with
  | _ :: sh', i :: idx' => i * numel sh' + ravel sh' idx'
  | _, _ => 0
  end.

(** Multi-index of an offset. *)
Fixpoint unravel (sh : list Z) (o : Z) : list Z :=
  match sh with
  | [] => []
  | _ :: sh' => o / numel sh' :: unravel sh' (o mod numel sh')
  end.

Fixpoint in_range (sh idx : list Z) : Prop :=
  match sh, idx with
  | [], [] => True
  | d :: sh', i :: idx' => 0 <= i < d /\ in_range sh' idx'
  | _, _ => False
  end.

Definition zrange (n : Z) : list Z := map Z.of_nat (seq 0 (Z.to_nat n)).

Section Tensors.

Context {A : Type} {SA : Scalar A}.

(** A dense tensor: its shape and its contiguous storage, read by offset. *)
Record Tensor : Type := mkTensor {
  shape : list Z;
  data : Z -> A
}.

Definition get (t : Tensor) (idx : list Z) : A := data t (ravel (shape t) idx).

Definition ssum (l : list A) : A := fold_right sadd szero l.

Definition smax_list (l : list A) : A :=
  match l with
  | [] => szero
  | a :: l' => fold_left smax l' a
  end.

(** x.shape[i] *)
Definition size (sh : list Z) (i : nat) : result Z :=
  match nth_error sh i with
  | Some d => Ok d
  | None => Raise IndexOutOfRange
  end.

(** ** torch.nn layers: hyper-parameters and parameters *)

(** Parameters are read from a state dictionary [theta], keyed by the
    dotted attribute path of the parameter as [named_parameters] reports
    it; each entry is the contiguous storage of the parameter. *)
Definition StateDict : Type := string -> Z -> A.

Record Conv2d : Type := mkConv2d {
  conv_in : Z;
  conv_out : Z;
  conv_k : Z;
  conv_stride : Z;
  conv_pad : Z;
  conv_weight : Z -> A;     (* shape (out, in, k, k) *)
  conv_bias : Z -> A        (* shape (out) *)
}.

Record Pool2d : Type := mkPool2d {
  pool_k : Z;
  pool_stride : Z;
  pool_pad : Z
}.

Record Linear : Type := mkLinear {
  lin_in : Z;
  lin_out : Z;
  lin_weight : Z -> A;      (* shape (out, in) *)
  lin_bias : Z -> A         (* shape (out) *)
}.

Record Dropout : Type := mkDropout {
  drop_p : Q;
  drop_training : bool      (* nn.Module.training *)
}.

(** torch.empty(size) with the default dtype (4 bytes an element), as
    far as it can fail on its argument: every size has to be a 64-bit
    integer, none may be negative, and the storage has to take fewer
    than 2^63 bytes.  Python integers are unbounded, so the sizes are
    in [Z].  Running out of memory is outside the model: the store is
    unbounded, for the parameters as for every tensor [forward]
    allocates. *)
Definition torch_empty (size : list Z) : result unit :=
  if existsb (fun d => (d <? - 2 ^ 63) || (2 ^ 63 <=? d)) size then Raise SizeNotInt64
  else if existsb (fun d => d <? 0) size then Raise NegativeDimension
  else if 2 ^ 63 <=? numel size * 4 then Raise StorageOverflow
  else Ok tt.

(** nn.Conv2d(in_channels, out_channels, kernel_size, stride, padding):
    the weight of shape (out_channels, in_channels, k, k) and the bias
    of shape (out_channels) are allocated with [torch.empty]; nothing
    else is checked (groups is 1). *)
Definition Conv2d_new (theta : StateDict) (name : string)
    (in_channels out_channels kernel_size stride padding : Z) : result Conv2d :=
  rbind (torch_empty [out_channels; in_channels; kernel_size; kernel_size]) (fun _ =>
  rbind (torch_empty [out_channels]) (fun _ =>
  Ok {| conv_in := in_channels; conv_out := out_channels;
        conv_k := kernel_size; conv_stride := stride; conv_pad := padding;
        conv_weight := theta (name ++ ".weight")%string;
        conv_bias := theta (name ++ ".bias")%string |})).

(** nn.MaxPool2d and nn.AvgPool2d check nothing when they are built. *)
Definition Pool2d_new (kernel_size stride padding : Z) : Pool2d :=
  {| pool_k := kernel_size; pool_stride := stride; pool_pad := padding |}.

(** nn.Linear(in_features, out_features): the weight of shape
    (out_features, in_features) and the bias of shape (out_features). *)
Definition Linear_new (theta : StateDict) (name : string)
    (in_features out_features : Z) : result Linear :=
  rbind (torch_empty [out_features; in_features]) (fun _ =>
  rbind (torch_empty [out_features]) (fun _ =>
  Ok {| lin_in := in_features; lin_out := out_features;
        lin_weight := theta (name ++ ".weight")%string;
        lin_bias := theta (name ++ ".bias")%string |})).

(** nn.Dropout(p): a module is built in training mode. *)
Definition Dropout_new (p : Q) : result Dropout :=
  if Qle_bool 0 p && Qle_bool p 1
  then Ok {| drop_p := p; drop_training := true |}
  else Raise InvalidProbability.

(** ** Convolution *)

(** Shape check of [F.conv2d] on a batched input (N, C, H, W), with
    groups = 1, dilation = 1 and a non-negative padding: the stride is
    positive, the weight has an output channel, the input has
    [in_channels] channels and the padded input is not smaller than
    the kernel.  The batch may be empty.  An input without channels
    (accepted when [in_channels] is 0) gives an output without
    channels.  Inputs of another rank (the unbatched form among them)
    are outside the model and refused. *)
Definition conv2d_shape (m : Conv2d) (sh : list Z) : result (list Z) :=
  match sh with
  | [n; c; h; w] =>
      if conv_stride m <? 1 then Raise NonPositiveStride
      else if conv_out m <? 1 then Raise EmptyWeight
      else if negb (c =? conv_in m) then Raise (ChannelMismatch (conv_in m) c)
      else if (h + 2 * conv_pad m <? conv_k m) || (w + 2 * conv_pad m <? conv_k m)
           then Raise KernelTooLarge
      else Ok [n; (if c =? 0 then 0 else conv_out m);
               (h + 2 * conv_pad m - conv_k m) / conv_stride m + 1;
               (w + 2 * conv_pad m - conv_k m) / conv_stride m + 1]
  | _ => Raise BadRank
  end.

(** Element (n, c, h, w) of a 4-D tensor, zero outside the spatial range
    (zero padding). *)
Definition get_padded (x : Tensor) (n c h w : Z) : A :=
  match shape x with
  | [_; _; hh; ww] =>
      if (0 <=? h) && (h <? hh) && (0 <=? w) && (w <? ww)
      then get x [n; c; h; w] else szero
  | _ => szero
  end.

Definition conv2d_data (m : Conv2d) (x : Tensor) (out_shape : list Z) (o : Z) : A :=
  match unravel out_shape o with
  | [n; co; ho; wo] =>
      sadd (conv_bias m co)
        (ssum (flat_map (fun ci =>
           flat_map (fun kh =>
             map (fun kw =>
               smul (conv_weight m
                       (ravel [conv_out m; conv_in m; conv_k m; conv_k m]
                              [co; ci; kh; kw]))
                    (get_padded x n ci
                       (ho * conv_stride m + kh - conv_pad m)
                       (wo * conv_stride m + kw - conv_pad m)))
               (zrange (conv_k m)))
             (zrange (conv_k m)))
           (zrange (conv_in m))))
  | _ => szero
  end.

Definition conv2d_v (m : Conv2d) (x : Tensor) : result Tensor :=
  (sh <-- conv2d_shape m (shape x) ;;;
   Ok {| shape := sh; data := conv2d_data m x sh |})%result.

(** ** Pooling *)

(** Shape check shared by [F.max_pool2d] and [F.avg_pool2d]
    (dilation 1, ceil_mode off): kernel and stride are positive, no
    size but the batch is zero, the padding is at most half the
    kernel, and the output, rounded down, is not empty. *)
Definition pool2d_shape (m : Pool2d) (sh : list Z) : result (list Z) :=
  match sh with
  | [n; c; h; w] =>
      if (pool_k m <? 1) || (pool_stride m <? 1) then Raise NonPositiveStride
      else if (c =? 0) || (h =? 0) || (w =? 0) then Raise EmptyInput
      else if pool_k m / 2 <? pool_pad m then Raise PadTooLarge
      else
        let ho := (h + 2 * pool_pad m - pool_k m) / pool_stride m + 1 in
        let wo := (w + 2 * pool_pad m - pool_k m) / pool_stride m + 1 in
        if (ho <? 1) || (wo <? 1) then Raise OutputTooSmall
        else Ok [n; c; ho; wo]
  | _ => Raise BadRank
  end.

(** The window of output position (ho, wo): the input positions it
    covers, those in the padding included. *)
Definition window (m : Pool2d) (ho wo : Z) : list (Z * Z) :=
  flat_map (fun kh =>
    map (fun kw => (ho * pool_stride m + kh - pool_pad m,
                    wo * pool_stride m + kw - pool_pad m))
        (zrange (pool_k m)))
    (zrange (pool_k m)).

Definition inside (x : Tensor) (p : Z * Z) : bool :=
  match shape x with
  | [_; _; hh; ww] =>
      (0 <=? fst p) && (fst p <? hh) && (0 <=? snd p) && (snd p <? ww)
  | _ => false
  end.

(** Max pooling ignores the padding (it counts as minus infinity). *)
Definition max_pool2d_data (m : Pool2d) (x : Tensor) (out_shape : list Z) (o : Z) : A :=
  match unravel out_shape o with
  | [n; c; ho; wo] =>
      smax_list (map (fun p => get x [n; c; fst p; snd p])
                     (filter (inside x) (window m ho wo)))
  | _ => szero
  end.

(** Average pooling counts the padding as zeros (count_include_pad). *)
Definition avg_pool2d_data (m : Pool2d) (x : Tensor) (out_shape : list Z) (o : Z) : A :=
  match unravel out_shape o with
  | [n; c; ho; wo] =>
      sdivZ (ssum (map (fun p => get_padded x n c (fst p) (snd p)) (window m ho wo)))
            (pool_k m * pool_k m)
  | _ => szero
  end.

Definition max_pool2d_v (m : Pool2d) (x : Tensor) : result Tensor :=
  (sh <-- pool2d_shape m (shape x) ;;;
   Ok {| shape := sh; data := max_pool2d_data m x sh |})%result.

Definition avg_pool2d_v (m : Pool2d) (x : Tensor) : result Tensor :=
  (sh <-- pool2d_shape m (shape x) ;;;
   Ok {| shape := sh; data := avg_pool2d_data m x sh |})%result.

(** ** Rectification *)

Definition relu_v (x : Tensor) : Tensor :=
  {| shape := shape x; data := fun o => smax szero (data x o) |}.

(** ** Concatenation along the channel axis *)

(** torch.cat(tensors, axis=1) on 4-D tensors: every size but the
    channel count has to agree with the first tensor's. *)
Fixpoint cat_channels (n h w : Z) (shs : list (list Z)) : result Z :=
  match shs with
  | [] => Ok 0
  | [n'; c; h'; w'] :: rest =>
      if (n' =? n) && (h' =? h) && (w' =? w)
      then (c' <-- cat_channels n h w rest ;;; Ok (c + c'))%result
      else Raise CatMismatch
  | _ :: _ => Raise BadRank
  end.

Definition cat1_shape (shs : list (list Z)) : result (list Z) :=
  match shs with
  | [] => Raise CatEmpty
  | [n; _; h; w] :: _ =>
      (c <-- cat_channels n h w shs ;;; Ok [n; c; h; w])%result
  | _ :: _ => Raise BadRank
  end.

(** Channel [c] of the concatenation: found in the first tensor that
    still has that many channels, after the channels of the tensors
    before it are taken off. *)
Fixpoint cat1_pick (ts : list Tensor) (n c h w : Z) : A :=
  match ts with
  | [] => szero
  | t :: ts' =>
      let ct := nth 1 (shape t) 0 in
      if c <? ct then get t [n; c; h; w] else cat1_pick ts' n (c - ct) h w
  end.

Definition cat1_data (ts : list Tensor) (out_shape : list Z) (o : Z) : A :=
  match unravel out_shape o with
  | [n; c; h; w] => cat1_pick ts n c h w
  | _ => szero
  end.

Definition cat1_v (ts : list Tensor) : result Tensor :=
  (sh <-- cat1_shape (map shape ts) ;;;
   Ok {| shape := sh; data := cat1_data ts sh |})%result.

(** ** Reshape *)

(** The size inference of [Tensor.reshape]: at most one -1, replaced by
    the quotient of the number of elements by the product of the other
    sizes. *)
Definition infer_size (target : list Z) (n : Z) : result (list Z) :=
  if existsb (fun d => d <? -1) target then Raise ShapeInvalid
  else if (1 <? Z.of_nat (count_occ Z.eq_dec target (-1)))%Z then Raise ShapeInvalid
  else
    let infer := existsb (fun d => d =? -1) target in
    let newsize := numel (filter (fun d => negb (d =? -1)) target) in
    if (n =? newsize) || (infer && (0 <? newsize) && (n mod newsize =? 0))
    then if infer
         then if newsize =? 0 then Raise ShapeAmbiguous
              else Ok (map (fun d => if d =? -1 then n / newsize else d) target)
         else Ok target
    else Raise ShapeInvalid.

(** ** Fully-connected layer *)

(** F.linear: the last size has to be in_features and becomes
    out_features. *)
Fixpoint linear_shape (m : Linear) (sh : list Z) : result (list Z) :=
  match sh with
  | [] => Raise BadRank
  | [d] => if d =? lin_in m then Ok [lin_out m]
           else Raise (MatMulMismatch (lin_in m) d)
  | d :: sh' => (sh'' <-- linear_shape m sh' ;;; Ok (d :: sh''))%result
  end.

Definition linear_data (m : Linear) (x : Tensor) (o : Z) : A :=
  let row := o / lin_out m in
  let col := o mod lin_out m in
  sadd (lin_bias m col)
       (ssum (map (fun i => smul (lin_weight m (col * lin_in m + i))
                                 (data x (row * lin_in m + i)))
                  (zrange (lin_in m)))).

Definition linear_v (m : Linear) (x : Tensor) : result Tensor :=
  (sh <-- linear_shape m (shape x) ;;;
   Ok {| shape := sh; data := linear_data m x |})%result.

(** ** Random number generator and dropout *)

(** The generator is a fixed stream of uniform samples of [0,1) and a
    cursor into it. *)
Record Generator : Type := mkGenerator {
  stream : Z -> Q;
  cursor : Z
}.

Definition advance (g : Generator) (n : Z) : Generator :=
  {| stream := stream g; cursor := cursor g + n |}.

(** Training-mode dropout: element [o] is kept when the sample drawn for
    it is at least [p] (probability 1 - p) and is then rescaled by
    1 / (1 - p); it is zeroed otherwise. *)
Definition dropout_data (p : Q) (g : Generator) (x : Tensor) (o : Z) : A :=
  if Qle_bool p (stream g (cursor g + o))
  then sscaleQ (/ (1 - p))%Q (data x o)
  else szero.

Definition dropout_v (p : Q) (g : Generator) (x : Tensor) : Tensor :=
  {| shape := shape x; data := dropout_data p g x |}.

End Tensors.

Arguments Tensor A : clear implicits.
Arguments StateDict A : clear implicits.
Arguments Conv2d A : clear implicits.
Arguments Linear A : clear implicits.

(** ** The store, tensor references and the monad of eager execution *)

Declare Scope eager_scope.
Delimit Scope eager_scope with eager.

Section Eager.

Context {A : Type} {SA : Scalar A}.

(** A Python variable holds a reference to a tensor object: the storage
    it reads and the shape it is viewed with.  Two references with the
    same [loc] alias one storage. *)
Record TensorRef : Type := mkRef {
  loc : nat;
  vshape : list Z
}.

Record Store : Type := mkStore {
  heap : list (Z -> A);
  rng : Generator
}.

Definition M (X : Type) : Type := Store -> result (X * Store).

Definition ret {X : Type} (x : X) : M X := fun s => Ok (x, s).

Definition bind {X Y : Type} (m : M X) (k : X -> M Y) : M Y :=
  fun s => match m s with
           | Ok (x, s') => k x s'
           | Raise e => Raise e
           end.

Definition lift {X : Type} (r : result X) : M X :=
  fun s => match r with
           | Ok x => Ok (x, s)
           | Raise e => Raise e
           end.

Notation "x <- m ;; k" := (bind m (fun x => k))
  (at level 100, m at next level, right associativity) : eager_scope.
Local Open Scope eager_scope.

(** Reading the tensor a reference denotes. *)
Definition load (x : TensorRef) : M (Tensor A) :=
  fun s => match nth_error (heap s) (loc x) with
           | Some d => Ok ({| shape := vshape x; data := d |}, s)
           | None => Raise Dangling
           end.

(** Allocating a fresh storage for a new tensor. *)
Definition alloc (t : Tensor A) : M TensorRef :=
  fun s => Ok ({| loc := List.length (heap s); vshape := shape t |},
               {| heap := heap s ++ [data t]; rng := rng s |}).

Definition get_rng : M Generator := fun s => Ok (rng s, s).

Definition set_rng (g : Generator) : M unit :=
  fun s => Ok (tt, {| heap := heap s; rng := g |}).

(** An out-of-place operation: the result is a new tensor. *)
Definition apply1 (f : Tensor A -> result (Tensor A)) (x : TensorRef) : M TensorRef :=
  v <- load x ;;
  r <- lift (f v) ;;
  alloc r.

(** Module calls and functions of [torch] and [torch.nn.functional]. *)
Definition Conv2d_call (m : Conv2d A) : TensorRef -> M TensorRef :=
  apply1 (conv2d_v m).

Definition MaxPool2d_call (m : Pool2d) : TensorRef -> M TensorRef :=
  apply1 (max_pool2d_v m).

Definition AvgPool2d_call (m : Pool2d) : TensorRef -> M TensorRef :=
  apply1 (avg_pool2d_v m).

Definition Linear_call (m : Linear A) : TensorRef -> M TensorRef :=
  apply1 (linear_v m).

(** F.relu(x), not in place. *)
Definition F_relu : TensorRef -> M TensorRef :=
  apply1 (fun v => Ok (relu_v v)).

(** x.clone(): a new storage with the same contents. *)
Definition clone : TensorRef -> M TensorRef :=
  apply1 (fun v => Ok v).

Fixpoint load_all (xs : list TensorRef) : M (list (Tensor A)) :=
  match xs with
  | [] => ret []
  | x :: xs' => v <- load x ;; vs <- load_all xs' ;; ret (v :: vs)
  end.

(** torch.cat(xs, axis=1) *)
Definition torch_cat1 (xs : list TensorRef) : M TensorRef :=
  vs <- load_all xs ;;
  r <- lift (cat1_v vs) ;;
  alloc r.

(** x.shape[i] *)
Definition shape_at (x : TensorRef) (i : nat) : M Z :=
  lift (size (vshape x) i).

(** x.reshape(target): on a contiguous tensor the result is a view, a
    reference to the same storage with another shape. *)
Definition reshape (x : TensorRef) (target : list Z) : M TensorRef :=
  v <- load x ;;
  sh <- lift (infer_size target (numel (shape v))) ;;
  ret {| loc := loc x; vshape := sh |}.

(** A call of nn.Dropout: outside training mode (and when p is 0 or the
    tensor is empty) the input itself is returned; in training mode a
    mask is drawn from the generator. *)
Definition Dropout_call (m : Dropout) (x : TensorRef) : M TensorRef :=
  v <- load x ;;
  if negb (drop_training m) || Qeq_bool (drop_p m) 0 || (numel (shape v) =? 0)
  then ret x
  else
    g <- get_rng ;;
    _ <- set_rng (advance g (numel (shape v))) ;;
    alloc (dropout_v (drop_p m) g v).

(** nn.Module.eval() and nn.Module.train() on a dropout layer. *)
Definition Dropout_eval (m : Dropout) : Dropout :=
  {| drop_p := drop_p m; drop_training := false |}.

Definition Dropout_train (m : Dropout) : Dropout :=
  {| drop_p := drop_p m; drop_training := true |}.

End Eager.

Arguments TensorRef : clear implicits.
Arguments Store A : clear implicits.
Arguments M A X : clear implicits.

Notation "x <- m ;; k" := (bind m (fun x => k))
  (at level 100, m at next level, right associativity) : eager_scope.

(** (in_ch, out1, red2, out2, red3, out3, out4) *)
Definition BlockParameters : Type := (Z * Z * Z * Z * Z * Z * Z)%type.

(** Lookup in a Python dict with string keys. *)
Fixpoint dict_get {V : Type} (d : list (string * V)) (key : string) : result V :=
  match d with
  | [] => Raise (KeyError key)
  | (k, v) :: d' => if String.eqb k key then Ok v else dict_get d' key
  end.

(** ** class Inception_Block *)

Module Inception_Block.
Section Class.
Context {A : Type} {SA : Scalar A}.
Local Open Scope eager_scope.

Record t : Type := mk {
  conv1 : Conv2d A;
  reduce2 : Conv2d A;
  conv2 : Conv2d A;
  reduce3 : Conv2d A;
  conv3 : Conv2d A;
  maxpool4 : Pool2d;
  conv4 : Conv2d A
}.

(** __init__(self, block_params); [name] is the attribute path of the
    block in the enclosing module, the prefix of its parameter names. *)
Definition init (theta : StateDict A) (name : string) (block_params : BlockParameters)
    : result t :=
  let '(in_ch, out1, red2, out2, red3, out3, out4) := block_params in
  (* branch 1: 1x1 conv *)
  (conv1 <-- Conv2d_new theta (name ++ ".conv1") in_ch out1 1 1 0 ;;;
   (* branch 2: reduce - 3x3 conv *)
   reduce2 <-- Conv2d_new theta (name ++ ".reduce2") in_ch red2 1 1 0 ;;;
   conv2 <-- Conv2d_new theta (name ++ ".conv2") red2 out2 3 1 1 ;;;
   (* branch 3: reduce - 5x5 conv *)
   reduce3 <-- Conv2d_new theta (name ++ ".reduce3") in_ch red3 1 1 0 ;;;
   conv3 <-- Conv2d_new theta (name ++ ".conv3") red3 out3 5 1 2 ;;;
   (* branch 4: maxpool - 1x1 conv *)
   let maxpool4 := Pool2d_new 3 1 1 in
   conv4 <-- Conv2d_new theta (name ++ ".conv4") in_ch out4 1 1 0 ;;;
   Ok (mk conv1 reduce2 conv2 reduce3 conv3 maxpool4 conv4))%result.

Definition forward (self : t) (x : TensorRef) : M A TensorRef :=
  (* conv1_out = F.relu(self.conv1(x)) *)
  a <- Conv2d_call (conv1 self) x ;;
  conv1_out <- F_relu a ;;
  (* conv2_out = F.relu(self.conv2(F.relu(self.reduce2(x)))) *)
  a <- Conv2d_call (reduce2 self) x ;;
  a <- F_relu a ;;
  a <- Conv2d_call (conv2 self) a ;;
  conv2_out <- F_relu a ;;
  (* conv3_out = F.relu(self.conv3(F.relu(self.reduce3(x)))) *)
  a <- Conv2d_call (reduce3 self) x ;;
  a <- F_relu a ;;
  a <- Conv2d_call (conv3 self) a ;;
  conv3_out <- F_relu a ;;
  (* conv4_out = F.relu(self.conv4(self.maxpool4(x))) *)
  a <- MaxPool2d_call (maxpool4 self) x ;;
  a <- Conv2d_call (conv4 self) a ;;
  conv4_out <- F_relu a ;;
  let output := [conv1_out; conv2_out; conv3_out; conv4_out] in
  output <- torch_cat1 output ;;
  ret output.

End Class.
Arguments t A : clear implicits.
End Inception_Block.

(** ** class Auxiliary_Classifier *)

Module Auxiliary_Classifier.
Section Class.
Context {A : Type} {SA : Scalar A}.
Local Open Scope eager_scope.

Record t : Type := mk {
  avgpool1 : Pool2d;
  conv2 : Conv2d A;
  fc3 : Linear A;
  dropout4 : Dropout;
  fc5 : Linear A
}.

(** __init__(self, in_ch, num_classes) *)
Definition init (theta : StateDict A) (name : string) (in_ch num_classes : Z)
    : result t :=
  (let avgpool1 := Pool2d_new 5 3 0 in
   conv2 <-- Conv2d_new theta (name ++ ".conv2") in_ch 128 1 1 0 ;;;
   fc3 <-- Linear_new theta (name ++ ".fc3") (4 * 4 * 128) 1024 ;;;
   dropout4 <-- Dropout_new (7 # 10) ;;;
   fc5 <-- Linear_new theta (name ++ ".fc5") 1024 num_classes ;;;
   Ok (mk avgpool1 conv2 fc3 dropout4 fc5))%result.

Definition forward (self : t) (x : TensorRef) : M A TensorRef :=
  (* x = self.avgpool1(x) *)
  x <- AvgPool2d_call (avgpool1 self) x ;;
  (* x = F.relu(self.conv2(x)) *)
  x <- Conv2d_call (conv2 self) x ;;
  x <- F_relu x ;;
  (* x = F.relu(self.fc3(x.reshape(x.shape[0], -1))) *)
  n <- shape_at x 0 ;;
  x <- reshape x [n; -1] ;;
  x <- Linear_call (fc3 self) x ;;
  x <- F_relu x ;;
  (* x = self.dropout4(x) *)
  x <- Dropout_call (dropout4 self) x ;;
  (* scores = self.fc5(x) *)
  scores <- Linear_call (fc5 self) x ;;
  ret scores.

(** nn.Module.eval() / train(): the mode flag of every sub-module. *)
Definition eval (self : t) : t :=
  mk (avgpool1 self) (conv2 self) (fc3 self) (Dropout_eval (dropout4 self)) (fc5 self).

Definition train (self : t) : t :=
  mk (avgpool1 self) (conv2 self) (fc3 self) (Dropout_train (dropout4 self)) (fc5 self).

End Class.
Arguments t A : clear implicits.
End Auxiliary_Classifier.

(** ** class Inception_Net *)

Module Inception_Net.
Section Class.
Context {A : Type} {SA : Scalar A}.
Local Open Scope eager_scope.
Local Open Scope string_scope.

Record t : Type := mk {
  inception_params : list (string * BlockParameters);
  conv1 : Conv2d A;
  maxpool1 : Pool2d;
  reduce2 : Conv2d A;
  conv2 : Conv2d A;
  maxpool2 : Pool2d;
  inception3a : Inception_Block.t A;
  inception3b : Inception_Block.t A;
  maxpool3 : Pool2d;
  inception4a : Inception_Block.t A;
  inception4b : Inception_Block.t A;
  inception4c : Inception_Block.t A;
  inception4d : Inception_Block.t A;
  inception4e : Inception_Block.t A;
  maxpool4 : Pool2d;
  inception5a : Inception_Block.t A;
  inception5b : Inception_Block.t A;
  avgpool5 : Pool2d;
  dropout5 : Dropout;
  linear5 : Linear A;
  aux_classifier1 : Auxiliary_Classifier.t A;
  aux_classifier2 : Auxiliary_Classifier.t A
}.

(** from Table 1 in the paper *)
Definition table1 : list (string * BlockParameters) :=
  [ ("inception3a", (192, 64, 96, 128, 16, 32, 32));
    ("inception3b", (256, 128, 128, 192, 32, 96, 64));
    ("inception4a", (480, 192, 96, 208, 16, 48, 64));
    ("inception4b", (512, 160, 112, 224, 24, 64, 64));
    ("inception4c", (512, 128, 128, 256, 24, 64, 64));
    ("inception4d", (512, 112, 144, 288, 32, 64, 64));
    ("inception4e", (528, 256, 160, 320, 32, 128, 128));
    ("inception5a", (832, 256, 160, 320, 32, 128, 128));
    ("inception5b", (832, 384, 192, 384, 48, 128, 128)) ].

(** Inception_Block(self.inception_params[key]) *)
Definition block (theta : StateDict A) (params : list (string * BlockParameters))
    (key : string) : result (Inception_Block.t A) :=
  (p <-- dict_get params key ;;; Inception_Block.init theta key p)%result.

(** __init__(self, num_classes) *)
Definition init (theta : StateDict A) (num_classes : Z) : result t :=
  (let inception_params := table1 in
   conv1 <-- Conv2d_new theta "conv1" 3 64 7 2 3 ;;;
   let maxpool1 := Pool2d_new 3 2 1 in
   reduce2 <-- Conv2d_new theta "reduce2" 64 64 1 1 0 ;;;
   conv2 <-- Conv2d_new theta "conv2" 64 192 3 1 1 ;;;
   let maxpool2 := Pool2d_new 3 2 1 in
   inception3a <-- block theta inception_params "inception3a" ;;;
   inception3b <-- block theta inception_params "inception3b" ;;;
   let maxpool3 := Pool2d_new 3 2 1 in
   inception4a <-- block theta inception_params "inception4a" ;;;
   inception4b <-- block theta inception_params "inception4b" ;;;
   inception4c <-- block theta inception_params "inception4c" ;;;
   inception4d <-- block theta inception_params "inception4d" ;;;
   inception4e <-- block theta inception_params "inception4e" ;;;
   let maxpool4 := Pool2d_new 3 2 1 in
   inception5a <-- block theta inception_params "inception5a" ;;;
   inception5b <-- block theta inception_params "inception5b" ;;;
   let avgpool5 := Pool2d_new 7 1 0 in
   dropout5 <-- Dropout_new (4 # 10) ;;;
   linear5 <-- Linear_new theta "linear5" 1024 num_classes ;;;
   (* Auxiliary classifiers *)
   aux_classifier1 <-- Auxiliary_Classifier.init theta "aux_classifier1" 512 num_classes ;;;
   aux_classifier2 <-- Auxiliary_Classifier.init theta "aux_classifier2" 528 num_classes ;;;
   Ok (mk inception_params conv1 maxpool1 reduce2 conv2 maxpool2
          inception3a inception3b maxpool3
          inception4a inception4b inception4c inception4d inception4e maxpool4
          inception5a inception5b avgpool5 dropout5 linear5
          aux_classifier1 aux_classifier2))%result.

Definition forward (self : t) (x : TensorRef)
    : M A (TensorRef * TensorRef * TensorRef) :=
  (* x = F.relu(self.conv1(x)) *)
  x <- Conv2d_call (conv1 self) x ;;
  x <- F_relu x ;;
  x <- MaxPool2d_call (maxpool1 self) x ;;
  (* x = F.relu(self.conv2(F.relu(self.reduce2(x)))) *)
  x <- Conv2d_call (reduce2 self) x ;;
  x <- F_relu x ;;
  x <- Conv2d_call (conv2 self) x ;;
  x <- F_relu x ;;
  x <- MaxPool2d_call (maxpool2 self) x ;;
  x <- Inception_Block.forward (inception3a self) x ;;
  x <- Inception_Block.forward (inception3b self) x ;;
  x <- MaxPool2d_call (maxpool3 self) x ;;
  x <- Inception_Block.forward (inception4a self) x ;;
  aux0 <- clone x ;;    (* for auxiliary branch connected to 4a *)
  x <- Inception_Block.forward (inception4b self) x ;;
  x <- Inception_Block.forward (inception4c self) x ;;
  x <- Inception_Block.forward (inception4d self) x ;;
  aux1 <- clone x ;;    (* for auxiliary branch connected to 4d *)
  x <- Inception_Block.forward (inception4e self) x ;;
  x <- MaxPool2d_call (maxpool4 self) x ;;
  x <- Inception_Block.forward (inception5a self) x ;;
  x <- Inception_Block.forward (inception5b self) x ;;
  x <- AvgPool2d_call (avgpool5 self) x ;;
  (* x = self.dropout5(x.reshape(x.shape[0], -1)) *)
  n <- shape_at x 0 ;;
  x <- reshape x [n; -1] ;;
  x <- Dropout_call (dropout5 self) x ;;
  (* main branch scores *)
  scores2 <- Linear_call (linear5 self) x ;;
  (* auxiliary classifiers *)
  scores0 <- Auxiliary_Classifier.forward (aux_classifier1 self) aux0 ;;
  scores1 <- Auxiliary_Classifier.forward (aux_classifier2 self) aux1 ;;
  ret (scores0, scores1, scores2).

(** model.eval() and model.train() *)
Definition eval (self : t) : t :=
  mk (inception_params self) (conv1 self) (maxpool1 self) (reduce2 self)
     (conv2 self) (maxpool2 self) (inception3a self) (inception3b self)
     (maxpool3 self) (inception4a self) (inception4b self) (inception4c self)
     (inception4d self) (inception4e self) (maxpool4 self) (inception5a self)
     (inception5b self) (avgpool5 self) (Dropout_eval (dropout5 self))
     (linear5 self)
     (Auxiliary_Classifier.eval (aux_classifier1 self))
     (Auxiliary_Classifier.eval (aux_classifier2 self)).

Definition train (self : t) : t :=
  mk (inception_params self) (conv1 self) (maxpool1 self) (reduce2 self)
     (conv2 self) (maxpool2 self) (inception3a self) (inception3b self)
     (maxpool3 self) (inception4a self) (inception4b self) (inception4c self)
     (inception4d self) (inception4e self) (maxpool4 self) (inception5a self)
     (inception5b self) (avgpool5 self) (Dropout_train (dropout5 self))
     (linear5 self)
     (Auxiliary_Classifier.train (aux_classifier1 self))
     (Auxiliary_Classifier.train (aux_classifier2 self)).

End Class.
Arguments t A : clear implicits.
End Inception_Net.

(** ** What a program computes, without the store

    The value a program returns is a function of the values its
    arguments denote and of the generator.  The functions below read the
    three [forward] methods over tensor values; [sim] relates a run in
    the store to them.  They are used to state and prove the theorems,
    the programs above are the embedding of the notebook. *)

Section Denotation.

Context {A : Type} {SA : Scalar A}.

Definition G (X : Type) : Type := Generator -> result (X * Generator).

Definition gret {X : Type} (x : X) : G X := fun g => Ok (x, g).

Definition gbind {X Y : Type} (m : G X) (k : X -> G Y) : G Y :=
  fun g => match m g with
           | Ok (x, g') => k x g'
           | Raise e => Raise e
           end.

Definition glift {X : Type} (r : result X) : G X :=
  fun g => match r with
           | Ok x => Ok (x, g)
           | Raise e => Raise e
           end.

Definition reshape_v (x : Tensor A) (target : list Z) : result (Tensor A) :=
  (sh <-- infer_size target (numel (shape x)) ;;;
   Ok {| shape := sh; data := data x |})%result.

Definition dropout_g (m : Dropout) (x : Tensor A) : G (Tensor A) :=
  fun g =>
    if negb (drop_training m) || Qeq_bool (drop_p m) 0 || (numel (shape x) =? 0)
    then Ok (x, g)
    else Ok (dropout_v (drop_p m) g x, advance g (numel (shape x))).

Definition Inception_Block_value (self : Inception_Block.t A) (x : Tensor A)
    : result (Tensor A) :=
  (a <-- conv2d_v (Inception_Block.conv1 self) x ;;;
   conv1_out <-- Ok (relu_v a) ;;;
   a <-- conv2d_v (Inception_Block.reduce2 self) x ;;;
   a <-- Ok (relu_v a) ;;;
   a <-- conv2d_v (Inception_Block.conv2 self) a ;;;
   conv2_out <-- Ok (relu_v a) ;;;
   a <-- conv2d_v (Inception_Block.reduce3 self) x ;;;
   a <-- Ok (relu_v a) ;;;
   a <-- conv2d_v (Inception_Block.conv3 self) a ;;;
   conv3_out <-- Ok (relu_v a) ;;;
   a <-- max_pool2d_v (Inception_Block.maxpool4 self) x ;;;
   a <-- conv2d_v (Inception_Block.conv4 self) a ;;;
   conv4_out <-- Ok (relu_v a) ;;;
   output <-- cat1_v [conv1_out; conv2_out; conv3_out; conv4_out] ;;;
   Ok output)%result.

Definition Auxiliary_Classifier_value (self : Auxiliary_Classifier.t A)
    (x : Tensor A) : G (Tensor A) :=
  gbind (glift (avg_pool2d_v (Auxiliary_Classifier.avgpool1 self) x)) (fun x =>
  gbind (glift (conv2d_v (Auxiliary_Classifier.conv2 self) x)) (fun x =>
  gbind (glift (Ok (relu_v x))) (fun x =>
  gbind (glift (size (shape x) 0)) (fun n =>
  gbind (glift (reshape_v x [n; -1])) (fun x =>
  gbind (glift (linear_v (Auxiliary_Classifier.fc3 self) x)) (fun x =>
  gbind (glift (Ok (relu_v x))) (fun x =>
  gbind (dropout_g (Auxiliary_Classifier.dropout4 self) x) (fun x =>
  gbind (glift (linear_v (Auxiliary_Classifier.fc5 self) x)) (fun scores =>
  gret scores))))))))).

(** The trunk up to the first tap, between the taps, and after the
    second tap up to the pooled features. *)
Definition trunk_to_4a (self : Inception_Net.t A) (x : Tensor A) : result (Tensor A) :=
  (x <-- conv2d_v (Inception_Net.conv1 self) x ;;;
   x <-- Ok (relu_v x) ;;;
   x <-- max_pool2d_v (Inception_Net.maxpool1 self) x ;;;
   x <-- conv2d_v (Inception_Net.reduce2 self) x ;;;
   x <-- Ok (relu_v x) ;;;
   x <-- conv2d_v (Inception_Net.conv2 self) x ;;;
   x <-- Ok (relu_v x) ;;;
   x <-- max_pool2d_v (Inception_Net.maxpool2 self) x ;;;
   x <-- Inception_Block_value (Inception_Net.inception3a self) x ;;;
   x <-- Inception_Block_value (Inception_Net.inception3b self) x ;;;
   x <-- max_pool2d_v (Inception_Net.maxpool3 self) x ;;;
   Inception_Block_value (Inception_Net.inception4a self) x)%result.

Definition trunk_4a_to_4d (self : Inception_Net.t A) (x : Tensor A) : result (Tensor A) :=
  (x <-- Inception_Block_value (Inception_Net.inception4b self) x ;;;
   x <-- Inception_Block_value (Inception_Net.inception4c self) x ;;;
   Inception_Block_value (Inception_Net.inception4d self) x)%result.

Definition trunk_4d_to_pool (self : Inception_Net.t A) (x : Tensor A) : result (Tensor A) :=
  (x <-- Inception_Block_value (Inception_Net.inception4e self) x ;;;
   x <-- max_pool2d_v (Inception_Net.maxpool4 self) x ;;;
   x <-- Inception_Block_value (Inception_Net.inception5a self) x ;;;
   x <-- Inception_Block_value (Inception_Net.inception5b self) x ;;;
   avg_pool2d_v (Inception_Net.avgpool5 self) x)%result.

(** The main head on the pooled features. *)
Definition main_head (self : Inception_Net.t A) (x : Tensor A) : G (Tensor A) :=
  gbind (glift (size (shape x) 0)) (fun n =>
  gbind (glift (reshape_v x [n; -1])) (fun x =>
  gbind (dropout_g (Inception_Net.dropout5 self) x) (fun x =>
  glift (linear_v (Inception_Net.linear5 self) x)))).

Definition Inception_Net_value (self : Inception_Net.t A) (x : Tensor A)
    : G (Tensor A * Tensor A * Tensor A) :=
  gbind (glift (trunk_to_4a self x)) (fun x4a =>
  gbind (glift (trunk_4a_to_4d self x4a)) (fun x4d =>
  gbind (glift (trunk_4d_to_pool self x4d)) (fun pooled =>
  gbind (main_head self pooled) (fun scores2 =>
  gbind (Auxiliary_Classifier_value (Inception_Net.aux_classifier1 self) x4a) (fun scores0 =>
  gbind (Auxiliary_Classifier_value (Inception_Net.aux_classifier2 self) x4d) (fun scores1 =>
  gret (scores0, scores1, scores2))))))).

(** ** Runs in the store against values *)

(** [x] denotes [v] in [s]. *)
Definition pts (s : Store A) (x : TensorRef) (v : Tensor A) : Prop :=
  nth_error (heap s) (loc x) = Some (data v) /\ vshape x = shape v.

(** [s'] holds every storage of [s], unchanged, and possibly new ones. *)
Definition extends (s s' : Store A) : Prop :=
  exists l, heap s' = heap s ++ l.

Definition pts3 (s : Store A) (x : TensorRef * TensorRef * TensorRef)
    (v : Tensor A * Tensor A * Tensor A) : Prop :=
  pts s (fst (fst x)) (fst (fst v)) /\
  pts s (snd (fst x)) (snd (fst v)) /\
  pts s (snd x) (snd v).

(** The run of [m] from [s] fails as [p] does, or returns what [p]
    returns, in a store that extends [s], with the generator [p] leaves. *)
Definition sim {X Y : Type} (R : Store A -> X -> Y -> Prop) (s : Store A)
    (m : M A X) (p : G Y) : Prop :=
  match p (rng s) with
  | Raise e => m s = Raise e
  | Ok (yv, g') =>
      exists y s', m s = Ok (y, s') /\ R s' y yv /\ extends s s' /\ rng s' = g'
  end.

End Denotation.

(** ** The loss cell *)

Section Loss.

Local Open Scope R_scope.

#[global] Instance Scalar_R : Scalar R := {|
  szero := 0;
  sadd := Rplus;
  smul := Rmult;
  smax := Rmax;
  sdivZ := fun a n => a / IZR n;
  sscaleQ := fun q a => Q2R q * a
|}.

(** Row [i] of a score matrix with [k] columns. *)
Definition row (scores : Tensor R) (k i : Z) : list R :=
  map (fun c => get scores [i; c]) (zrange k).

(** F.log_softmax(scores, dim=1)[i, c] *)
Definition log_softmax (scores : Tensor R) (k i c : Z) : R :=
  get scores [i; c] - ln (ssum (map exp (row scores k i))).

(** The terms of F.nll_loss: one per label, labels equal to
    ignore_index = -100 left out. *)
Fixpoint nll_terms (scores : Tensor R) (k i : Z) (y : list Z) : list R :=
  match y with
  | [] => []
  | c :: y' =>
      (if (c =? -100)%Z then [] else [- log_softmax scores k i c])
        ++ nll_terms scores k (i + 1) y'
  end.

(** F.cross_entropy(scores, y) on scores of shape (N, C) and N class
    indices, with the default mean reduction. *)
Definition cross_entropy (scores : Tensor R) (y : list Z) : result R :=
  match shape scores with
  | [n; k] =>
      if negb (Z.of_nat (List.length y) =? n)%Z then Raise BatchMismatch
      else if existsb (fun c => negb (c =? -100)%Z && ((c <? 0)%Z || (k <=? c)%Z)) y
           then Raise TargetOutOfBounds
      else
        let terms := nll_terms scores k 0 y in
        Ok (ssum terms / INR (List.length terms))
  | _ => Raise BadRank
  end.

Definition F_cross_entropy (scores : TensorRef) (y : list Z) : M R R :=
  bind (load scores) (fun v => lift (cross_entropy v y)).

(** The cell after [scores0, scores1, scores2 = model(x)]. *)
Definition total_loss (scores0 scores1 scores2 : TensorRef) (y : list Z) : M R R :=
  (aux_loss1 <- F_cross_entropy scores0 y ;;   (* auxiliary loss 1 *)
   aux_loss2 <- F_cross_entropy scores1 y ;;   (* auxiliary loss 2 *)
   main_loss <- F_cross_entropy scores2 y ;;   (* main loss *)
   (* calculate weighted loss according to paper *)
   ret (main_loss + (0.3 * aux_loss1) + (0.3 * aux_loss2)))%eager.

Definition loss_cell (model : Inception_Net.t R) (x : TensorRef) (y : list Z) : M R R :=
  (scores <- Inception_Net.forward model x ;;
   let '(scores0, scores1, scores2) := scores in
   total_loss scores0 scores1 scores2 y)%eager.

(** The textbook definition, for comparison: the mean over the batch of
    minus the logarithm of the softmax probability of the label. *)
Definition softmax (scores : Tensor R) (k i c : Z) : R :=
  exp (get scores [i; c]) / ssum (map exp (row scores k i)).

Fixpoint standard_nll (scores : Tensor R) (k i : Z) (y : list Z) : R :=
  match y with
  | [] => 0
  | c :: y' => - ln (softmax scores k i c) + standard_nll scores k (i + 1) y'
  end.

Definition standard_cross_entropy (scores : Tensor R) (y : list Z) : R :=
  standard_nll scores (nth 1 (shape scores) 0%Z) 0 y / INR (List.length y).

End Loss.

(** ** Vocabulary of the theorems *)

(** The output size of the stride-2 stages (the 7x7 convolution with
    padding 3 and the 3x3 max-pools with padding 1). *)
Definition down (h : Z) : Z := (h - 1) / 2 + 1.

Section Vocabulary.

Context {A : Type} {SA : Scalar A}.
Local Open Scope eager_scope.

Definition nonneg_params (p : BlockParameters) : Prop :=
  let '(in_ch, out1, red2, out2, red3, out3, out4) := p in
  0 <= in_ch /\ 0 <= out1 /\ 0 <= red2 /\ 0 <= out2 /\
  0 <= red3 /\ 0 <= out3 /\ 0 <= out4.

(** Counts up to 1024, which covers every count of Table 1. *)
Definition small_params (p : BlockParameters) : Prop :=
  let '(in_ch, out1, red2, out2, red3, out3, out4) := p in
  0 <= in_ch <= 1024 /\ 0 <= out1 <= 1024 /\ 0 <= red2 <= 1024 /\
  0 <= out2 <= 1024 /\ 0 <= red3 <= 1024 /\ 0 <= out3 <= 1024 /\
  0 <= out4 <= 1024.

(** The errors of an allocation. *)
Definition allocation_error (e : TorchError) : Prop :=
  e = SizeNotInt64 \/ e = NegativeDimension \/ e = StorageOverflow.

Definition positive_params (p : BlockParameters) : Prop :=
  let '(in_ch, out1, red2, out2, red3, out3, out4) := p in
  0 < in_ch /\ 0 < out1 /\ 0 < red2 /\ 0 < out2 /\
  0 < red3 /\ 0 < out3 /\ 0 < out4.

Definition in_channels (p : BlockParameters) : Z :=
  let '(in_ch, _, _, _, _, _, _) := p in in_ch.

Definition out_channels (p : BlockParameters) : Z :=
  let '(_, out1, _, out2, _, out3, out4) := p in out1 + out2 + out3 + out4.

(** The layers a block is built with. *)
Definition block_layers (theta : StateDict A) (name : string) (p : BlockParameters)
    : Inception_Block.t A :=
  let '(in_ch, out1, red2, out2, red3, out3, out4) := p in
  let w k := theta (name ++ k ++ ".weight")%string in
  let b k := theta (name ++ k ++ ".bias")%string in
  Inception_Block.mk
    (mkConv2d in_ch out1 1 1 0 (w ".conv1"%string) (b ".conv1"%string))
    (mkConv2d in_ch red2 1 1 0 (w ".reduce2"%string) (b ".reduce2"%string))
    (mkConv2d red2 out2 3 1 1 (w ".conv2"%string) (b ".conv2"%string))
    (mkConv2d in_ch red3 1 1 0 (w ".reduce3"%string) (b ".reduce3"%string))
    (mkConv2d red3 out3 5 1 2 (w ".conv3"%string) (b ".conv3"%string))
    (mkPool2d 3 1 1)
    (mkConv2d in_ch out4 1 1 0 (w ".conv4"%string) (b ".conv4"%string)).

(** The channel count a block expects and the one it produces. *)
Definition block_in (b : Inception_Block.t A) : Z :=
  conv_in (Inception_Block.conv1 b).

Definition block_out (b : Inception_Block.t A) : Z :=
  conv_out (Inception_Block.conv1 b) + conv_out (Inception_Block.conv2 b) +
  conv_out (Inception_Block.conv3 b) + conv_out (Inception_Block.conv4 b).

(** Kernel size, stride and padding of a convolution. *)
Definition conv_geometry (m : Conv2d A) (k st p : Z) : Prop :=
  conv_k m = k /\ conv_stride m = st /\ conv_pad m = p.

(** The four branches of a block on the value [v], and what the block
    returns: their concatenation, in this order. *)
Record Branches (self : Inception_Block.t A) (v : Tensor A)
    (b1 b2 b3 b4 : Tensor A) : Prop := {
  branch1 : exists c1,
    conv2d_v (Inception_Block.conv1 self) v = Ok c1 /\ b1 = relu_v c1;
  branch2 : exists a c2,
    conv2d_v (Inception_Block.reduce2 self) v = Ok a /\
    conv2d_v (Inception_Block.conv2 self) (relu_v a) = Ok c2 /\ b2 = relu_v c2;
  branch3 : exists a c3,
    conv2d_v (Inception_Block.reduce3 self) v = Ok a /\
    conv2d_v (Inception_Block.conv3 self) (relu_v a) = Ok c3 /\ b3 = relu_v c3;
  branch4 : exists a c4,
    max_pool2d_v (Inception_Block.maxpool4 self) v = Ok a /\
    conv2d_v (Inception_Block.conv4 self) a = Ok c4 /\ b4 = relu_v c4
}.

(** The layers an auxiliary classifier is built with. *)
Definition aux_layers (theta : StateDict A) (name : string) (in_ch num_classes : Z)
    : Auxiliary_Classifier.t A :=
  Auxiliary_Classifier.mk
    (mkPool2d 5 3 0)
    (mkConv2d in_ch 128 1 1 0 (theta (name ++ ".conv2.weight")%string)
                              (theta (name ++ ".conv2.bias")%string))
    (mkLinear 2048 1024 (theta (name ++ ".fc3.weight")%string)
                        (theta (name ++ ".fc3.bias")%string))
    (mkDropout (7 # 10) true)
    (mkLinear 1024 num_classes (theta (name ++ ".fc5.weight")%string)
                               (theta (name ++ ".fc5.bias")%string)).

Definition table_entry (key : string) : BlockParameters :=
  match dict_get (@Inception_Net.table1) key with
  | Ok p => p
  | Raise _ => (0, 0, 0, 0, 0, 0, 0)
  end.

Definition table_block (theta : StateDict A) (key : string) : Inception_Block.t A :=
  block_layers theta key (table_entry key).

(** The layers the network is built with. *)
Definition net_layers (theta : StateDict A) (num_classes : Z) : Inception_Net.t A :=
  Inception_Net.mk
    Inception_Net.table1
    (mkConv2d 3 64 7 2 3 (theta "conv1.weight"%string) (theta "conv1.bias"%string))
    (mkPool2d 3 2 1)
    (mkConv2d 64 64 1 1 0 (theta "reduce2.weight"%string) (theta "reduce2.bias"%string))
    (mkConv2d 64 192 3 1 1 (theta "conv2.weight"%string) (theta "conv2.bias"%string))
    (mkPool2d 3 2 1)
    (table_block theta "inception3a")
    (table_block theta "inception3b")
    (mkPool2d 3 2 1)
    (table_block theta "inception4a")
    (table_block theta "inception4b")
    (table_block theta "inception4c")
    (table_block theta "inception4d")
    (table_block theta "inception4e")
    (mkPool2d 3 2 1)
    (table_block theta "inception5a")
    (table_block theta "inception5b")
    (mkPool2d 7 1 0)
    (mkDropout (4 # 10) true)
    (mkLinear 1024 num_classes (theta "linear5.weight"%string)
                               (theta "linear5.bias"%string))
    (aux_layers theta "aux_classifier1" 512 num_classes)
    (aux_layers theta "aux_classifier2" 528 num_classes).

(** The values along the trunk, from the input to the features the
    final pooling receives, with the spatial sizes after each stage. *)
Definition trunk_trace (net : Inception_Net.t A) (v : Tensor A)
    (N H1 W1 H2 W2 H3 W3 H4 W4 H5 W5 : Z) (x4a x4d feat : Tensor A) : Prop :=
  exists a1 a2 a3 a4 a5 b3a b3b a6 b4b b4c b4e a7 b5a,
    conv2d_v (Inception_Net.conv1 net) v = Ok a1 /\
    shape a1 = [N; 64; H1; W1] /\
    max_pool2d_v (Inception_Net.maxpool1 net) (relu_v a1) = Ok a2 /\
    shape a2 = [N; 64; H2; W2] /\
    conv2d_v (Inception_Net.reduce2 net) a2 = Ok a3 /\
    conv2d_v (Inception_Net.conv2 net) (relu_v a3) = Ok a4 /\
    max_pool2d_v (Inception_Net.maxpool2 net) (relu_v a4) = Ok a5 /\
    shape a5 = [N; 192; H3; W3] /\
    Inception_Block_value (Inception_Net.inception3a net) a5 = Ok b3a /\
    Inception_Block_value (Inception_Net.inception3b net) b3a = Ok b3b /\
    max_pool2d_v (Inception_Net.maxpool3 net) b3b = Ok a6 /\
    shape a6 = [N; 480; H4; W4] /\
    Inception_Block_value (Inception_Net.inception4a net) a6 = Ok x4a /\
    shape x4a = [N; 512; H4; W4] /\
    Inception_Block_value (Inception_Net.inception4b net) x4a = Ok b4b /\
    Inception_Block_value (Inception_Net.inception4c net) b4b = Ok b4c /\
    Inception_Block_value (Inception_Net.inception4d net) b4c = Ok x4d /\
    shape x4d = [N; 528; H4; W4] /\
    Inception_Block_value (Inception_Net.inception4e net) x4d = Ok b4e /\
    max_pool2d_v (Inception_Net.maxpool4 net) b4e = Ok a7 /\
    shape a7 = [N; 832; H5; W5] /\
    Inception_Block_value (Inception_Net.inception5a net) a7 = Ok b5a /\
    Inception_Block_value (Inception_Net.inception5b net) b5a = Ok feat /\
    shape feat = [N; 1024; H5; W5].

(** The lines of [Inception_Net.forward] before the first tap, between
    the taps, and after the second tap. *)
Definition forward_to_4a (self : Inception_Net.t A) (x : TensorRef) : M A TensorRef :=
  x <- Conv2d_call (Inception_Net.conv1 self) x ;;
  x <- F_relu x ;;
  x <- MaxPool2d_call (Inception_Net.maxpool1 self) x ;;
  x <- Conv2d_call (Inception_Net.reduce2 self) x ;;
  x <- F_relu x ;;
  x <- Conv2d_call (Inception_Net.conv2 self) x ;;
  x <- F_relu x ;;
  x <- MaxPool2d_call (Inception_Net.maxpool2 self) x ;;
  x <- Inception_Block.forward (Inception_Net.inception3a self) x ;;
  x <- Inception_Block.forward (Inception_Net.inception3b self) x ;;
  x <- MaxPool2d_call (Inception_Net.maxpool3 self) x ;;
  Inception_Block.forward (Inception_Net.inception4a self) x.

Definition forward_4b_to_4d (self : Inception_Net.t A) (x : TensorRef) : M A TensorRef :=
  x <- Inception_Block.forward (Inception_Net.inception4b self) x ;;
  x <- Inception_Block.forward (Inception_Net.inception4c self) x ;;
  Inception_Block.forward (Inception_Net.inception4d self) x.

Definition forward_after_taps (self : Inception_Net.t A) (x aux0 aux1 : TensorRef)
    : M A (TensorRef * TensorRef * TensorRef) :=
  x <- Inception_Block.forward (Inception_Net.inception4e self) x ;;
  x <- MaxPool2d_call (Inception_Net.maxpool4 self) x ;;
  x <- Inception_Block.forward (Inception_Net.inception5a self) x ;;
  x <- Inception_Block.forward (Inception_Net.inception5b self) x ;;
  x <- AvgPool2d_call (Inception_Net.avgpool5 self) x ;;
  n <- shape_at x 0 ;;
  x <- reshape x [n; -1] ;;
  x <- Dropout_call (Inception_Net.dropout5 self) x ;;
  scores2 <- Linear_call (Inception_Net.linear5 self) x ;;
  scores0 <- Auxiliary_Classifier.forward (Inception_Net.aux_classifier1 self) aux0 ;;
  scores1 <- Auxiliary_Classifier.forward (Inception_Net.aux_classifier2 self) aux1 ;;
  ret (scores0, scores1, scores2).

(** A computation that neither reads nor moves the generator. *)
Definition gpure {Y : Type} (p : G Y) : Prop :=
  exists r : result Y, forall g, p g = glift r g.

(** Every dropout layer of the network is outside training mode. *)
Definition inference_mode (net : Inception_Net.t A) : Prop :=
  drop_training (Inception_Net.dropout5 net) = false /\
  drop_training (Auxiliary_Classifier.dropout4 (Inception_Net.aux_classifier1 net)) = false /\
  drop_training (Auxiliary_Classifier.dropout4 (Inception_Net.aux_classifier2 net)) = false.

(** The shape of the tensor a run returns, or its error. *)
Definition run_shape (r : result (TensorRef * Store A)) : result (list Z) :=
  match r with
  | Ok (y, _) => Ok (vshape y)
  | Raise e => Raise e
  end.

Definition run_shapes3 (r : result ((TensorRef * TensorRef * TensorRef) * Store A))
    : result (list Z * list Z * list Z) :=
  match r with
  | Ok ((y0, y1, y2), _) => Ok (vshape y0, vshape y1, vshape y2)
  | Raise e => Raise e
  end.

(** What a caller sees of a run: the three score tensors, or the error. *)
Definition observe (r : result ((TensorRef * TensorRef * TensorRef) * Store A))
    : result (Tensor A * Tensor A * Tensor A) :=
  match r with
  | Ok ((y0, y1, y2), s') =>
      match load y0 s', load y1 s', load y2 s' with
      | Ok (v0, _), Ok (v1, _), Ok (v2, _) => Ok (v0, v1, v2)
      | _, _, _ => Raise Dangling
      end
  | Raise e => Raise e
  end.

(** The hyper-parameters of the layers, without their weights. *)
Definition conv_hyper (m : Conv2d A) : Z * Z * Z * Z * Z :=
  (conv_in m, conv_out m, conv_k m, conv_stride m, conv_pad m).

Definition lin_hyper (m : Linear A) : Z * Z := (lin_in m, lin_out m).

Definition block_hyper (b : Inception_Block.t A) :=
  (conv_hyper (Inception_Block.conv1 b),
   conv_hyper (Inception_Block.reduce2 b), conv_hyper (Inception_Block.conv2 b),
   conv_hyper (Inception_Block.reduce3 b), conv_hyper (Inception_Block.conv3 b),
   Inception_Block.maxpool4 b, conv_hyper (Inception_Block.conv4 b)).

Definition aux_hyper (a : Auxiliary_Classifier.t A) :=
  (Auxiliary_Classifier.avgpool1 a, conv_hyper (Auxiliary_Classifier.conv2 a),
   lin_hyper (Auxiliary_Classifier.fc3 a), lin_hyper (Auxiliary_Classifier.fc5 a)).

(** The architecture of a network: every hyper-parameter that is not a
    weight, a dropout probability or the training flag. *)
Definition net_hyper (net : Inception_Net.t A) :=
  (conv_hyper (Inception_Net.conv1 net), Inception_Net.maxpool1 net,
   conv_hyper (Inception_Net.reduce2 net), conv_hyper (Inception_Net.conv2 net),
   Inception_Net.maxpool2 net,
   block_hyper (Inception_Net.inception3a net),
   block_hyper (Inception_Net.inception3b net),
   Inception_Net.maxpool3 net,
   block_hyper (Inception_Net.inception4a net),
   block_hyper (Inception_Net.inception4b net),
   block_hyper (Inception_Net.inception4c net),
   block_hyper (Inception_Net.inception4d net),
   block_hyper (Inception_Net.inception4e net),
   Inception_Net.maxpool4 net,
   block_hyper (Inception_Net.inception5a net),
   block_hyper (Inception_Net.inception5b net),
   Inception_Net.avgpool5 net,
   lin_hyper (Inception_Net.linear5 net),
   aux_hyper (Inception_Net.aux_classifier1 net),
   aux_hyper (Inception_Net.aux_classifier2 net)).

(** What is seen of a result, or its error. *)
Definition robs {X O : Type} (f : X -> O) (r : result X) : result O :=
  match r with
  | Ok x => Ok (f x)
  | Raise e => Raise e
  end.

Definition gobs {X O : Type} (f : X -> O) (p : G X) (g : Generator) : result O :=
  match p g with
  | Ok (x, _) => Ok (f x)
  | Raise e => Raise e
  end.

Definition shapes3 (v : Tensor A * Tensor A * Tensor A) : list Z * list Z * list Z :=
  let '(a, b, c) := v in (shape a, shape b, shape c).

End Vocabulary.

(** ** Concrete inputs *)

(** A state dictionary, a store with one input storage, and references
    to it under the shapes the examples need. *)
Definition theta0 : StateDict Q := fun _ o => (inject_Z o / 7)%Q.

Definition store0 : Store Q :=
  {| heap := [fun o => inject_Z (o mod 5)];
     rng := {| stream := fun i => (inject_Z (i mod 10) / 10)%Q; cursor := 0 |} |}.

Definition input_ref (sh : list Z) : TensorRef := {| loc := 0; vshape := sh |}.

Definition input_value (sh : list Z) : Tensor Q :=
  {| shape := sh; data := fun o => inject_Z (o mod 5) |}.

Definition storeR : Store R :=
  {| heap := [fun o => IZR o]; rng := {| stream := fun _ => 0%Q; cursor := 0 |} |}.

Definition scoresR : Tensor R := {| shape := [2; 3]; data := fun o => IZR o |}.

Definition labels0 : list Z := [0; 2].

(** A second state dictionary and a second store, with other contents
    and another generator. *)
Definition theta1 : StateDict Q := fun _ _ => 1%Q.

Definition store1 : Store Q :=
  {| heap := [fun _ => 0%Q; fun o => inject_Z o];
     rng := {| stream := fun _ => (1 # 2)%Q; cursor := 7 |} |}.

Definition input_ref1 (sh : list Z) : TensorRef := {| loc := 1; vshape := sh |}.

Definition input_value1 (sh : list Z) : Tensor Q :=
  {| shape := sh; data := fun o => inject_Z o |}.

(** Real-valued parameters and inputs, for the loss. *)
Definition thetaR : StateDict R := fun _ o => IZR o.

Definition input_valueR (sh : list Z) : Tensor R :=
  {| shape := sh; data := fun o => IZR o |}.

Definition storeR0 : Store R :=
  {| heap := [fun _ => 0%R]; rng := {| stream := fun _ => 0%Q; cursor := 0 |} |}.

Definition flatR : Tensor R := {| shape := [2; 3]; data := fun _ => 0%R |}.

Definition labels_bad : list Z := [0; 3].

Definition labels_short : list Z := [0].

(** * Theorems *)

Ltac Zify.zify_post_hook ::= Z.to_euclidean_division_equations.

(** ** The store only grows *)

Section Simulation.

Context {A : Type} {SA : Scalar A}.
Implicit Types (s : Store A) (v : Tensor A).

Lemma extends_refl (s : Store A) : extends s s.
Proof. exists []. now rewrite app_nil_r. Qed.

Lemma extends_trans (s1 s2 s3 : Store A) :
  extends s1 s2 -> extends s2 s3 -> extends s1 s3.
Proof.
  intros [l1 H1] [l2 H2]. exists (l1 ++ l2).
  now rewrite H2, H1, app_assoc.
Qed.

Lemma pts_extends (s s' : Store A) x v :
  extends s s' -> pts s x v -> pts s' x v.
Proof.
  intros [l Hl] [Hn Hs]. split; [|exact Hs].
  rewrite Hl. rewrite nth_error_app1; [exact Hn|].
  apply nth_error_Some. congruence.
Qed.

Lemma pts_load s x v : pts s x v -> load x s = Ok (v, s).
Proof.
  intros [Hn Hs]. unfold load. rewrite Hn.
  destruct v as [sh d]; simpl in *. now subst.
Qed.

Lemma load_pts s x v s' : load x s = Ok (v, s') -> pts s x v /\ s' = s.
Proof.
  unfold load, pts. destruct (nth_error (heap s) (loc x)); [|discriminate].
  intros H; inversion H; subst; simpl. auto.
Qed.

Lemma pts_fun s x v v' : pts s x v -> pts s x v' -> v = v'.
Proof.
  intros [Hn Hs] [Hn' Hs']. destruct v, v'; simpl in *.
  f_equal; congruence.
Qed.

Lemma alloc_pts (s : Store A) (r : Tensor A) :
  exists y s', alloc r s = Ok (y, s') /\ pts s' y r /\ extends s s' /\
               rng s' = rng s /\ loc y = List.length (heap s) /\
               heap s' = heap s ++ [data r].
Proof.
  eexists _, _. split; [reflexivity|]. repeat split; simpl.
  - rewrite nth_error_app2 by lia. now rewrite Nat.sub_diag.
  - now exists [data r].
Qed.

(** ** Rules of the simulation *)

Lemma sim_ret {X Y} (R : Store A -> X -> Y -> Prop) s x xv :
  R s x xv -> sim R s (ret x) (gret xv).
Proof.
  intros H. unfold sim, ret, gret. exists x, s. auto using extends_refl.
Qed.

Lemma sim_bind {X Y X' Y'} (R1 : Store A -> X -> Y -> Prop)
    (R2 : Store A -> X' -> Y' -> Prop) s m p k kv :
  sim R1 s m p ->
  (forall s' x xv, extends s s' -> R1 s' x xv -> sim R2 s' (k x) (kv xv)) ->
  sim R2 s (bind m k) (gbind p kv).
Proof.
  unfold sim, bind, gbind. intros Hm Hk.
  destruct (p (rng s)) as [[xv g']|e].
  - destruct Hm as (x & s' & Hrun & HR & Hext & Hg). rewrite Hrun.
    specialize (Hk s' x xv Hext HR). rewrite Hg in Hk.
    destruct (kv xv g') as [[yv g'']|e]; [|exact Hk].
    destruct Hk as (y & s'' & Hrun' & HR' & Hext' & Hg').
    exists y, s''. eauto using extends_trans.
  - now rewrite Hm.
Qed.

Lemma glift_rbind {X Y} (r : result X) (k : X -> result Y) :
  glift (rbind r k) = gbind (glift r) (fun x => glift (k x)).
Proof. destruct r; reflexivity. Qed.

Lemma sim_bind_lift {X Y X' Y'} (R1 : Store A -> X -> Y -> Prop)
    (R2 : Store A -> X' -> Y' -> Prop) s m r k kv :
  sim R1 s m (glift r) ->
  (forall s' x xv, extends s s' -> R1 s' x xv -> sim R2 s' (k x) (glift (kv xv))) ->
  sim R2 s (bind m k) (glift (rbind r kv)).
Proof. rewrite glift_rbind. apply sim_bind. Qed.

Lemma sim_apply1 (f : Tensor A -> result (Tensor A)) s x v :
  pts s x v -> sim pts s (apply1 f x) (glift (f v)).
Proof.
  intros Hx. unfold sim, apply1, bind, lift, glift.
  rewrite (pts_load Hx). destruct (f v) as [r|e]; [|reflexivity].
  destruct (alloc_pts s r) as (y & s' & Hrun & Hy & Hext & Hg & _).
  exists y, s'. auto.
Qed.

Lemma sim_load_all s xs vs :
  Forall2 (pts s) xs vs -> load_all xs s = Ok (vs, s).
Proof.
  induction 1 as [|x v xs vs Hx _ IH]; [reflexivity|].
  simpl. unfold bind. rewrite (pts_load Hx), IH. reflexivity.
Qed.

Lemma sim_torch_cat1 s xs vs :
  Forall2 (pts s) xs vs -> sim pts s (torch_cat1 xs) (glift (cat1_v vs)).
Proof.
  intros Hxs. unfold sim, torch_cat1, bind, lift, glift.
  rewrite (sim_load_all Hxs). destruct (cat1_v vs) as [r|e]; [|reflexivity].
  destruct (alloc_pts s r) as (y & s' & Hrun & Hy & Hext & Hg & _).
  exists y, s'. auto.
Qed.

Lemma sim_shape_at s x v i :
  pts s x v -> sim (fun _ a b => a = b) s (shape_at x i) (glift (size (shape v) i)).
Proof.
  intros [_ Hs]. unfold sim, shape_at, lift, glift. rewrite Hs.
  destruct (size (shape v) i); [|reflexivity].
  eexists _, _. eauto using extends_refl.
Qed.

Lemma sim_reshape s x v target :
  pts s x v -> sim pts s (reshape x target) (glift (reshape_v v target)).
Proof.
  intros Hx. unfold sim, reshape, reshape_v, bind, lift, glift, ret.
  rewrite (pts_load Hx).
  destruct (infer_size target (numel (shape v))) as [sh|e]; simpl; [|reflexivity].
  eexists _, _. split; [reflexivity|].
  destruct Hx as [Hn _]. repeat split; auto using extends_refl.
Qed.

Lemma sim_Dropout_call s m x v :
  pts s x v -> sim pts s (Dropout_call m x) (dropout_g m v).
Proof.
  intros Hx. unfold sim, Dropout_call, dropout_g, bind.
  rewrite (pts_load Hx). cbn [shape].
  destruct (negb (drop_training m) || Qeq_bool (drop_p m) 0 || (numel (shape v) =? 0)).
  - exists x, s. unfold ret. auto using extends_refl.
  - unfold get_rng, set_rng.
    match goal with |- context [alloc ?r ?s0] =>
      destruct (alloc_pts s0 r) as (y & s' & Hrun & Hy & Hext & Hg & _) end.
    exists y, s'. split; [exact Hrun|]. split; [exact Hy|]. split; [|exact Hg].
    destruct Hext as [l Hl]. exists l. exact Hl.
Qed.

End Simulation.

(** ** The three forward methods compute their values *)

Section Refinement.

Context {A : Type} {SA : Scalar A}.
Implicit Types (s : Store A) (v : Tensor A).

Lemma sim_ext {X Y} (R : Store A -> X -> Y -> Prop) s (m : M A X) (p q : G Y) :
  (forall g, p g = q g) -> sim R s m q -> sim R s m p.
Proof. unfold sim. intros H. now rewrite H. Qed.

Lemma sim_bind_seg {X Y X' Y'} (R1 : Store A -> X -> Y -> Prop)
    (R2 : Store A -> X' -> Y' -> Prop) s m (r : result Y) k
    (Z' : Type) (kv : Y -> result Z') (K : Z' -> G Y') :
  sim R1 s m (glift r) ->
  (forall s' x xv, extends s s' -> R1 s' x xv ->
     sim R2 s' (k x) (gbind (glift (kv xv)) K)) ->
  sim R2 s (bind m k) (gbind (glift (rbind r kv)) K).
Proof.
  intros Hm Hk.
  apply sim_ext with (q := gbind (glift r) (fun x => gbind (glift (kv x)) K)).
  - intros g. destruct r; reflexivity.
  - eapply sim_bind; eassumption.
Qed.

Lemma sim_bind_nest {X Y X' Y'} (R1 : Store A -> X -> Y -> Prop)
    (R2 : Store A -> X' -> Y' -> Prop) s m (p : G Y) k
    (Z' : Type) (f : Y -> G Z') (K : Z' -> G Y') :
  sim R1 s m p ->
  (forall s' x xv, extends s s' -> R1 s' x xv ->
     sim R2 s' (k x) (gbind (f xv) K)) ->
  sim R2 s (bind m k) (gbind (gbind p f) K).
Proof.
  intros Hm Hk.
  apply sim_ext with (q := gbind p (fun x => gbind (f x) K)).
  - intros g. unfold gbind. destruct (p g) as [[a g']|e]; reflexivity.
  - eapply sim_bind; eassumption.
Qed.

Lemma sim_clone_skip {X Y} (R : Store A -> X -> Y -> Prop) s x v
    (k : TensorRef -> M A X) (p : G Y) :
  pts s x v ->
  (forall s' y, extends s s' -> pts s' y v -> sim R s' (k y) p) ->
  sim R s (bind (clone x) k) p.
Proof.
  intros Hx Hk.
  apply sim_ext with (q := gbind (glift (Ok v)) (fun _ => p)).
  - reflexivity.
  - apply sim_bind with (R1 := fun s' y (_ : Tensor A) => pts s' y v).
    + exact (sim_apply1 (fun v => Ok v) Hx).
    + intros s' y _ Hext Hy. apply Hk; assumption.
Qed.

Lemma sim_Conv2d_call (m : Conv2d A) s x v :
  pts s x v -> sim pts s (Conv2d_call m x) (glift (conv2d_v m v)).
Proof. apply sim_apply1. Qed.

Lemma sim_MaxPool2d_call (m : Pool2d) s x v :
  pts s x v -> sim pts s (MaxPool2d_call m x) (glift (max_pool2d_v m v)).
Proof. apply sim_apply1. Qed.

Lemma sim_AvgPool2d_call (m : Pool2d) s x v :
  pts s x v -> sim pts s (AvgPool2d_call m x) (glift (avg_pool2d_v m v)).
Proof. apply sim_apply1. Qed.

Lemma sim_Linear_call (m : Linear A) s x v :
  pts s x v -> sim pts s (Linear_call m x) (glift (linear_v m v)).
Proof. apply sim_apply1. Qed.

Lemma sim_F_relu s x v :
  pts s x v -> sim pts s (F_relu x) (glift (Ok (relu_v v))).
Proof. apply (sim_apply1 (fun v => Ok (relu_v v))). Qed.

End Refinement.

(** Facts about older references are carried to the current store. *)
Ltac carry :=
  match goal with
  | E : extends ?s ?s' |- _ =>
      repeat match goal with
             | H : pts s _ _ |- _ => apply (pts_extends E) in H
             end;
      clear E
  end.

Ltac sim_prim :=
  first [ apply sim_Conv2d_call; eassumption
        | apply sim_MaxPool2d_call; eassumption
        | apply sim_AvgPool2d_call; eassumption
        | apply sim_Linear_call; eassumption
        | apply sim_F_relu; eassumption
        | apply sim_reshape; eassumption
        | apply sim_shape_at; eassumption
        | apply sim_Dropout_call; eassumption
        | apply sim_torch_cat1; repeat (constructor; try eassumption) ].

Section ClassRefinement.

Context {A : Type} {SA : Scalar A}.
Implicit Types (s : Store A) (v : Tensor A).

Lemma sim_Inception_Block (self : Inception_Block.t A) s x v :
  pts s x v ->
  sim pts s (Inception_Block.forward self x) (glift (Inception_Block_value self v)).
Proof.
  intros Hx. unfold Inception_Block.forward, Inception_Block_value.
  do 14 (eapply sim_bind_lift; [sim_prim|]; intros; carry).
  apply sim_ret. assumption.
Qed.

Lemma sim_Auxiliary_Classifier (self : Auxiliary_Classifier.t A) s x v :
  pts s x v ->
  sim pts s (Auxiliary_Classifier.forward self x) (Auxiliary_Classifier_value self v).
Proof.
  intros Hx. unfold Auxiliary_Classifier.forward, Auxiliary_Classifier_value.
  do 9 (eapply sim_bind; [sim_prim|]; intros; carry; cbv beta in *; subst).
  apply sim_ret. assumption.
Qed.

Lemma sim_Inception_Net (self : Inception_Net.t A) s x v :
  pts s x v ->
  sim pts3 s (Inception_Net.forward self x) (Inception_Net_value self v).
Proof.
  intros Hx. unfold Inception_Net.forward, Inception_Net_value.
  unfold trunk_to_4a, trunk_4a_to_4d, trunk_4d_to_pool, main_head.
  (* stem *)
  do 8 (eapply sim_bind_seg; [sim_prim|]; intros; carry).
  (* 3a, 3b, maxpool3 *)
  do 2 (eapply sim_bind_seg; [apply sim_Inception_Block; eassumption|]; intros; carry).
  eapply sim_bind_seg; [sim_prim|]; intros; carry.
  (* 4a and the first tap *)
  eapply sim_bind; [apply sim_Inception_Block; eassumption|]; intros; carry.
  eapply sim_clone_skip; [eassumption|]; intros; carry.
  (* 4b, 4c, 4d and the second tap *)
  do 2 (eapply sim_bind_seg; [apply sim_Inception_Block; eassumption|]; intros; carry).
  eapply sim_bind; [apply sim_Inception_Block; eassumption|]; intros; carry.
  eapply sim_clone_skip; [eassumption|]; intros; carry.
  (* 4e, maxpool4, 5a, 5b, avgpool5 *)
  eapply sim_bind_seg; [apply sim_Inception_Block; eassumption|]; intros; carry.
  eapply sim_bind_seg; [sim_prim|]; intros; carry.
  do 2 (eapply sim_bind_seg; [apply sim_Inception_Block; eassumption|]; intros; carry).
  eapply sim_bind; [sim_prim|]; intros; carry.
  (* main head *)
  do 3 (eapply sim_bind_nest; [sim_prim|]; intros; carry; cbv beta in *; subst).
  eapply sim_bind; [sim_prim|]; intros; carry.
  (* auxiliary classifiers *)
  do 2 (eapply sim_bind; [apply sim_Auxiliary_Classifier; eassumption|]; intros; carry).
  apply sim_ret. unfold pts3; simpl; auto.
Qed.

End ClassRefinement.

(** ** When the primitives succeed, and with which shape *)

(** Decides the integer tests of a goal from the hypotheses. *)
Ltac ztests :=
  repeat match goal with
         | |- context [?a <? ?b] =>
             first [ rewrite (proj2 (Z.ltb_ge a b)) by lia
                   | rewrite (proj2 (Z.ltb_lt a b)) by lia ]
         | |- context [?a <=? ?b] =>
             first [ rewrite (proj2 (Z.leb_le a b)) by lia
                   | rewrite (proj2 (Z.leb_gt a b)) by lia ]
         | |- context [?a =? ?b] =>
             first [ rewrite (proj2 (Z.eqb_eq a b)) by lia
                   | rewrite (proj2 (Z.eqb_neq a b)) by lia ]
         end;
  cbn [negb orb andb].

Section Primitives.

Context {A : Type} {SA : Scalar A}.
Implicit Types (v x : Tensor A).

Lemma existsb_false_Forall {X : Type} (f : X -> bool) (l : list X) :
  existsb f l = false -> Forall (fun d => f d = false) l.
Proof.
  induction l as [|a l IH]; cbn [existsb]; intros H; constructor.
  - destruct (f a); [discriminate|reflexivity].
  - apply IH. destruct (existsb f l); [now rewrite Bool.orb_true_r in H|reflexivity].
Qed.

Lemma Forall_existsb_false {X : Type} (f : X -> bool) (l : list X) :
  Forall (fun d => f d = false) l -> existsb f l = false.
Proof. induction 1 as [|a l Ha _ IH]; cbn [existsb]; [reflexivity|now rewrite Ha, IH]. Qed.

(** [torch.empty] succeeds exactly on sizes that are natural numbers
    below 2^63 and take fewer than 2^63 bytes together. *)
Lemma torch_empty_ok (size : list Z) :
  Forall (fun d => 0 <= d < 2 ^ 63) size -> numel size * 4 < 2 ^ 63 ->
  torch_empty size = Ok tt.
Proof.
  intros Hs Hn. unfold torch_empty.
  rewrite Forall_existsb_false, Forall_existsb_false.
  - rewrite (proj2 (Z.leb_gt _ _) Hn). reflexivity.
  - eapply Forall_impl; [|exact Hs]. intros d Hd. cbv beta in *. apply Z.ltb_ge. lia.
  - eapply Forall_impl; [|exact Hs]. intros d Hd. cbv beta in *.
    rewrite (proj2 (Z.ltb_ge d (- 2 ^ 63))), (proj2 (Z.leb_gt (2 ^ 63) d)) by lia.
    reflexivity.
Qed.

Lemma torch_empty_inv (size : list Z) u :
  torch_empty size = Ok u ->
  Forall (fun d => 0 <= d < 2 ^ 63) size /\ numel size * 4 < 2 ^ 63.
Proof.
  unfold torch_empty.
  destruct (existsb (fun d => (d <? - 2 ^ 63) || (2 ^ 63 <=? d)) size) eqn:E1;
    [discriminate|].
  destruct (existsb (fun d => d <? 0) size) eqn:E2; [discriminate|].
  destruct (Z.leb_spec (2 ^ 63) (numel size * 4)) as [|Hn]; [discriminate|].
  intros _. split; [|exact Hn].
  apply existsb_false_Forall in E1, E2.
  rewrite Forall_forall in *. intros d Hd.
  specialize (E1 d Hd). specialize (E2 d Hd). cbv beta in *.
  apply Bool.orb_false_iff in E1 as [_ E1].
  apply Z.ltb_ge in E2. apply Z.leb_gt in E1. lia.
Qed.

Lemma torch_empty_negative (size : list Z) :
  Forall (fun d => - 2 ^ 63 <= d < 2 ^ 63) size -> Exists (fun d => d < 0) size ->
  torch_empty size = Raise NegativeDimension.
Proof.
  intros Hs Hneg. unfold torch_empty.
  rewrite Forall_existsb_false.
  - assert (E : existsb (fun d => d <? 0) size = true).
    { apply existsb_exists. apply Exists_exists in Hneg as (d & Hd & Hlt).
      exists d. split; [exact Hd|]. apply Z.ltb_lt. exact Hlt. }
    rewrite E. reflexivity.
  - eapply Forall_impl; [|exact Hs]. intros d Hd. cbv beta in *.
    rewrite (proj2 (Z.ltb_ge d (- 2 ^ 63))), (proj2 (Z.leb_gt (2 ^ 63) d)) by lia.
    reflexivity.
Qed.

Lemma torch_empty_not_int64 (size : list Z) :
  Exists (fun d => d < - 2 ^ 63 \/ 2 ^ 63 <= d) size ->
  torch_empty size = Raise SizeNotInt64.
Proof.
  intros Hbig. unfold torch_empty.
  assert (E : existsb (fun d => (d <? - 2 ^ 63) || (2 ^ 63 <=? d)) size = true).
  { apply existsb_exists. apply Exists_exists in Hbig as (d & Hd & Hout).
    exists d. split; [exact Hd|]. apply Bool.orb_true_iff.
    destruct Hout as [Hout|Hout]; [left; apply Z.ltb_lt|right; apply Z.leb_le]; exact Hout. }
  rewrite E. reflexivity.
Qed.

(** The sizes for which the lemmas below show a layer built: counts up
    to 2^20 and kernels up to 32 stay far below 2^63 bytes. *)
Lemma Conv2d_new_ok (theta : StateDict A) name i o k st p :
  0 <= i <= 2 ^ 20 -> 0 <= o <= 2 ^ 20 -> 0 <= k <= 32 ->
  Conv2d_new theta name i o k st p =
    Ok (mkConv2d i o k st p (theta (name ++ ".weight")%string)
                            (theta (name ++ ".bias")%string)).
Proof.
  intros Hi Ho Hk. unfold Conv2d_new.
  assert (Hoi : 0 <= o * i <= 2 ^ 20 * 2 ^ 20)
    by (split; [apply Z.mul_nonneg_nonneg; lia|apply Z.mul_le_mono_nonneg; lia]).
  assert (Hkk : 0 <= k * k <= 32 * 32)
    by (split; [apply Z.mul_nonneg_nonneg; lia|apply Z.mul_le_mono_nonneg; lia]).
  assert (Hall : 0 <= (o * i) * (k * k) <= (2 ^ 20 * 2 ^ 20) * (32 * 32))
    by (split; [apply Z.mul_nonneg_nonneg; lia|apply Z.mul_le_mono_nonneg; lia]).
  rewrite !torch_empty_ok; [reflexivity|..].
  - repeat constructor; lia.
  - cbn [numel fold_right]. lia.
  - repeat constructor; lia.
  - cbn [numel fold_right]. replace (o * (i * (k * (k * 1)))) with ((o * i) * (k * k)) by ring.
    lia.
Qed.

Lemma Conv2d_new_inv (theta : StateDict A) name i o k st p m :
  Conv2d_new theta name i o k st p = Ok m ->
  0 <= i /\ 0 <= o /\ 0 <= k /\
  m = mkConv2d i o k st p (theta (name ++ ".weight")%string)
                          (theta (name ++ ".bias")%string).
Proof.
  unfold Conv2d_new.
  destruct (torch_empty [o; i; k; k]) as [u|] eqn:E1; [|discriminate].
  destruct (torch_empty [o]) as [u'|] eqn:E2; [|discriminate].
  cbn [rbind]. intros H'; inversion H'.
  apply torch_empty_inv in E1 as [E1 _].
  inversion E1 as [|? ? Ho E1']; subst. inversion E1' as [|? ? Hi E1'']; subst.
  inversion E1'' as [|? ? Hk _]; subst. repeat split; lia.
Qed.

(** A layer that is built has sizes that are 64-bit integers. *)
Lemma Conv2d_new_int64 (theta : StateDict A) name i o k st p m :
  Conv2d_new theta name i o k st p = Ok m -> i < 2 ^ 63 /\ o < 2 ^ 63.
Proof.
  unfold Conv2d_new.
  destruct (torch_empty [o; i; k; k]) as [u|] eqn:E1; [|discriminate].
  intros _. apply torch_empty_inv in E1 as [E1 _].
  inversion E1 as [|? ? Ho E1']; subst. inversion E1' as [|? ? Hi _]; subst. lia.
Qed.

Lemma Linear_new_ok (theta : StateDict A) name i o :
  0 <= i <= 2 ^ 20 -> 0 <= o <= 2 ^ 20 ->
  Linear_new theta name i o =
    Ok (mkLinear i o (theta (name ++ ".weight")%string)
                     (theta (name ++ ".bias")%string)).
Proof.
  intros Hi Ho. unfold Linear_new.
  assert (Hoi : 0 <= o * i <= 2 ^ 20 * 2 ^ 20)
    by (split; [apply Z.mul_nonneg_nonneg; lia|apply Z.mul_le_mono_nonneg; lia]).
  rewrite !torch_empty_ok; [reflexivity|..].
  - repeat constructor; lia.
  - cbn [numel fold_right]. lia.
  - repeat constructor; lia.
  - cbn [numel fold_right]. replace (o * (i * 1)) with (o * i) by ring. lia.
Qed.

Lemma Linear_new_inv (theta : StateDict A) name i o m :
  Linear_new theta name i o = Ok m ->
  0 <= i /\ 0 <= o /\
  m = mkLinear i o (theta (name ++ ".weight")%string)
                   (theta (name ++ ".bias")%string).
Proof.
  unfold Linear_new.
  destruct (torch_empty [o; i]) as [u|] eqn:E1; [|discriminate].
  destruct (torch_empty [o]) as [u'|] eqn:E2; [|discriminate].
  cbn [rbind]. intros H'; inversion H'.
  apply torch_empty_inv in E1 as [E1 _].
  inversion E1 as [|? ? Ho E1']; subst. inversion E1' as [|? ? Hi _]; subst.
  repeat split; lia.
Qed.

Lemma Linear_new_int64 (theta : StateDict A) name i o m :
  Linear_new theta name i o = Ok m -> i < 2 ^ 63 /\ o < 2 ^ 63.
Proof.
  unfold Linear_new.
  destruct (torch_empty [o; i]) as [u|] eqn:E1; [|discriminate].
  intros _. apply torch_empty_inv in E1 as [E1 _].
  inversion E1 as [|? ? Ho E1']; subst. inversion E1' as [|? ? Hi _]; subst. lia.
Qed.

(** A negative count of output features, the others being small. *)
Lemma Linear_new_negative (theta : StateDict A) name i o :
  0 <= i < 2 ^ 63 -> - 2 ^ 63 <= o < 0 ->
  Linear_new theta name i o = Raise NegativeDimension.
Proof.
  intros Hi Ho. unfold Linear_new.
  rewrite torch_empty_negative; [reflexivity| |].
  - repeat constructor; lia.
  - left. lia.
Qed.

Lemma Linear_new_not_int64 (theta : StateDict A) name i o :
  o < - 2 ^ 63 \/ 2 ^ 63 <= o ->
  Linear_new theta name i o = Raise SizeNotInt64.
Proof.
  intros Ho. unfold Linear_new.
  rewrite torch_empty_not_int64; [reflexivity|]. left. exact Ho.
Qed.

Lemma conv2d_shape_ok (m : Conv2d A) n c h w h' w' :
  1 <= conv_stride m -> 1 <= conv_out m -> c = conv_in m -> c <> 0 ->
  conv_k m <= h + 2 * conv_pad m -> conv_k m <= w + 2 * conv_pad m ->
  (h + 2 * conv_pad m - conv_k m) / conv_stride m + 1 = h' ->
  (w + 2 * conv_pad m - conv_k m) / conv_stride m + 1 = w' ->
  conv2d_shape m [n; c; h; w] = Ok [n; conv_out m; h'; w'].
Proof.
  intros Hs Ho Hc Hc0 Hh Hw <- <-. unfold conv2d_shape.
  ztests. reflexivity.
Qed.

Lemma conv2d_v_ok (m : Conv2d A) x n c h w h' w' :
  shape x = [n; c; h; w] ->
  1 <= conv_stride m -> 1 <= conv_out m -> c = conv_in m -> c <> 0 ->
  conv_k m <= h + 2 * conv_pad m -> conv_k m <= w + 2 * conv_pad m ->
  (h + 2 * conv_pad m - conv_k m) / conv_stride m + 1 = h' ->
  (w + 2 * conv_pad m - conv_k m) / conv_stride m + 1 = w' ->
  conv2d_v m x =
    Ok (mkTensor [n; conv_out m; h'; w'] (conv2d_data m x [n; conv_out m; h'; w'])).
Proof.
  intros Hx Hs Ho Hc Hc0 Hh Hw Hh' Hw'. unfold conv2d_v.
  rewrite Hx, conv2d_shape_ok with (h' := h') (w' := w') by assumption.
  reflexivity.
Qed.

(** A mismatch of the channel count is what the convolution reports,
    whatever the rest of the shape. *)
Lemma conv2d_v_channel_mismatch (m : Conv2d A) x n c h w :
  shape x = [n; c; h; w] ->
  1 <= conv_stride m -> 1 <= conv_out m -> c <> conv_in m ->
  conv2d_v m x = Raise (ChannelMismatch (conv_in m) c).
Proof.
  intros Hx Hs Ho Hc. unfold conv2d_v, conv2d_shape. rewrite Hx.
  ztests. reflexivity.
Qed.

Lemma pool2d_shape_ok (m : Pool2d) n c h w h' w' :
  1 <= pool_k m -> 1 <= pool_stride m ->
  c <> 0 -> h <> 0 -> w <> 0 ->
  pool_pad m <= pool_k m / 2 ->
  (h + 2 * pool_pad m - pool_k m) / pool_stride m + 1 = h' ->
  (w + 2 * pool_pad m - pool_k m) / pool_stride m + 1 = w' ->
  1 <= h' -> 1 <= w' ->
  pool2d_shape m [n; c; h; w] = Ok [n; c; h'; w'].
Proof.
  intros Hk Hs Hc Hh Hw Hp <- <- Hh' Hw'. unfold pool2d_shape.
  cbv zeta. ztests. reflexivity.
Qed.

Lemma max_pool2d_v_ok (m : Pool2d) x n c h w h' w' :
  shape x = [n; c; h; w] ->
  1 <= pool_k m -> 1 <= pool_stride m ->
  c <> 0 -> h <> 0 -> w <> 0 ->
  pool_pad m <= pool_k m / 2 ->
  (h + 2 * pool_pad m - pool_k m) / pool_stride m + 1 = h' ->
  (w + 2 * pool_pad m - pool_k m) / pool_stride m + 1 = w' ->
  1 <= h' -> 1 <= w' ->
  max_pool2d_v m x =
    Ok (mkTensor [n; c; h'; w'] (max_pool2d_data m x [n; c; h'; w'])).
Proof.
  intros Hx Hk Hs Hc Hh Hw Hp Hh' Hw' H1 H2. unfold max_pool2d_v.
  rewrite Hx, pool2d_shape_ok with (h' := h') (w' := w') by assumption.
  reflexivity.
Qed.

Lemma avg_pool2d_v_ok (m : Pool2d) x n c h w h' w' :
  shape x = [n; c; h; w] ->
  1 <= pool_k m -> 1 <= pool_stride m ->
  c <> 0 -> h <> 0 -> w <> 0 ->
  pool_pad m <= pool_k m / 2 ->
  (h + 2 * pool_pad m - pool_k m) / pool_stride m + 1 = h' ->
  (w + 2 * pool_pad m - pool_k m) / pool_stride m + 1 = w' ->
  1 <= h' -> 1 <= w' ->
  avg_pool2d_v m x =
    Ok (mkTensor [n; c; h'; w'] (avg_pool2d_data m x [n; c; h'; w'])).
Proof.
  intros Hx Hk Hs Hc Hh Hw Hp Hh' Hw' H1 H2. unfold avg_pool2d_v.
  rewrite Hx, pool2d_shape_ok with (h' := h') (w' := w') by assumption.
  reflexivity.
Qed.

Lemma cat1_v_ok4 (t1 t2 t3 t4 : Tensor A) n c1 c2 c3 c4 h w c :
  shape t1 = [n; c1; h; w] -> shape t2 = [n; c2; h; w] ->
  shape t3 = [n; c3; h; w] -> shape t4 = [n; c4; h; w] ->
  c1 + c2 + c3 + c4 = c ->
  cat1_v [t1; t2; t3; t4] =
    Ok (mkTensor [n; c; h; w] (cat1_data [t1; t2; t3; t4] [n; c; h; w])).
Proof.
  intros H1 H2 H3 H4 <-. unfold cat1_v, cat1_shape. simpl map.
  rewrite H1, H2, H3, H4. cbn [cat_channels]. rewrite !Z.eqb_refl.
  cbn [andb rbind].
  replace (c1 + (c2 + (c3 + (c4 + 0)))) with (c1 + c2 + c3 + c4) by lia.
  reflexivity.
Qed.

Lemma linear_v_ok2 (m : Linear A) x n f :
  shape x = [n; f] -> f = lin_in m ->
  linear_v m x = Ok (mkTensor [n; lin_out m] (linear_data m x)).
Proof.
  intros Hx ->. unfold linear_v. rewrite Hx. cbn [linear_shape].
  rewrite Z.eqb_refl. reflexivity.
Qed.

Lemma linear_v_mismatch2 (m : Linear A) x n f :
  shape x = [n; f] -> f <> lin_in m ->
  linear_v m x = Raise (MatMulMismatch (lin_in m) f).
Proof.
  intros Hx Hf. unfold linear_v. rewrite Hx. cbn [linear_shape].
  ztests. reflexivity.
Qed.

Lemma infer_size_flatten n total f :
  0 < n -> total = n * f ->
  infer_size [n; -1] total = Ok [n; f].
Proof.
  intros Hn ->. unfold infer_size.
  cbn [existsb count_occ filter map numel fold_right].
  destruct (Z.eq_dec n (-1)) as [|_]; [lia|].
  destruct (Z.eq_dec (-1) (-1)) as [_|]; [|congruence].
  rewrite !(proj2 (Z.eqb_neq n (-1))) by lia.
  change (-1 =? -1) with true. cbn [negb fold_right orb].
  rewrite !Z.mul_1_r.
  replace (n * f mod n) with 0 by (rewrite Z.mul_comm, Z.mod_mul; lia).
  replace (n * f / n) with f by (rewrite Z.mul_comm, Z.div_mul; lia).
  ztests. rewrite Bool.orb_true_r. reflexivity.
Qed.

(** An empty batch cannot be flattened with an inferred size. *)
Lemma infer_size_empty_batch :
  infer_size [0; -1] 0 = Raise ShapeAmbiguous.
Proof. reflexivity. Qed.

Lemma reshape_v_flatten x n c h w f :
  shape x = [n; c; h; w] -> 0 < n -> c * h * w = f ->
  reshape_v x [n; -1] = Ok (mkTensor [n; f] (data x)).
Proof.
  intros Hx Hn <-. unfold reshape_v. rewrite Hx.
  rewrite (@infer_size_flatten n _ (c * h * w)); [reflexivity|lia|].
  simpl. ring.
Qed.

Lemma dropout_g_shape (m : Dropout) x g :
  exists r g', dropout_g m x g = Ok (r, g') /\ shape r = shape x.
Proof.
  unfold dropout_g.
  destruct (negb (drop_training m) || Qeq_bool (drop_p m) 0 || (numel (shape x) =? 0));
    eexists _, _; split; reflexivity.
Qed.

(** Outside training mode dropout is the identity and leaves the
    generator alone. *)
Lemma dropout_g_eval (m : Dropout) x g :
  drop_training m = false -> dropout_g m x g = Ok (x, g).
Proof. intros H. unfold dropout_g. rewrite H. reflexivity. Qed.

End Primitives.

(** ** Row-major indexing *)

Lemma ravel_bound (sh idx : list Z) :
  in_range sh idx -> 0 <= ravel sh idx < numel sh.
Proof.
  revert idx. induction sh as [|d sh IH]; intros [|i idx]; simpl; try tauto; try lia.
  intros [Hi Hr]. specialize (IH idx Hr).
  change (fold_right Z.mul 1 sh) with (numel sh). nia.
Qed.

Lemma unravel_ravel (sh idx : list Z) :
  in_range sh idx -> unravel sh (ravel sh idx) = idx.
Proof.
  revert idx. induction sh as [|d sh IH]; intros [|i idx];
    cbn [ravel unravel in_range]; try tauto.
  intros [Hi Hr]. pose proof (ravel_bound sh idx Hr) as Hb.
  rewrite Z.div_add_l by lia. rewrite Z.div_small by lia.
  rewrite (Z.add_comm (i * numel sh)), Z.mod_add by lia.
  rewrite Z.mod_small by lia.
  rewrite IH by assumption. f_equal. lia.
Qed.

(** ** Values of the forward methods *)

Section Values.

Context {A : Type} {SA : Scalar A}.
Implicit Types (s : Store A) (v : Tensor A).

Lemma string_app_assoc (a b c : string) :
  ((a ++ b) ++ c = a ++ b ++ c)%string.
Proof. induction a; simpl; congruence. Qed.

Lemma Inception_Block_init_ok (theta : StateDict A) name p :
  small_params p -> Inception_Block.init theta name p = Ok (block_layers theta name p).
Proof.
  destruct p as [[[[[[i o1] r2] o2] r3] o3] o4].
  intros (Hi & H1 & H2 & H3 & H4 & H5 & H6).
  unfold Inception_Block.init, block_layers.
  rewrite !Conv2d_new_ok by lia. cbn [rbind].
  rewrite !string_app_assoc. reflexivity.
Qed.

Lemma Inception_Block_init_inv (theta : StateDict A) name p self :
  Inception_Block.init theta name p = Ok self ->
  nonneg_params p /\ self = block_layers theta name p.
Proof.
  destruct p as [[[[[[i o1] r2] o2] r3] o3] o4].
  unfold Inception_Block.init. intros H.
  repeat match type of H with
         | rbind (Conv2d_new ?t ?n ?a ?b ?c ?d ?e) _ = _ =>
             let E := fresh "E" in
             destruct (Conv2d_new t n a b c d e) eqn:E; [|discriminate];
             apply Conv2d_new_inv in E; cbn [rbind] in H
         end.
  split; [simpl; lia|].
  inversion H. unfold block_layers.
  repeat match goal with
         | E : _ /\ _ |- _ => destruct E
         end; subst.
  rewrite !string_app_assoc. reflexivity.
Qed.

End Values.

Ltac layer_side :=
  cbn [conv_in conv_out conv_k conv_stride conv_pad
       pool_k pool_stride pool_pad lin_in lin_out shape relu_v
       Inception_Block.conv1 Inception_Block.reduce2 Inception_Block.conv2
       Inception_Block.reduce3 Inception_Block.conv3 Inception_Block.maxpool4
       Inception_Block.conv4];
  first [assumption | reflexivity | lia].

Section BlockValue.

Context {A : Type} {SA : Scalar A}.
Implicit Types (s : Store A) (v : Tensor A).

Lemma Inception_Block_value_ok (theta : StateDict A) name
    in_ch out1 red2 out2 red3 out3 out4 v N H W :
  positive_params (in_ch, out1, red2, out2, red3, out3, out4) ->
  shape v = [N; in_ch; H; W] -> 0 < H -> 0 < W ->
  let self := block_layers theta name (in_ch, out1, red2, out2, red3, out3, out4) in
  exists b1 b2 b3 b4,
    Branches self v b1 b2 b3 b4 /\
    shape b1 = [N; out1; H; W] /\ shape b2 = [N; out2; H; W] /\
    shape b3 = [N; out3; H; W] /\ shape b4 = [N; out4; H; W] /\
    Inception_Block_value self v =
      Ok (mkTensor [N; out1 + out2 + out3 + out4; H; W]
            (cat1_data [b1; b2; b3; b4] [N; out1 + out2 + out3 + out4; H; W])).
Proof.
  intros (Hi & H1 & H2 & H3 & H4 & H5 & H6) Hv HH HW self.
  set (m1 := Inception_Block.conv1 self).
  set (r2 := Inception_Block.reduce2 self). set (m2 := Inception_Block.conv2 self).
  set (r3 := Inception_Block.reduce3 self). set (m3 := Inception_Block.conv3 self).
  set (p4 := Inception_Block.maxpool4 self). set (m4 := Inception_Block.conv4 self).
  assert (E1 : conv2d_v m1 v = Ok (mkTensor [N; out1; H; W] (conv2d_data m1 v [N; out1; H; W])))
    by (apply conv2d_v_ok with (c := in_ch) (h := H) (w := W); subst m1 self; unfold block_layers; layer_side).
  assert (E2 : conv2d_v r2 v = Ok (mkTensor [N; red2; H; W] (conv2d_data r2 v [N; red2; H; W])))
    by (apply conv2d_v_ok with (c := in_ch) (h := H) (w := W); subst r2 self; unfold block_layers; layer_side).
  set (a2 := mkTensor [N; red2; H; W] (conv2d_data r2 v [N; red2; H; W])) in *.
  assert (E2' : conv2d_v m2 (relu_v a2) =
                Ok (mkTensor [N; out2; H; W] (conv2d_data m2 (relu_v a2) [N; out2; H; W])))
    by (apply conv2d_v_ok with (c := red2) (h := H) (w := W); subst m2 self; unfold block_layers; layer_side).
  assert (E3 : conv2d_v r3 v = Ok (mkTensor [N; red3; H; W] (conv2d_data r3 v [N; red3; H; W])))
    by (apply conv2d_v_ok with (c := in_ch) (h := H) (w := W); subst r3 self; unfold block_layers; layer_side).
  set (a3 := mkTensor [N; red3; H; W] (conv2d_data r3 v [N; red3; H; W])) in *.
  assert (E3' : conv2d_v m3 (relu_v a3) =
                Ok (mkTensor [N; out3; H; W] (conv2d_data m3 (relu_v a3) [N; out3; H; W])))
    by (apply conv2d_v_ok with (c := red3) (h := H) (w := W); subst m3 self; unfold block_layers; layer_side).
  assert (E4 : max_pool2d_v p4 v = Ok (mkTensor [N; in_ch; H; W] (max_pool2d_data p4 v [N; in_ch; H; W])))
    by (apply max_pool2d_v_ok with (h := H) (w := W); subst p4 self; unfold block_layers; layer_side).
  set (a4 := mkTensor [N; in_ch; H; W] (max_pool2d_data p4 v [N; in_ch; H; W])) in *.
  assert (E4' : conv2d_v m4 a4 =
                Ok (mkTensor [N; out4; H; W] (conv2d_data m4 a4 [N; out4; H; W])))
    by (apply conv2d_v_ok with (c := in_ch) (h := H) (w := W); subst m4 self; unfold block_layers; layer_side).
  eexists _, _, _, _. split; [constructor|].
  - eexists. split; [exact E1|reflexivity].
  - eexists _, _. split; [exact E2|]. split; [exact E2'|reflexivity].
  - eexists _, _. split; [exact E3|]. split; [exact E3'|reflexivity].
  - eexists _, _. split; [exact E4|]. split; [exact E4'|reflexivity].
  - repeat (split; [reflexivity|]).
    unfold Inception_Block_value.
    fold m1 r2 m2 r3 m3 p4 m4.
    rewrite E1. cbn [rbind]. rewrite E2. cbn [rbind]. fold a2. rewrite E2'. cbn [rbind].
    rewrite E3. cbn [rbind]. fold a3. rewrite E3'. cbn [rbind].
    rewrite E4. cbn [rbind]. fold a4. rewrite E4'. cbn [rbind].
    erewrite cat1_v_ok4 by reflexivity. reflexivity.
Qed.

End BlockValue.

Section BlockTheorems.

Context {A : Type} {SA : Scalar A}.
Implicit Types (s : Store A) (v : Tensor A).

Lemma cat1_get (ts : list (Tensor A)) sh n c h w :
  in_range sh [n; c; h; w] ->
  get (mkTensor sh (cat1_data ts sh)) [n; c; h; w] = cat1_pick ts n c h w.
Proof.
  intros Hr. unfold get, cat1_data. cbn [shape data].
  rewrite unravel_ravel by assumption. reflexivity.
Qed.

Lemma cat1_pick_here (t : Tensor A) ts n c h w N C H W :
  shape t = [N; C; H; W] -> c < C ->
  cat1_pick (t :: ts) n c h w = get t [n; c; h; w].
Proof.
  intros Ht Hc. cbn [cat1_pick]. rewrite Ht. cbn [nth].
  now rewrite (proj2 (Z.ltb_lt c C)) by lia.
Qed.

Lemma cat1_pick_later (t : Tensor A) ts n c h w N C H W :
  shape t = [N; C; H; W] -> 0 <= c ->
  cat1_pick (t :: ts) n (C + c) h w = cat1_pick ts n c h w.
Proof.
  intros Ht Hc. cbn [cat1_pick]. rewrite Ht. cbn [nth].
  rewrite (proj2 (Z.ltb_ge (C + c) C)) by lia.
  now replace (C + c - C) with c by lia.
Qed.

(** C2. For block parameters with positive entries and an input of
    shape (N, in_ch, H, W) with H and W positive, [forward] returns a
    tensor of shape (N, out1 + out2 + out3 + out4, H, W). *)
Theorem Inception_Block_forward_shape (theta : StateDict A) name
    in_ch out1 red2 out2 red3 out3 out4 self s x v N H W :
  Inception_Block.init theta name (in_ch, out1, red2, out2, red3, out3, out4) = Ok self ->
  0 < in_ch -> 0 < out1 -> 0 < red2 -> 0 < out2 -> 0 < red3 -> 0 < out3 -> 0 < out4 ->
  0 < H -> 0 < W ->
  pts s x v -> shape v = [N; in_ch; H; W] ->
  exists y s',
    Inception_Block.forward self x s = Ok (y, s') /\
    vshape y = [N; out1 + out2 + out3 + out4; H; W].
Proof.
  intros Hinit Hi H1 H2 H3 H4 H5 H6 HH HW Hx Hv.
  apply Inception_Block_init_inv in Hinit as [_ ->].
  destruct (@Inception_Block_value_ok _ _ theta name in_ch out1 red2 out2 red3 out3 out4
              v N H W) as (b1 & b2 & b3 & b4 & _ & _ & _ & _ & _ & Hval);
    [simpl; lia|assumption..|].
  cbv zeta in Hval.
  pose proof (sim_Inception_Block
                (block_layers theta name (in_ch, out1, red2, out2, red3, out3, out4))
                Hx) as Hsim.
  unfold sim, glift in Hsim. rewrite Hval in Hsim.
  destruct Hsim as (y & s' & Hrun & [_ Hy] & _).
  exists y, s'. split; [exact Hrun|exact Hy].
Qed.

(** C3. The block computes four branches from the same input, with
    the kernel sizes, strides and paddings below, and returns their
    concatenation along the channel axis in the order 1, 2, 3, 4:
    channel c of branch 1 is channel c of the output, channel c of
    branch 2 is channel out1 + c, and so on. *)
Theorem Inception_Block_forward_branches (theta : StateDict A) name
    in_ch out1 red2 out2 red3 out3 out4 self s x v N H W :
  Inception_Block.init theta name (in_ch, out1, red2, out2, red3, out3, out4) = Ok self ->
  0 < in_ch -> 0 < out1 -> 0 < red2 -> 0 < out2 -> 0 < red3 -> 0 < out3 -> 0 < out4 ->
  0 < H -> 0 < W ->
  pts s x v -> shape v = [N; in_ch; H; W] ->
  (conv_geometry (Inception_Block.conv1 self) 1 1 0 /\
   conv_geometry (Inception_Block.reduce2 self) 1 1 0 /\
   conv_geometry (Inception_Block.conv2 self) 3 1 1 /\
   conv_geometry (Inception_Block.reduce3 self) 1 1 0 /\
   conv_geometry (Inception_Block.conv3 self) 5 1 2 /\
   Inception_Block.maxpool4 self = mkPool2d 3 1 1 /\
   conv_geometry (Inception_Block.conv4 self) 1 1 0) /\
  exists b1 b2 b3 b4 out y s',
    Branches self v b1 b2 b3 b4 /\
    Inception_Block.forward self x s = Ok (y, s') /\
    pts s' y out /\
    cat1_v [b1; b2; b3; b4] = Ok out /\
    forall n c h w, 0 <= n < N -> 0 <= h < H -> 0 <= w < W ->
      (0 <= c < out1 -> get out [n; c; h; w] = get b1 [n; c; h; w]) /\
      (0 <= c < out2 -> get out [n; out1 + c; h; w] = get b2 [n; c; h; w]) /\
      (0 <= c < out3 -> get out [n; out1 + out2 + c; h; w] = get b3 [n; c; h; w]) /\
      (0 <= c < out4 ->
         get out [n; out1 + out2 + out3 + c; h; w] = get b4 [n; c; h; w]).
Proof.
  intros Hinit Hi H1 H2 H3 H4 H5 H6 HH HW Hx Hv.
  apply Inception_Block_init_inv in Hinit as [_ ->].
  split; [unfold conv_geometry; cbn; tauto|].
  destruct (@Inception_Block_value_ok _ _ theta name in_ch out1 red2 out2 red3 out3 out4
              v N H W) as (b1 & b2 & b3 & b4 & Hbr & S1 & S2 & S3 & S4 & Hval);
    [simpl; lia|assumption..|].
  cbv zeta in Hval, Hbr.
  pose proof (sim_Inception_Block
                (block_layers theta name (in_ch, out1, red2, out2, red3, out3, out4))
                Hx) as Hsim.
  unfold sim, glift in Hsim. rewrite Hval in Hsim.
  destruct Hsim as (y & s' & Hrun & Hy & _).
  eexists b1, b2, b3, b4, _, y, s'.
  split; [exact Hbr|]. split; [exact Hrun|]. split; [exact Hy|].
  split; [apply cat1_v_ok4 with (c1 := out1) (c2 := out2) (c3 := out3) (c4 := out4);
          auto|].
  intros n c h w Hn Hh Hw. repeat split; intros Hc.
  - rewrite cat1_get by (simpl; lia).
    eapply cat1_pick_here; [exact S1|lia].
  - rewrite cat1_get by (simpl; lia).
    erewrite cat1_pick_later by (try exact S1; lia).
    eapply cat1_pick_here; [exact S2|lia].
  - rewrite cat1_get by (simpl; lia).
    replace (out1 + out2 + c) with (out1 + (out2 + c)) by lia.
    erewrite cat1_pick_later by (try exact S1; lia).
    erewrite cat1_pick_later by (try exact S2; lia).
    eapply cat1_pick_here; [exact S3|lia].
  - rewrite cat1_get by (simpl; lia).
    replace (out1 + out2 + out3 + c) with (out1 + (out2 + (out3 + c))) by lia.
    erewrite cat1_pick_later by (try exact S1; lia).
    erewrite cat1_pick_later by (try exact S2; lia).
    erewrite cat1_pick_later by (try exact S3; lia).
    eapply cat1_pick_here; [exact S4|lia].
Qed.

End BlockTheorems.

Section AuxValue.

Context {A : Type} {SA : Scalar A}.
Implicit Types (s : Store A) (v : Tensor A).

Lemma Auxiliary_Classifier_init_ok (theta : StateDict A) name in_ch nc :
  0 <= in_ch <= 2 ^ 20 -> 0 <= nc <= 2 ^ 20 ->
  Auxiliary_Classifier.init theta name in_ch nc = Ok (aux_layers theta name in_ch nc).
Proof.
  intros Hi Hn. unfold Auxiliary_Classifier.init, aux_layers.
  rewrite Conv2d_new_ok by lia. cbn [rbind].
  rewrite !Linear_new_ok by lia. cbn.
  rewrite !string_app_assoc. reflexivity.
Qed.

Lemma Auxiliary_Classifier_init_inv (theta : StateDict A) name in_ch nc self :
  Auxiliary_Classifier.init theta name in_ch nc = Ok self ->
  0 <= in_ch /\ 0 <= nc /\ self = aux_layers theta name in_ch nc.
Proof.
  unfold Auxiliary_Classifier.init. intros H.
  destruct (Conv2d_new theta (name ++ ".conv2") in_ch 128 1 1 0) eqn:E1;
    [|discriminate]. apply Conv2d_new_inv in E1 as (Hi & _ & _ & ->).
  cbn [rbind] in H.
  destruct (Linear_new theta (name ++ ".fc3") (4 * 4 * 128) 1024) eqn:E2;
    [|discriminate]. apply Linear_new_inv in E2 as (_ & _ & ->).
  cbn [rbind] in H. change (Dropout_new (7 # 10)) with (Ok (mkDropout (7 # 10) true)) in H.
  cbn [rbind] in H.
  destruct (Linear_new theta (name ++ ".fc5") 1024 nc) eqn:E3;
    [|discriminate]. apply Linear_new_inv in E3 as (_ & Hn & ->).
  cbn [rbind] in H. inversion H. unfold aux_layers.
  rewrite !string_app_assoc. auto.
Qed.

(** The features the first fully-connected layer receives: the input
    pooled with kernel 5 and stride 3, convolved to 128 channels,
    rectified and flattened. *)
Lemma aux_features (theta : StateDict A) name in_ch nc v N H W h' w' :
  0 < in_ch -> 0 < N -> 0 < H -> 0 < W ->
  shape v = [N; in_ch; H; W] ->
  (H - 5) / 3 + 1 = h' -> (W - 5) / 3 + 1 = w' -> 1 <= h' -> 1 <= w' ->
  let self := aux_layers theta name in_ch nc in
  exists pooled c flat,
    avg_pool2d_v (Auxiliary_Classifier.avgpool1 self) v = Ok pooled /\
    shape pooled = [N; in_ch; h'; w'] /\
    conv2d_v (Auxiliary_Classifier.conv2 self) pooled = Ok c /\
    shape c = [N; 128; h'; w'] /\
    reshape_v (relu_v c) [N; -1] = Ok flat /\
    shape flat = [N; 128 * h' * w'] /\
    forall g,
      Auxiliary_Classifier_value self v g =
      gbind (glift (linear_v (Auxiliary_Classifier.fc3 self) flat)) (fun x =>
      gbind (glift (Ok (relu_v x))) (fun x =>
      gbind (dropout_g (Auxiliary_Classifier.dropout4 self) x) (fun x =>
      gbind (glift (linear_v (Auxiliary_Classifier.fc5 self) x)) (fun scores =>
      gret scores)))) g.
Proof.
  intros Hi HN HH HW Hv Hh Hw Hh1 Hw1 self.
  set (m1 := Auxiliary_Classifier.avgpool1 self).
  set (m2 := Auxiliary_Classifier.conv2 self).
  assert (E1 : avg_pool2d_v m1 v =
               Ok (mkTensor [N; in_ch; h'; w'] (avg_pool2d_data m1 v [N; in_ch; h'; w'])))
    by (apply avg_pool2d_v_ok with (h := H) (w := W); subst m1 self;
        unfold aux_layers; cbn [Auxiliary_Classifier.avgpool1]; layer_side).
  set (pooled := mkTensor [N; in_ch; h'; w'] (avg_pool2d_data m1 v [N; in_ch; h'; w'])) in *.
  assert (E2 : conv2d_v m2 pooled =
               Ok (mkTensor [N; 128; h'; w'] (conv2d_data m2 pooled [N; 128; h'; w'])))
    by (apply conv2d_v_ok with (c := in_ch) (h := h') (w := w'); subst m2 self;
        unfold aux_layers; cbn [Auxiliary_Classifier.conv2]; layer_side).
  set (c := mkTensor [N; 128; h'; w'] (conv2d_data m2 pooled [N; 128; h'; w'])) in *.
  assert (E3 : reshape_v (relu_v c) [N; -1] =
               Ok (mkTensor [N; 128 * h' * w'] (data (relu_v c))))
    by (apply reshape_v_flatten with (c := 128) (h := h') (w := w');
        [reflexivity|assumption|reflexivity]).
  exists pooled, c, (mkTensor [N; 128 * h' * w'] (data (relu_v c))).
  repeat (split; [first [assumption | reflexivity]|]).
  intros g. unfold Auxiliary_Classifier_value.
  fold m1 m2. unfold gbind at 1, glift at 1. rewrite E1.
  unfold gbind at 1, glift at 1. rewrite E2.
  unfold gbind at 1, glift at 1.
  unfold gbind at 1, glift at 1. cbn [size nth_error shape relu_v c].
  unfold gbind at 1. unfold glift at 1. rewrite E3. reflexivity.
Qed.

End AuxValue.

Section AuxTheorems.

Context {A : Type} {SA : Scalar A}.
Implicit Types (s : Store A) (v : Tensor A).

Lemma aux_head_ok (theta : StateDict A) name in_ch nc flat N g :
  shape flat = [N; 2048] ->
  let self := aux_layers theta name in_ch nc in
  exists hid d g' scores,
    linear_v (Auxiliary_Classifier.fc3 self) flat = Ok hid /\
    dropout_g (Auxiliary_Classifier.dropout4 self) (relu_v hid) g = Ok (d, g') /\
    linear_v (Auxiliary_Classifier.fc5 self) d = Ok scores /\
    shape scores = [N; nc] /\
    gbind (glift (linear_v (Auxiliary_Classifier.fc3 self) flat)) (fun x =>
    gbind (glift (Ok (relu_v x))) (fun x =>
    gbind (dropout_g (Auxiliary_Classifier.dropout4 self) x) (fun x =>
    gbind (glift (linear_v (Auxiliary_Classifier.fc5 self) x)) (fun scores =>
    gret scores)))) g = Ok (scores, g').
Proof.
  intros Hf self.
  set (fc3 := Auxiliary_Classifier.fc3 self). set (fc5 := Auxiliary_Classifier.fc5 self).
  set (dr := Auxiliary_Classifier.dropout4 self).
  assert (E1 : linear_v fc3 flat = Ok (mkTensor [N; 1024] (linear_data fc3 flat)))
    by (apply (linear_v_ok2 fc3 flat Hf); reflexivity).
  set (hid := mkTensor [N; 1024] (linear_data fc3 flat)) in *.
  destruct (dropout_g_shape dr (relu_v hid) g) as (d & g' & E2 & Hd).
  assert (E3 : linear_v fc5 d = Ok (mkTensor [N; nc] (linear_data fc5 d)))
    by (apply (linear_v_ok2 fc5 d (n := N) (f := 1024)); [exact Hd|reflexivity]).
  exists hid, d, g', (mkTensor [N; nc] (linear_data fc5 d)).
  repeat (split; [first [assumption | reflexivity]|]).
  unfold gbind at 1, glift at 1. rewrite E1.
  unfold gbind at 1, glift at 1.
  unfold gbind at 1. rewrite E2.
  unfold gbind, glift, gret. rewrite E3. reflexivity.
Qed.

(** C4. The auxiliary classifier applies, in this order: average
    pooling with kernel 5 and stride 3; a 1x1 convolution to 128
    channels and rectification; flattening, to width 2048 when the
    pooled map is 4 x 4; a linear layer 2048 -> 1024 and rectification;
    dropout with p = 0.7; a linear layer 1024 -> num_classes, whose
    output is returned as it is.  The result has shape
    (N, num_classes). *)
Theorem Auxiliary_Classifier_forward_pipeline (theta : StateDict A) name
    in_ch nc self s x v N H W :
  Auxiliary_Classifier.init theta name in_ch nc = Ok self ->
  0 < in_ch -> 0 < N ->
  (H - 5) / 3 + 1 = 4 -> (W - 5) / 3 + 1 = 4 ->
  pts s x v -> shape v = [N; in_ch; H; W] ->
  (Auxiliary_Classifier.avgpool1 self = mkPool2d 5 3 0 /\
   conv_geometry (Auxiliary_Classifier.conv2 self) 1 1 0 /\
   conv_in (Auxiliary_Classifier.conv2 self) = in_ch /\
   conv_out (Auxiliary_Classifier.conv2 self) = 128 /\
   lin_in (Auxiliary_Classifier.fc3 self) = 2048 /\
   lin_out (Auxiliary_Classifier.fc3 self) = 1024 /\
   drop_p (Auxiliary_Classifier.dropout4 self) = (7 # 10)%Q /\
   lin_in (Auxiliary_Classifier.fc5 self) = 1024 /\
   lin_out (Auxiliary_Classifier.fc5 self) = nc) /\
  exists pooled c flat hid d g' scores y s',
    avg_pool2d_v (Auxiliary_Classifier.avgpool1 self) v = Ok pooled /\
    conv2d_v (Auxiliary_Classifier.conv2 self) pooled = Ok c /\
    reshape_v (relu_v c) [N; -1] = Ok flat /\
    shape flat = [N; 2048] /\
    linear_v (Auxiliary_Classifier.fc3 self) flat = Ok hid /\
    dropout_g (Auxiliary_Classifier.dropout4 self) (relu_v hid) (rng s) = Ok (d, g') /\
    linear_v (Auxiliary_Classifier.fc5 self) d = Ok scores /\
    Auxiliary_Classifier.forward self x s = Ok (y, s') /\
    pts s' y scores /\ rng s' = g' /\
    vshape y = [N; nc].
Proof.
  intros Hinit Hi HN Hh Hw Hx Hv.
  apply Auxiliary_Classifier_init_inv in Hinit as (_ & Hnc & ->).
  split; [unfold conv_geometry; cbn; tauto|].
  destruct (@aux_features _ _ theta name in_ch nc v N H W 4 4)
    as (pooled & c & flat & E1 & _ & E2 & _ & E3 & Hf & Hval); try assumption; try lia.
  change (128 * 4 * 4) with 2048 in Hf.
  destruct (@aux_head_ok theta name in_ch nc flat N (rng s) Hf)
    as (hid & d & g' & scores & E4 & E5 & E6 & Hs & Hrest).
  pose proof (sim_Auxiliary_Classifier (aux_layers theta name in_ch nc) Hx) as Hsim.
  unfold sim in Hsim. rewrite Hval, Hrest in Hsim.
  destruct Hsim as (y & s' & Hrun & Hy & _ & Hg).
  exists pooled, c, flat, hid, d, g', scores, y, s'.
  repeat (split; [assumption|]).
  destruct Hy as [_ Hy]. congruence.
Qed.

(** What the auxiliary classifier does with a pooled map h' x w'. *)
Lemma aux_forward_cases (theta : StateDict A) name
    in_ch nc self s x v N H W :
  Auxiliary_Classifier.init theta name in_ch nc = Ok self ->
  0 < in_ch -> 0 < N -> 5 <= H -> 5 <= W ->
  pts s x v -> shape v = [N; in_ch; H; W] ->
  let h' := (H - 5) / 3 + 1 in
  let w' := (W - 5) / 3 + 1 in
  (h' * w' <> 16 ->
     Auxiliary_Classifier.forward self x s =
       Raise (MatMulMismatch 2048 (128 * h' * w'))) /\
  (h' * w' = 16 ->
     exists y s', Auxiliary_Classifier.forward self x s = Ok (y, s') /\
                  vshape y = [N; nc]).
Proof.
  intros Hinit Hi HN HH HW Hx Hv h' w'.
  apply Auxiliary_Classifier_init_inv in Hinit as (_ & Hnc & ->).
  destruct (@aux_features _ _ theta name in_ch nc v N H W h' w')
    as (pooled & c & flat & _ & _ & _ & _ & _ & Hf & Hval);
    try assumption; try reflexivity; try lia; try (subst h' w'; lia).
  pose proof (sim_Auxiliary_Classifier (aux_layers theta name in_ch nc) Hx) as Hsim.
  unfold sim in Hsim. rewrite Hval in Hsim.
  split; intros Hhw.
  - unfold gbind at 1, glift at 1 in Hsim.
    rewrite (linear_v_mismatch2 _ flat Hf) in Hsim
      by (unfold aux_layers; cbn [lin_in Auxiliary_Classifier.fc3];
          rewrite <- Z.mul_assoc; lia).
    exact Hsim.
  - replace (128 * h' * w') with 2048 in Hf by (rewrite <- Z.mul_assoc; lia).
    destruct (@aux_head_ok theta name in_ch nc flat N (rng s) Hf)
      as (hid & d & g' & scores & _ & _ & _ & Hs & Hrest).
    rewrite Hrest in Hsim.
    destruct Hsim as (y & s' & Hrun & [_ Hy] & _).
    exists y, s'. split; [exact Hrun|congruence].
Qed.

(** C9, as the code has it.  With the pooled map h' x w': when
    h' * w' is not 16 the first linear layer refuses the flattened
    width 128 * h' * w' and no scores are returned; when h' * w' is 16
    the input is accepted, also when the pooled map is not 4 x 4. *)
Theorem Auxiliary_Classifier_forward_width (theta : StateDict A) name
    in_ch nc self s x v N H W :
  Auxiliary_Classifier.init theta name in_ch nc = Ok self ->
  0 < in_ch -> 0 < N -> 5 <= H -> 5 <= W ->
  pts s x v -> shape v = [N; in_ch; H; W] ->
  let h' := (H - 5) / 3 + 1 in
  let w' := (W - 5) / 3 + 1 in
  (h' * w' <> 16 ->
     Auxiliary_Classifier.forward self x s =
       Raise (MatMulMismatch 2048 (128 * h' * w'))) /\
  (h' * w' = 16 ->
     exists y s', Auxiliary_Classifier.forward self x s = Ok (y, s') /\
                  vshape y = [N; nc]).
Proof. apply aux_forward_cases. Qed.

End AuxTheorems.

(** ** The network *)

Section NetLayers.

Context {A : Type} {SA : Scalar A}.
Implicit Types (s : Store A) (v : Tensor A).

Lemma block_table_ok (theta : StateDict A) key p :
  dict_get Inception_Net.table1 key = Ok p -> small_params p ->
  Inception_Net.block theta Inception_Net.table1 key = Ok (table_block theta key).
Proof.
  intros Hk Hp. unfold Inception_Net.block, table_block, table_entry.
  rewrite Hk. cbn [rbind]. apply Inception_Block_init_ok. exact Hp.
Qed.

Lemma Inception_Net_init_blocks (theta : StateDict A) nc :
  Inception_Net.init theta nc =
  (linear5 <-- Linear_new theta "linear5" 1024 nc ;;;
   aux_classifier1 <-- Auxiliary_Classifier.init theta "aux_classifier1" 512 nc ;;;
   aux_classifier2 <-- Auxiliary_Classifier.init theta "aux_classifier2" 528 nc ;;;
   Ok (Inception_Net.mk
         (Inception_Net.table1)
         (Inception_Net.conv1 (net_layers theta nc))
         (Inception_Net.maxpool1 (net_layers theta nc))
         (Inception_Net.reduce2 (net_layers theta nc))
         (Inception_Net.conv2 (net_layers theta nc))
         (Inception_Net.maxpool2 (net_layers theta nc))
         (Inception_Net.inception3a (net_layers theta nc))
         (Inception_Net.inception3b (net_layers theta nc))
         (Inception_Net.maxpool3 (net_layers theta nc))
         (Inception_Net.inception4a (net_layers theta nc))
         (Inception_Net.inception4b (net_layers theta nc))
         (Inception_Net.inception4c (net_layers theta nc))
         (Inception_Net.inception4d (net_layers theta nc))
         (Inception_Net.inception4e (net_layers theta nc))
         (Inception_Net.maxpool4 (net_layers theta nc))
         (Inception_Net.inception5a (net_layers theta nc))
         (Inception_Net.inception5b (net_layers theta nc))
         (Inception_Net.avgpool5 (net_layers theta nc))
         (Inception_Net.dropout5 (net_layers theta nc))
         linear5 aux_classifier1 aux_classifier2))%result.
Proof.
  unfold Inception_Net.init.
  rewrite !Conv2d_new_ok by lia. cbn [rbind].
  repeat (erewrite block_table_ok by (first [reflexivity | simpl; lia]); cbn [rbind]).
  reflexivity.
Qed.

Lemma Inception_Net_init_ok (theta : StateDict A) nc :
  0 <= nc <= 2 ^ 20 -> Inception_Net.init theta nc = Ok (net_layers theta nc).
Proof.
  intros Hn. rewrite Inception_Net_init_blocks.
  rewrite Linear_new_ok by lia. cbn [rbind].
  rewrite !Auxiliary_Classifier_init_ok by lia. reflexivity.
Qed.

Lemma Inception_Net_init_inv (theta : StateDict A) nc net :
  Inception_Net.init theta nc = Ok net -> 0 <= nc /\ net = net_layers theta nc.
Proof.
  intros H. rewrite Inception_Net_init_blocks in H.
  destruct (Linear_new theta "linear5" 1024 nc) as [l5|] eqn:E1; [|discriminate].
  apply Linear_new_inv in E1 as (_ & Hnc & ->). cbn [rbind] in H.
  destruct (Auxiliary_Classifier.init theta "aux_classifier1" 512 nc) as [a1|] eqn:E2;
    [|discriminate].
  apply Auxiliary_Classifier_init_inv in E2 as (_ & _ & ->). cbn [rbind] in H.
  destruct (Auxiliary_Classifier.init theta "aux_classifier2" 528 nc) as [a2|] eqn:E3;
    [|discriminate].
  apply Auxiliary_Classifier_init_inv in E3 as (_ & _ & ->). cbn [rbind] in H.
  split; [exact Hnc|]. inversion H. reflexivity.
Qed.

(** A model that is built has a class count that is a 64-bit integer. *)
Lemma Inception_Net_init_int64 (theta : StateDict A) nc net :
  Inception_Net.init theta nc = Ok net -> nc < 2 ^ 63.
Proof.
  intros H. rewrite Inception_Net_init_blocks in H.
  destruct (Linear_new theta "linear5" 1024 nc) as [l5|] eqn:E1; [|discriminate].
  apply Linear_new_int64 in E1. lia.
Qed.

(** A negative class count is refused when the network is built: the
    blocks are built, and the allocation of the weight of [linear5]
    fails. *)
Lemma Inception_Net_init_negative (theta : StateDict A) nc :
  - 2 ^ 63 <= nc < 0 -> Inception_Net.init theta nc = Raise NegativeDimension.
Proof.
  intros Hneg. rewrite Inception_Net_init_blocks.
  rewrite Linear_new_negative by lia. reflexivity.
Qed.

(** So is one that is no 64-bit integer. *)
Lemma Inception_Net_init_not_int64 (theta : StateDict A) nc :
  nc < - 2 ^ 63 \/ 2 ^ 63 <= nc -> Inception_Net.init theta nc = Raise SizeNotInt64.
Proof.
  intros Hbig. rewrite Inception_Net_init_blocks.
  rewrite Linear_new_not_int64 by exact Hbig. reflexivity.
Qed.

End NetLayers.

Lemma down_pos h : 0 < h -> 0 < down h.
Proof. unfold down. lia. Qed.

Section Trunk.

Context {A : Type} {SA : Scalar A}.
Implicit Types (s : Store A) (v : Tensor A).

Lemma conv2d_v_ex (m : Conv2d A) x n c h w h' w' :
  shape x = [n; c; h; w] ->
  1 <= conv_stride m -> 1 <= conv_out m -> c = conv_in m -> c <> 0 ->
  conv_k m <= h + 2 * conv_pad m -> conv_k m <= w + 2 * conv_pad m ->
  (h + 2 * conv_pad m - conv_k m) / conv_stride m + 1 = h' ->
  (w + 2 * conv_pad m - conv_k m) / conv_stride m + 1 = w' ->
  exists r, conv2d_v m x = Ok r /\ shape r = [n; conv_out m; h'; w'].
Proof.
  intros. eexists. split; [eapply conv2d_v_ok; eassumption|reflexivity].
Qed.

Lemma max_pool2d_v_ex (m : Pool2d) (x : Tensor A) n c h w h' w' :
  shape x = [n; c; h; w] ->
  1 <= pool_k m -> 1 <= pool_stride m ->
  c <> 0 -> h <> 0 -> w <> 0 ->
  pool_pad m <= pool_k m / 2 ->
  (h + 2 * pool_pad m - pool_k m) / pool_stride m + 1 = h' ->
  (w + 2 * pool_pad m - pool_k m) / pool_stride m + 1 = w' ->
  1 <= h' -> 1 <= w' ->
  exists r, max_pool2d_v m x = Ok r /\ shape r = [n; c; h'; w'].
Proof.
  intros. eexists. split; [eapply max_pool2d_v_ok; eassumption|reflexivity].
Qed.

Lemma table_block_value (theta : StateDict A) key p v N H W :
  dict_get Inception_Net.table1 key = Ok p -> positive_params p ->
  shape v = [N; in_channels p; H; W] -> 0 < H -> 0 < W ->
  exists r, Inception_Block_value (table_block theta key) v = Ok r /\
            shape r = [N; out_channels p; H; W].
Proof.
  intros Hk Hp Hv HH HW. unfold table_block, table_entry. rewrite Hk.
  destruct p as [[[[[[i o1] r2] o2] r3] o3] o4].
  destruct (@Inception_Block_value_ok _ _ theta key i o1 r2 o2 r3 o3 o4 v N H W)
    as (b1 & b2 & b3 & b4 & _ & _ & _ & _ & _ & Hval); try assumption.
  eexists. split; [exact Hval|reflexivity].
Qed.

Lemma trunk_trace_values net v N H1 W1 H2 W2 H3 W3 H4 W4 H5 W5 x4a x4d feat :
  trunk_trace net v N H1 W1 H2 W2 H3 W3 H4 W4 H5 W5 x4a x4d feat ->
  trunk_to_4a net v = Ok x4a /\
  trunk_4a_to_4d net x4a = Ok x4d /\
  trunk_4d_to_pool net x4d = avg_pool2d_v (Inception_Net.avgpool5 net) feat.
Proof.
  intros (a1 & a2 & a3 & a4 & a5 & b3a & b3b & a6 & b4b & b4c & b4e & a7 & b5a &
          E1 & _ & E2 & _ & E3 & E4 & E5 & _ & E6 & E7 & E8 & _ & E9 & _ &
          E10 & E11 & E12 & _ & E13 & E14 & _ & E15 & E16 & _).
  unfold trunk_to_4a, trunk_4a_to_4d, trunk_4d_to_pool.
  rewrite E1; cbn [rbind]. rewrite E2; cbn [rbind]. rewrite E3; cbn [rbind].
  rewrite E4; cbn [rbind]. rewrite E5; cbn [rbind]. rewrite E6; cbn [rbind].
  rewrite E7; cbn [rbind]. rewrite E8; cbn [rbind]. rewrite E9.
  rewrite E10; cbn [rbind]. rewrite E11; cbn [rbind]. rewrite E12.
  rewrite E13; cbn [rbind]. rewrite E14; cbn [rbind]. rewrite E15; cbn [rbind].
  rewrite E16; cbn [rbind]. auto.
Qed.

Ltac net_side :=
  unfold net_layers;
  cbn [Inception_Net.conv1 Inception_Net.maxpool1 Inception_Net.reduce2
       Inception_Net.conv2 Inception_Net.maxpool2 Inception_Net.maxpool3
       Inception_Net.maxpool4 Inception_Net.avgpool5 Inception_Net.linear5
       conv_in conv_out conv_k conv_stride conv_pad
       pool_k pool_stride pool_pad lin_in lin_out shape relu_v];
  first [eassumption | reflexivity | unfold down in *; lia].

Lemma trunk_trace_exists (theta : StateDict A) nc v N H W :
  shape v = [N; 3; H; W] -> 0 < H -> 0 < W ->
  exists x4a x4d feat,
    trunk_trace (net_layers theta nc) v N
      (down H) (down W) (down (down H)) (down (down W))
      (down (down (down H))) (down (down (down W)))
      (down (down (down (down H)))) (down (down (down (down W))))
      (down (down (down (down (down H))))) (down (down (down (down (down W)))))
      x4a x4d feat.
Proof.
  intros Hv HH HW.
  pose proof (down_pos HH) as P1. pose proof (down_pos HW) as Q1.
  pose proof (down_pos P1) as P2. pose proof (down_pos Q1) as Q2.
  pose proof (down_pos P2) as P3. pose proof (down_pos Q2) as Q3.
  pose proof (down_pos P3) as P4. pose proof (down_pos Q3) as Q4.
  pose proof (down_pos P4) as P5. pose proof (down_pos Q4) as Q5.
  set (net := net_layers theta nc).
  destruct (@conv2d_v_ex (Inception_Net.conv1 net) v N 3 H W (down H) (down W))
    as (a1 & E1 & S1); try (subst net; net_side).
  destruct (@max_pool2d_v_ex (Inception_Net.maxpool1 net) (relu_v a1) N 64
              (down H) (down W) (down (down H)) (down (down W)))
    as (a2 & E2 & S2); try (subst net; net_side).
  destruct (@conv2d_v_ex (Inception_Net.reduce2 net) a2 N 64
              (down (down H)) (down (down W)) (down (down H)) (down (down W)))
    as (a3 & E3 & S3); try (subst net; net_side).
  destruct (@conv2d_v_ex (Inception_Net.conv2 net) (relu_v a3) N 64
              (down (down H)) (down (down W)) (down (down H)) (down (down W)))
    as (a4 & E4 & S4); try (subst net; net_side).
  destruct (@max_pool2d_v_ex (Inception_Net.maxpool2 net) (relu_v a4) N 192
              (down (down H)) (down (down W))
              (down (down (down H))) (down (down (down W))))
    as (a5 & E5 & S5); try (subst net; net_side).
  edestruct (@table_block_value theta "inception3a" (table_entry "inception3a") a5 N)
    as (b3a & E6 & S6); [reflexivity|simpl; lia|exact S5|assumption..|].
  edestruct (@table_block_value theta "inception3b" (table_entry "inception3b") b3a N)
    as (b3b & E7 & S7); [reflexivity|simpl; lia|exact S6|assumption..|].
  destruct (@max_pool2d_v_ex (Inception_Net.maxpool3 net) b3b N 480
              (down (down (down H))) (down (down (down W)))
              (down (down (down (down H)))) (down (down (down (down W)))))
    as (a6 & E8 & S8); try (subst net; net_side).
  edestruct (@table_block_value theta "inception4a" (table_entry "inception4a") a6 N)
    as (x4a & E9 & S9); [reflexivity|simpl; lia|exact S8|assumption..|].
  edestruct (@table_block_value theta "inception4b" (table_entry "inception4b") x4a N)
    as (b4b & E10 & S10); [reflexivity|simpl; lia|exact S9|assumption..|].
  edestruct (@table_block_value theta "inception4c" (table_entry "inception4c") b4b N)
    as (b4c & E11 & S11); [reflexivity|simpl; lia|exact S10|assumption..|].
  edestruct (@table_block_value theta "inception4d" (table_entry "inception4d") b4c N)
    as (x4d & E12 & S12); [reflexivity|simpl; lia|exact S11|assumption..|].
  edestruct (@table_block_value theta "inception4e" (table_entry "inception4e") x4d N)
    as (b4e & E13 & S13); [reflexivity|simpl; lia|exact S12|assumption..|].
  destruct (@max_pool2d_v_ex (Inception_Net.maxpool4 net) b4e N 832
              (down (down (down (down H)))) (down (down (down (down W))))
              (down (down (down (down (down H)))))
              (down (down (down (down (down W))))))
    as (a7 & E14 & S14); try (subst net; net_side).
  edestruct (@table_block_value theta "inception5a" (table_entry "inception5a") a7 N)
    as (b5a & E15 & S15); [reflexivity|simpl; lia|exact S14|assumption..|].
  edestruct (@table_block_value theta "inception5b" (table_entry "inception5b") b5a N)
    as (feat & E16 & S16); [reflexivity|simpl; lia|exact S15|assumption..|].
  exists x4a, x4d, feat.
  exists a1, a2, a3, a4, a5, b3a, b3b, a6, b4b, b4c, b4e, a7, b5a.
  repeat (split; [first [assumption | eassumption]|]). exact S16.
Qed.

End Trunk.

Section Heads.

Context {A : Type} {SA : Scalar A}.
Implicit Types (s : Store A) (v : Tensor A).

Lemma avg_pool2d_v_too_small (m : Pool2d) (x : Tensor A) n c h w :
  shape x = [n; c; h; w] ->
  1 <= pool_k m -> 1 <= pool_stride m ->
  c <> 0 -> h <> 0 -> w <> 0 ->
  pool_pad m <= pool_k m / 2 ->
  (h + 2 * pool_pad m - pool_k m) / pool_stride m + 1 < 1 \/
  (w + 2 * pool_pad m - pool_k m) / pool_stride m + 1 < 1 ->
  avg_pool2d_v m x = Raise OutputTooSmall.
Proof.
  intros Hx Hk Hs Hc Hh Hw Hp Hsmall. unfold avg_pool2d_v, pool2d_shape.
  rewrite Hx. cbv zeta.
  rewrite (proj2 (Z.ltb_ge (pool_k m) 1)) by lia.
  rewrite (proj2 (Z.ltb_ge (pool_stride m) 1)) by lia.
  rewrite (proj2 (Z.eqb_neq c 0)), (proj2 (Z.eqb_neq h 0)), (proj2 (Z.eqb_neq w 0))
    by assumption.
  rewrite (proj2 (Z.ltb_ge (pool_k m / 2) (pool_pad m))) by lia.
  cbn [orb].
  destruct Hsmall as [Hs1|Hs1].
  - rewrite (proj2 (Z.ltb_lt _ 1) Hs1). reflexivity.
  - rewrite (proj2 (Z.ltb_lt _ 1) Hs1). rewrite Bool.orb_true_r. reflexivity.
Qed.

(** The main head flattens the pooled features, applies dropout and
    the final linear layer, which wants width 1024. *)
Lemma main_head_run (theta : StateDict A) nc pooled N a b g :
  0 < N -> shape pooled = [N; 1024; a; b] ->
  let net := net_layers theta nc in
  exists flat d g',
    reshape_v pooled [N; -1] = Ok flat /\
    shape flat = [N; 1024 * (a * b)] /\
    dropout_g (Inception_Net.dropout5 net) flat g = Ok (d, g') /\
    shape d = [N; 1024 * (a * b)] /\
    main_head net pooled g =
      match linear_v (Inception_Net.linear5 net) d with
      | Ok r => Ok (r, g')
      | Raise e => Raise e
      end.
Proof.
  intros HN Hp net.
  assert (E1 : reshape_v pooled [N; -1] = Ok (mkTensor [N; 1024 * (a * b)] (data pooled)))
    by (apply reshape_v_flatten with (c := 1024) (h := a) (w := b);
        [assumption|assumption|ring]).
  set (flat := mkTensor [N; 1024 * (a * b)] (data pooled)) in *.
  destruct (dropout_g_shape (Inception_Net.dropout5 net) flat g) as (d & g' & E2 & Hd).
  exists flat, d, g'. repeat (split; [first [assumption | reflexivity]|]).
  unfold main_head. unfold gbind at 1, glift at 1. rewrite Hp. cbn [size nth_error].
  unfold gbind at 1, glift at 1. rewrite E1.
  unfold gbind at 1. rewrite E2. reflexivity.
Qed.

(** What the network computes on an input of shape (N, 3, H, W), from
    the sizes [h4 x w4] at the taps and [h5 x w5] after the last
    max-pool. *)
Lemma Inception_Net_value_cases (theta : StateDict A) nc v N H W g :
  0 <= nc -> 0 < N -> 0 < H -> 0 < W ->
  shape v = [N; 3; H; W] ->
  let net := net_layers theta nc in
  let h4 := down (down (down (down H))) in
  let w4 := down (down (down (down W))) in
  let h5 := down h4 in
  let w5 := down w4 in
  (h5 < 7 \/ w5 < 7 -> Inception_Net_value net v g = Raise OutputTooSmall) /\
  (7 <= h5 -> 7 <= w5 -> (h5 - 6) * (w5 - 6) <> 1 ->
     Inception_Net_value net v g =
       Raise (MatMulMismatch 1024 (1024 * ((h5 - 6) * (w5 - 6))))) /\
  (h5 = 7 -> w5 = 7 -> ((h4 - 5) / 3 + 1) * ((w4 - 5) / 3 + 1) <> 16 ->
     Inception_Net_value net v g =
       Raise (MatMulMismatch 2048 (128 * ((h4 - 5) / 3 + 1) * ((w4 - 5) / 3 + 1)))) /\
  (h4 = 14 -> w4 = 14 ->
     exists scores0 scores1 scores2 g',
       Inception_Net_value net v g = Ok ((scores0, scores1, scores2), g') /\
       shape scores0 = [N; nc] /\ shape scores1 = [N; nc] /\ shape scores2 = [N; nc]).
Proof.
  intros Hnc HN HH HW Hv net h4 w4 h5 w5.
  destruct (trunk_trace_exists theta nc v Hv HH HW) as (x4a & x4d & feat & Htr).
  fold net h4 w4 h5 w5 in Htr.
  destruct (trunk_trace_values Htr) as (T1 & T2 & T3).
  destruct Htr as (a1 & a2 & a3 & a4 & a5 & b3a & b3b & a6 & b4b & b4c & b4e & a7 & b5a &
          _ & _ & _ & _ & _ & _ & _ & _ & _ & _ & _ & _ & _ & S4a &
          _ & _ & _ & S4d & _ & _ & _ & _ & _ & Sf).
  assert (P4 : 0 < h4) by (subst h4; repeat apply down_pos; assumption).
  assert (Q4 : 0 < w4) by (subst w4; repeat apply down_pos; assumption).
  assert (P5 : 0 < h5) by (subst h5; apply down_pos; assumption).
  assert (Q5 : 0 < w5) by (subst w5; apply down_pos; assumption).
  assert (Hval : Inception_Net_value net v g =
            gbind (glift (avg_pool2d_v (Inception_Net.avgpool5 net) feat)) (fun pooled =>
            gbind (main_head net pooled) (fun scores2 =>
            gbind (Auxiliary_Classifier_value (Inception_Net.aux_classifier1 net) x4a)
              (fun scores0 =>
            gbind (Auxiliary_Classifier_value (Inception_Net.aux_classifier2 net) x4d)
              (fun scores1 =>
            gret (scores0, scores1, scores2))))) g).
  { unfold Inception_Net_value. unfold gbind at 1, glift at 1. rewrite T1.
    unfold gbind at 1, glift at 1. rewrite T2.
    unfold gbind at 1, glift at 1. rewrite T3. reflexivity. }
  rewrite Hval. clear Hval T1 T2 T3.
  (* the final pooling *)
  assert (Hpool : 7 <= h5 -> 7 <= w5 ->
            exists pooled, avg_pool2d_v (Inception_Net.avgpool5 net) feat = Ok pooled /\
                           shape pooled = [N; 1024; h5 - 6; w5 - 6]).
  { intros G1 G2.
    exists (mkTensor [N; 1024; h5 - 6; w5 - 6]
              (avg_pool2d_data (Inception_Net.avgpool5 net) feat
                 [N; 1024; h5 - 6; w5 - 6])).
    split; [|reflexivity].
    apply avg_pool2d_v_ok with (h := h5) (w := w5);
      [exact Sf|subst net; unfold net_layers;
                cbn [Inception_Net.avgpool5 pool_k pool_stride pool_pad]; lia..]. }
  (* the main head on the pooled features *)
  assert (Hmain : forall pooled, shape pooled = [N; 1024; h5 - 6; w5 - 6] ->
            exists d g', shape d = [N; 1024 * ((h5 - 6) * (w5 - 6))] /\
              main_head net pooled g =
                match linear_v (Inception_Net.linear5 net) d with
                | Ok r => Ok (r, g')
                | Raise e => Raise e
                end).
  { intros pooled Sp.
    destruct (@main_head_run theta nc pooled N _ _ g HN Sp)
      as (flat & d & g' & _ & _ & _ & Sd & Hm).
    exists d, g'. split; assumption. }
  split; [|split; [|split]].
  - intros Hsmall. unfold gbind at 1, glift at 1.
    rewrite (avg_pool2d_v_too_small (Inception_Net.avgpool5 net) feat Sf);
      [reflexivity|subst net; unfold net_layers;
                   cbn [Inception_Net.avgpool5 pool_k pool_stride pool_pad]; lia..].
  - intros G1 G2 Hne.
    destruct (Hpool G1 G2) as (pooled & Ep & Sp).
    destruct (Hmain pooled Sp) as (d & g' & Sd & Hm).
    unfold gbind at 1, glift at 1. rewrite Ep.
    unfold gbind at 1. rewrite Hm.
    rewrite (linear_v_mismatch2 _ d Sd); [reflexivity|].
    subst net. unfold net_layers. cbn [Inception_Net.linear5 lin_in]. lia.
  - intros G1 G2 Hne.
    destruct (Hpool ltac:(lia) ltac:(lia)) as (pooled & Ep & Sp).
    destruct (Hmain pooled Sp) as (d & g' & Sd & Hm).
    replace (1024 * ((h5 - 6) * (w5 - 6))) with 1024 in Sd by (rewrite G1, G2; reflexivity).
    unfold gbind at 1, glift at 1. rewrite Ep.
    unfold gbind at 1. rewrite Hm.
    rewrite (linear_v_ok2 _ d Sd) by reflexivity.
    destruct (@aux_features _ _ theta "aux_classifier1" 512 nc x4a N h4 w4
                ((h4 - 5) / 3 + 1) ((w4 - 5) / 3 + 1))
      as (p1 & c1 & flat & _ & _ & _ & _ & _ & Hf & Hv1);
      try assumption; try reflexivity; try lia;
      try (subst h5 w5; unfold down in *; lia).
    unfold gbind at 1. fold (aux_layers theta "aux_classifier1" 512 nc).
    change (Inception_Net.aux_classifier1 net)
      with (aux_layers theta "aux_classifier1" 512 nc).
    rewrite Hv1. unfold gbind at 1, glift at 1.
    rewrite (linear_v_mismatch2 _ flat Hf); [reflexivity|].
    unfold aux_layers. cbn [lin_in Auxiliary_Classifier.fc3].
    rewrite <- Z.mul_assoc. lia.
  - intros G1 G2.
    assert (G3 : h5 = 7) by (subst h5; rewrite G1; reflexivity).
    assert (G4 : w5 = 7) by (subst w5; rewrite G2; reflexivity).
    destruct (Hpool ltac:(lia) ltac:(lia)) as (pooled & Ep & Sp).
    destruct (Hmain pooled Sp) as (d & g1 & Sd & Hm).
    replace (1024 * ((h5 - 6) * (w5 - 6))) with 1024 in Sd by (rewrite G3, G4; reflexivity).
    unfold gbind at 1, glift at 1. rewrite Ep.
    unfold gbind at 1. rewrite Hm.
    rewrite (linear_v_ok2 _ d Sd) by reflexivity.
    rewrite G1, G2 in S4a, S4d.
    destruct (@aux_features _ _ theta "aux_classifier1" 512 nc x4a N 14 14 4 4)
      as (p1 & c1 & flat1 & _ & _ & _ & _ & _ & Hf1 & Hv1);
      try assumption; try reflexivity; try lia.
    destruct (@aux_head_ok _ _ theta "aux_classifier1" 512 nc flat1 N g1 Hf1)
      as (hid1 & d1 & g2 & scores0 & _ & _ & _ & Ss0 & Hr1).
    destruct (@aux_features _ _ theta "aux_classifier2" 528 nc x4d N 14 14 4 4)
      as (p2 & c2 & flat2 & _ & _ & _ & _ & _ & Hf2 & Hv2);
      try assumption; try reflexivity; try lia.
    destruct (@aux_head_ok _ _ theta "aux_classifier2" 528 nc flat2 N g2 Hf2)
      as (hid2 & d2 & g3 & scores1 & _ & _ & _ & Ss1 & Hr2).
    exists scores0, scores1,
      (mkTensor [N; nc] (linear_data (Inception_Net.linear5 net) d)), g3.
    split; [|split; [exact Ss0|split; [exact Ss1|reflexivity]]].
    change (Inception_Net.aux_classifier1 net)
      with (aux_layers theta "aux_classifier1" 512 nc).
    change (Inception_Net.aux_classifier2 net)
      with (aux_layers theta "aux_classifier2" 528 nc).
    unfold gbind at 1. rewrite Hv1, Hr1.
    unfold gbind at 1. rewrite Hv2, Hr2. reflexivity.
Qed.

(** Where the three scores come from. *)
Lemma Inception_Net_value_inv (net : Inception_Net.t A) v g scores0 scores1 scores2 g' :
  Inception_Net_value net v g = Ok ((scores0, scores1, scores2), g') ->
  exists x4a x4d pooled g1 g2,
    trunk_to_4a net v = Ok x4a /\
    trunk_4a_to_4d net x4a = Ok x4d /\
    trunk_4d_to_pool net x4d = Ok pooled /\
    main_head net pooled g = Ok (scores2, g1) /\
    Auxiliary_Classifier_value (Inception_Net.aux_classifier1 net) x4a g1 =
      Ok (scores0, g2) /\
    Auxiliary_Classifier_value (Inception_Net.aux_classifier2 net) x4d g2 =
      Ok (scores1, g').
Proof.
  unfold Inception_Net_value, gbind, glift, gret.
  destruct (trunk_to_4a net v) as [x4a|] eqn:T1; [|discriminate].
  destruct (trunk_4a_to_4d net x4a) as [x4d|] eqn:T2; [|discriminate].
  destruct (trunk_4d_to_pool net x4d) as [pooled|] eqn:T3; [|discriminate].
  destruct (main_head net pooled g) as [[m g1]|] eqn:T4; [|discriminate].
  destruct (Auxiliary_Classifier_value (Inception_Net.aux_classifier1 net) x4a g1)
    as [[a0 g2]|] eqn:T5; [|discriminate].
  destruct (Auxiliary_Classifier_value (Inception_Net.aux_classifier2 net) x4d g2)
    as [[a1 g3]|] eqn:T6; [|discriminate].
  intros E. inversion E; subst.
  exists x4a, x4d, pooled, g1, g2. repeat split; assumption.
Qed.

(** C1, as the code has it.  On an input of shape (N, 3, 224, 224), N
    positive (an empty batch is refused), [forward]
    returns three score tensors of shape (N, num_classes), in the
    order: the score of the auxiliary classifier on the activation
    after block 4a, the score of the auxiliary classifier on the
    activation after block 4d, the score of the final classifier. *)
Theorem Inception_Net_forward_scores (theta : StateDict A) nc net s x v N :
  Inception_Net.init theta nc = Ok net ->
  0 < N ->
  pts s x v -> shape v = [N; 3; 224; 224] ->
  exists x4a x4d pooled g1 g2 auxScore0 auxScore1 mainScore y0 y1 y2 s',
    trunk_to_4a net v = Ok x4a /\
    trunk_4a_to_4d net x4a = Ok x4d /\
    trunk_4d_to_pool net x4d = Ok pooled /\
    main_head net pooled (rng s) = Ok (mainScore, g1) /\
    Auxiliary_Classifier_value (Inception_Net.aux_classifier1 net) x4a g1 =
      Ok (auxScore0, g2) /\
    Auxiliary_Classifier_value (Inception_Net.aux_classifier2 net) x4d g2 =
      Ok (auxScore1, rng s') /\
    Inception_Net.forward net x s = Ok ((y0, y1, y2), s') /\
    pts s' y0 auxScore0 /\ pts s' y1 auxScore1 /\ pts s' y2 mainScore /\
    vshape y0 = [N; nc] /\ vshape y1 = [N; nc] /\ vshape y2 = [N; nc].
Proof.
  intros Hinit HN Hx Hv.
  apply Inception_Net_init_inv in Hinit as [Hnc ->].
  destruct (@Inception_Net_value_cases theta nc v N 224 224 (rng s))
    as (_ & _ & _ & Hok); try assumption; try lia.
  destruct (Hok eq_refl eq_refl) as (a0 & a1 & m & g' & Hval & S0 & S1 & S2).
  pose proof (sim_Inception_Net (net_layers theta nc) Hx) as Hsim.
  unfold sim in Hsim. rewrite Hval in Hsim.
  destruct Hsim as ([[y0 y1] y2] & s' & Hrun & (P0 & P1 & P2) & _ & Hg).
  cbn [fst snd] in P0, P1, P2.
  destruct (Inception_Net_value_inv _ _ _ Hval)
    as (x4a & x4d & pooled & g1 & g2 & T1 & T2 & T3 & T4 & T5 & T6).
  exists x4a, x4d, pooled, g1, g2, a0, a1, m, y0, y1, y2, s'.
  rewrite Hg.
  repeat (split; [assumption|]).
  destruct P0 as [_ P0], P1 as [_ P1], P2 as [_ P2].
  repeat split; congruence.
Qed.

Lemma down4_tap H :
  0 < H -> (down (down (down (down H))) = 14 <-> 209 <= H <= 224).
Proof. unfold down. lia. Qed.

Lemma down5_pool H :
  0 < H ->
  (7 <= down (down (down (down (down H)))) <-> 193 <= H) /\
  (down (down (down (down (down H)))) = 7 <-> 193 <= H <= 224).
Proof. unfold down. lia. Qed.

Lemma down5_tap H :
  down (down (down (down (down H)))) = 7 ->
  down (down (down (down H))) = 13 \/ down (down (down (down H))) = 14.
Proof. unfold down. lia. Qed.

(** C10, as the code has it.  For an input (N, 3, H, W) with N, H, W
    positive:
    - at 224 x 224 the spatial sizes are 112, 56, 28, 14 (at both
      taps), 7 and 1, the flattened width is 1024 and the auxiliary
      classifiers pool their 14 x 14 taps to 4 x 4;
    - [forward] returns exactly when H and W lie in 209..224;
    - with H and W in 193..224 the final linear layer gets the width
      1024 it wants, and outside 209..224 it is the first linear layer
      of an auxiliary classifier that raises;
    - with H and W at least 193 and one of them above 224 the final
      linear layer raises on a width other than 1024;
    - with H or W below 193 the final average pool raises. *)
Theorem Inception_Net_forward_spatial (theta : StateDict A) nc net s x v N H W :
  Inception_Net.init theta nc = Ok net ->
  0 < N -> 0 < H -> 0 < W ->
  pts s x v -> shape v = [N; 3; H; W] ->
  (H = 224 -> W = 224 ->
     exists x4a x4d feat pooled flat p1 p2,
       trunk_trace net v N 112 112 56 56 28 28 14 14 7 7 x4a x4d feat /\
       avg_pool2d_v (Inception_Net.avgpool5 net) feat = Ok pooled /\
       shape pooled = [N; 1024; 1; 1] /\
       reshape_v pooled [N; -1] = Ok flat /\
       shape flat = [N; 1024] /\
       avg_pool2d_v (Auxiliary_Classifier.avgpool1 (Inception_Net.aux_classifier1 net))
                    x4a = Ok p1 /\
       shape p1 = [N; 512; 4; 4] /\
       avg_pool2d_v (Auxiliary_Classifier.avgpool1 (Inception_Net.aux_classifier2 net))
                    x4d = Ok p2 /\
       shape p2 = [N; 528; 4; 4]) /\
  ((exists ys s', Inception_Net.forward net x s = Ok (ys, s')) <->
   (209 <= H <= 224 /\ 209 <= W <= 224)) /\
  (193 <= H <= 224 -> 193 <= W <= 224 -> ~ (209 <= H /\ 209 <= W) ->
     exists width, width <> 2048 /\
       Inception_Net.forward net x s = Raise (MatMulMismatch 2048 width)) /\
  (193 <= H -> 193 <= W -> 224 < H \/ 224 < W ->
     exists width, width <> 1024 /\
       Inception_Net.forward net x s = Raise (MatMulMismatch 1024 width)) /\
  (H < 193 \/ W < 193 ->
     Inception_Net.forward net x s = Raise OutputTooSmall).
Proof.
  intros Hinit HN HH HW Hx Hv.
  apply Inception_Net_init_inv in Hinit as [Hnc ->].
  set (net := net_layers theta nc).
  destruct (@Inception_Net_value_cases theta nc v N H W (rng s))
    as (Csmall & Cmain & Caux & Cok); try assumption.
  fold net in Csmall, Cmain, Caux, Cok.
  pose proof (sim_Inception_Net net Hx) as Hsim. unfold sim in Hsim.
  pose proof (down4_tap HH) as TH. pose proof (down4_tap HW) as TW.
  pose proof (down5_pool HH) as [PH1 PH2]. pose proof (down5_pool HW) as [PW1 PW2].
  (* the three ways to fail, and the one to return *)
  assert (Fsmall : H < 193 \/ W < 193 ->
            Inception_Net.forward net x s = Raise OutputTooSmall).
  { intros Hlt. rewrite Csmall in Hsim by lia. exact Hsim. }
  assert (Fmain : 193 <= H -> 193 <= W -> 224 < H \/ 224 < W ->
            exists width, width <> 1024 /\
              Inception_Net.forward net x s = Raise (MatMulMismatch 1024 width)).
  { intros G1 G2 Hgt. eexists. split; [|rewrite Cmain in Hsim; [exact Hsim|lia|lia|nia]].
    nia. }
  assert (Faux : 193 <= H <= 224 -> 193 <= W <= 224 -> ~ (209 <= H /\ 209 <= W) ->
            exists width, width <> 2048 /\
              Inception_Net.forward net x s = Raise (MatMulMismatch 2048 width)).
  { intros G1 G2 Hno.
    assert (Hprod : ((down (down (down (down H))) - 5) / 3 + 1) *
                    ((down (down (down (down W))) - 5) / 3 + 1) <> 16).
    { pose proof (proj2 PH2 G1) as E. apply down5_tap in E.
      pose proof (proj2 PW2 G2) as E'. apply down5_tap in E'.
      destruct E as [E|E]; destruct E' as [E'|E']; rewrite E, E';
        cbn; lia. }
    eexists. split; [|rewrite Caux in Hsim; [exact Hsim|lia|lia|exact Hprod]].
    rewrite <- Z.mul_assoc. lia. }
  assert (Fok : 209 <= H <= 224 -> 209 <= W <= 224 ->
            exists ys s', Inception_Net.forward net x s = Ok (ys, s')).
  { intros G1 G2.
    destruct (Cok (proj2 TH G1) (proj2 TW G2)) as (a0 & a1 & m & g' & Hval & _).
    rewrite Hval in Hsim. destruct Hsim as (ys & s' & Hrun & _). eauto. }
  split; [|split; [|split; [|split]]]; try assumption.
  - intros -> ->.
    destruct (trunk_trace_exists theta nc v Hv HH HW) as (x4a & x4d & feat & Htr).
    fold net in Htr.
    assert (Htr' : trunk_trace net v N 112 112 56 56 28 28 14 14 7 7 x4a x4d feat)
      by exact Htr.
    pose proof Htr' as
         (a1 & a2 & a3 & a4 & a5 & b3a & b3b & a6 & b4b & b4c & b4e & a7 & b5a &
          _ & _ & _ & _ & _ & _ & _ & _ & _ & _ & _ & _ & _ & S4a &
          _ & _ & _ & S4d & _ & _ & _ & _ & _ & Sf).
    exists x4a, x4d, feat,
      (mkTensor [N; 1024; 1; 1]
         (avg_pool2d_data (Inception_Net.avgpool5 net) feat [N; 1024; 1; 1])),
      (mkTensor [N; 1024]
         (avg_pool2d_data (Inception_Net.avgpool5 net) feat [N; 1024; 1; 1])),
      (mkTensor [N; 512; 4; 4]
         (avg_pool2d_data (mkPool2d 5 3 0) x4a [N; 512; 4; 4])),
      (mkTensor [N; 528; 4; 4]
         (avg_pool2d_data (mkPool2d 5 3 0) x4d [N; 528; 4; 4])).
    split; [exact Htr'|].
    split; [apply avg_pool2d_v_ok with (h := 7) (w := 7);
            first [exact Sf | cbn; lia]|].
    split; [reflexivity|].
    split; [apply reshape_v_flatten with (c := 1024) (h := 1) (w := 1);
            first [reflexivity | assumption]|].
    split; [reflexivity|].
    split; [apply avg_pool2d_v_ok with (h := 14) (w := 14);
            first [exact S4a | cbn; lia]|].
    split; [reflexivity|].
    split; [apply avg_pool2d_v_ok with (h := 14) (w := 14);
            first [exact S4d | cbn; lia]|].
    reflexivity.
  - split.
    + intros (ys & s' & Hrun).
      destruct (Z.lt_ge_cases H 193) as [L1|L1];
        [rewrite Fsmall in Hrun by lia; discriminate|].
      destruct (Z.lt_ge_cases W 193) as [L2|L2];
        [rewrite Fsmall in Hrun by lia; discriminate|].
      destruct (Z.lt_ge_cases 224 H) as [L3|L3];
        [destruct Fmain as (wd & _ & E); try lia; rewrite E in Hrun; discriminate|].
      destruct (Z.lt_ge_cases 224 W) as [L4|L4];
        [destruct Fmain as (wd & _ & E); try lia; rewrite E in Hrun; discriminate|].
      destruct (Z.lt_ge_cases H 209) as [L5|L5];
        [destruct Faux as (wd & _ & E); try lia; rewrite E in Hrun; discriminate|].
      destruct (Z.lt_ge_cases W 209) as [L6|L6];
        [destruct Faux as (wd & _ & E); try lia; rewrite E in Hrun; discriminate|].
      lia.
    + intros [G1 G2]. apply Fok; assumption.
Qed.

End Heads.

(** ** Inference mode *)

Section Inference.

Context {A : Type} {SA : Scalar A}.
Implicit Types (s : Store A) (v : Tensor A).

Lemma gpure_glift {Y} (r : result Y) : gpure (glift r).
Proof. exists r. reflexivity. Qed.

Lemma gpure_gret {Y} (y : Y) : gpure (gret y).
Proof. exists (Ok y). reflexivity. Qed.

Lemma gpure_gbind {X Y} (p : G X) (k : X -> G Y) :
  gpure p -> (forall x, gpure (k x)) -> gpure (gbind p k).
Proof.
  intros [r Hr] Hk. destruct r as [x|e].
  - destruct (Hk x) as [r' Hr']. exists r'. intros g.
    unfold gbind. rewrite Hr. simpl. apply Hr'.
  - exists (Raise e). intros g. unfold gbind. rewrite Hr. reflexivity.
Qed.

Lemma gpure_dropout (m : Dropout) (x : Tensor A) :
  drop_training m = false -> gpure (dropout_g m x).
Proof.
  intros H. exists (Ok x). intros g. now rewrite dropout_g_eval.
Qed.

Lemma gpure_Auxiliary_Classifier (self : Auxiliary_Classifier.t A) v :
  drop_training (Auxiliary_Classifier.dropout4 self) = false ->
  gpure (Auxiliary_Classifier_value self v).
Proof.
  intros H. unfold Auxiliary_Classifier_value.
  repeat first [ apply gpure_gret
               | apply gpure_glift
               | apply gpure_dropout; assumption
               | apply gpure_gbind; [|intros ?] ].
Qed.

Lemma gpure_Inception_Net (net : Inception_Net.t A) v :
  inference_mode net -> gpure (Inception_Net_value net v).
Proof.
  intros (H5 & H1 & H2). unfold Inception_Net_value, main_head.
  repeat first [ apply gpure_gret
               | apply gpure_glift
               | apply gpure_dropout; assumption
               | apply gpure_Auxiliary_Classifier; assumption
               | apply gpure_gbind; [|intros ?] ].
Qed.

Lemma inference_mode_eval (net : Inception_Net.t A) :
  inference_mode (Inception_Net.eval net).
Proof. repeat split. Qed.

(** Outside training mode a dropout call returns its argument, the same
    reference, and changes nothing in the store. *)
Lemma Dropout_call_eval (m : Dropout) s x v :
  drop_training m = false -> pts s x v -> Dropout_call m x s = Ok (x, s).
Proof.
  intros Hm Hx. unfold Dropout_call, bind. rewrite (pts_load Hx), Hm. reflexivity.
Qed.

(** In training mode it draws a mask: the result is a new tensor and
    the generator has moved. *)
Lemma Dropout_call_training (m : Dropout) s x v :
  drop_training m = true -> Qeq_bool (drop_p m) 0 = false ->
  numel (shape v) <> 0 -> pts s x v ->
  exists y s', Dropout_call m x s = Ok (y, s') /\
               loc y = List.length (heap s) /\
               pts s' y (dropout_v (drop_p m) (rng s) v) /\
               rng s' = advance (rng s) (numel (shape v)).
Proof.
  intros Hm Hp Hn Hx. unfold Dropout_call, bind. rewrite (pts_load Hx), Hm, Hp.
  cbn [shape negb orb]. rewrite (proj2 (Z.eqb_neq _ 0) Hn).
  unfold get_rng, set_rng.
  match goal with |- context [alloc ?r ?s0] =>
    destruct (alloc_pts s0 r) as (y & s' & Hrun & Hy & _ & Hg & Hl & _) end.
  exists y, s'. auto.
Qed.

Lemma observe_sim net s x v (r : result (Tensor A * Tensor A * Tensor A)) :
  pts s x v -> (forall g, Inception_Net_value net v g = glift r g) ->
  observe (Inception_Net.forward net x s) = r /\
  forall ys s', Inception_Net.forward net x s = Ok (ys, s') ->
                rng s' = rng s /\ extends s s'.
Proof.
  intros Hx Hr. pose proof (sim_Inception_Net net Hx) as Hsim.
  unfold sim in Hsim. rewrite Hr in Hsim. unfold glift in Hsim.
  destruct r as [[[v0 v1] v2]|e].
  - destruct Hsim as ([[y0 y1] y2] & s' & Hrun & (P0 & P1 & P2) & Hext & Hg).
    cbn [fst snd] in P0, P1, P2. rewrite Hrun. split.
    + unfold observe. now rewrite (pts_load P0), (pts_load P1), (pts_load P2).
    + intros ys s'' E. inversion E; subst. auto.
  - rewrite Hsim. split; [reflexivity|]. intros ys s' E. discriminate.
Qed.

(** C8. In inference mode the three dropout layers (p = 0.4 before the
    main classifier, p = 0.7 in each auxiliary classifier) return their
    input unchanged, and [forward] is deterministic: two runs on
    references that denote the same input, from any two stores and
    generator states, show the same scores or the same error; a run
    leaves the generator where it was, and running again from the
    store it leaves shows the same result. *)
Theorem Inception_Net_eval_deterministic (theta : StateDict A) nc net :
  Inception_Net.init theta nc = Ok net ->
  let model := Inception_Net.eval net in
  let d5 := Inception_Net.dropout5 model in
  let d1 := Auxiliary_Classifier.dropout4 (Inception_Net.aux_classifier1 model) in
  let d2 := Auxiliary_Classifier.dropout4 (Inception_Net.aux_classifier2 model) in
  (drop_p d5 = (4 # 10)%Q /\ drop_p d1 = (7 # 10)%Q /\ drop_p d2 = (7 # 10)%Q) /\
  (forall d s x v, In d [d5; d1; d2] -> pts s x v -> Dropout_call d x s = Ok (x, s)) /\
  (forall s1 s2 x1 x2 v, pts s1 x1 v -> pts s2 x2 v ->
     observe (Inception_Net.forward model x1 s1) =
     observe (Inception_Net.forward model x2 s2)) /\
  (forall s x v ys s', pts s x v ->
     Inception_Net.forward model x s = Ok (ys, s') ->
     rng s' = rng s /\
     observe (Inception_Net.forward model x s') = observe (Ok (ys, s'))).
Proof.
  intros Hinit model d5 d1 d2.
  apply Inception_Net_init_inv in Hinit as [Hnc ->].
  assert (Hdet : forall s1 s2 x1 x2 v, pts s1 x1 v -> pts s2 x2 v ->
            observe (Inception_Net.forward model x1 s1) =
            observe (Inception_Net.forward model x2 s2)).
  { intros s1 s2 x1 x2 v H1 H2.
    destruct (gpure_Inception_Net v (inference_mode_eval (net_layers theta nc)))
      as [r Hr].
    destruct (observe_sim model r H1 Hr) as [-> _].
    destruct (observe_sim model r H2 Hr) as [-> _]. reflexivity. }
  split; [repeat split|]. split; [|split; [exact Hdet|]].
  - intros d s x v Hd Hx. apply Dropout_call_eval with (v := v); [|exact Hx].
    destruct Hd as [<-|[<-|[<-|[]]]]; reflexivity.
  - intros s x v ys s' Hx Hrun.
    destruct (gpure_Inception_Net v (inference_mode_eval (net_layers theta nc)))
      as [r Hr].
    destruct (observe_sim model r Hx Hr) as [_ Hkeep].
    destruct (Hkeep ys s' Hrun) as [Hg Hext]. split; [exact Hg|].
    rewrite <- Hrun. apply Hdet with (v := v); [|exact Hx].
    apply (pts_extends Hext Hx).
Qed.

End Inference.

(** ** The taps *)

Section Taps.

Context {A : Type} {SA : Scalar A}.
Implicit Types (s : Store A) (v : Tensor A).
Local Open Scope eager_scope.

Ltac run_step :=
  match goal with
  | |- context [match ?m ?s with Ok _ => _ | Raise _ => _ end] =>
      destruct (m s) as [[? ?]|?]; try reflexivity
  end.

(** [forward] is these three pieces with the two clones between them. *)
Lemma Inception_Net_forward_stages (self : Inception_Net.t A) x s :
  Inception_Net.forward self x s =
  (x4a <- forward_to_4a self x ;;
   aux0 <- clone x4a ;;
   x4d <- forward_4b_to_4d self x4a ;;
   aux1 <- clone x4d ;;
   forward_after_taps self x4d aux0 aux1) s.
Proof.
  unfold Inception_Net.forward, forward_to_4a, forward_4b_to_4d, forward_after_taps.
  unfold bind. repeat run_step.
Qed.

Lemma sim_forward_to_4a (self : Inception_Net.t A) s x v :
  pts s x v -> sim pts s (forward_to_4a self x) (glift (trunk_to_4a self v)).
Proof.
  intros Hx. unfold forward_to_4a, trunk_to_4a.
  do 8 (eapply sim_bind_lift; [sim_prim|]; intros; carry).
  do 2 (eapply sim_bind_lift; [apply sim_Inception_Block; eassumption|]; intros; carry).
  eapply sim_bind_lift; [sim_prim|]; intros; carry.
  apply sim_Inception_Block; assumption.
Qed.

Lemma sim_forward_4b_to_4d (self : Inception_Net.t A) s x v :
  pts s x v -> sim pts s (forward_4b_to_4d self x) (glift (trunk_4a_to_4d self v)).
Proof.
  intros Hx. unfold forward_4b_to_4d, trunk_4a_to_4d.
  do 2 (eapply sim_bind_lift; [apply sim_Inception_Block; eassumption|]; intros; carry).
  apply sim_Inception_Block; assumption.
Qed.

Lemma sim_forward_after_taps (self : Inception_Net.t A) s x aux0 aux1 v4a v4d :
  pts s x v4d -> pts s aux0 v4a -> pts s aux1 v4d ->
  sim pts3 s (forward_after_taps self x aux0 aux1)
    (gbind (glift (trunk_4d_to_pool self v4d)) (fun pooled =>
     gbind (main_head self pooled) (fun scores2 =>
     gbind (Auxiliary_Classifier_value (Inception_Net.aux_classifier1 self) v4a)
       (fun scores0 =>
     gbind (Auxiliary_Classifier_value (Inception_Net.aux_classifier2 self) v4d)
       (fun scores1 =>
     gret (scores0, scores1, scores2)))))).
Proof.
  intros Hx H0 H1. unfold forward_after_taps, trunk_4d_to_pool, main_head.
  eapply sim_bind_seg; [apply sim_Inception_Block; eassumption|]; intros; carry.
  eapply sim_bind_seg; [sim_prim|]; intros; carry.
  do 2 (eapply sim_bind_seg; [apply sim_Inception_Block; eassumption|]; intros; carry).
  eapply sim_bind; [sim_prim|]; intros; carry.
  do 3 (eapply sim_bind_nest; [sim_prim|]; intros; carry; cbv beta in *; subst).
  eapply sim_bind; [sim_prim|]; intros; carry.
  do 2 (eapply sim_bind; [apply sim_Auxiliary_Classifier; eassumption|]; intros; carry).
  apply sim_ret. unfold pts3; simpl; auto.
Qed.

(** A clone is a new storage: its location is not one of the store it
    was made in. *)
Lemma clone_fresh s x v :
  pts s x v ->
  exists y s', clone x s = Ok (y, s') /\ pts s' y v /\
               loc y = List.length (heap s) /\ loc y <> loc x /\
               heap s' = heap s ++ [data v] /\ rng s' = rng s.
Proof.
  intros Hx. unfold clone, apply1, bind, lift. rewrite (pts_load Hx).
  destruct (alloc_pts s v) as (y & s' & Hrun & Hy & _ & Hg & Hl & Hh).
  exists y, s'. repeat split; try assumption; try apply Hy.
  destruct Hx as [Hn _]. intros E. rewrite <- E, Hl in Hn.
  assert (List.length (heap s) < List.length (heap s))%nat; [|lia].
  apply nth_error_Some. rewrite Hn. discriminate.
Qed.

Lemma heap_app_extends s s' l : heap s' = heap s ++ l -> extends s s'.
Proof. intros H. exists l. exact H. Qed.

(** C7. On an input of shape (N, 3, 224, 224): the reference kept for
    the first auxiliary classifier is a clone of the output of block
    4a (512 channels), the one kept for the second a clone of the
    output of block 4d (528 channels); each clone is a new storage,
    at a location no earlier tensor has; every later stage only
    extends the store, so at the end both clones still hold the
    activations of the tap points, and the auxiliary scores are the
    values of the auxiliary classifiers on those activations. *)
Theorem Inception_Net_forward_taps (theta : StateDict A) nc net s x v N :
  Inception_Net.init theta nc = Ok net ->
  0 < N ->
  pts s x v -> shape v = [N; 3; 224; 224] ->
  (forall s0,
     Inception_Net.forward net x s0 =
     (x4a <- forward_to_4a net x ;;
      aux0 <- clone x4a ;;
      x4d <- forward_4b_to_4d net x4a ;;
      aux1 <- clone x4d ;;
      forward_after_taps net x4d aux0 aux1) s0) /\
  conv_in (Auxiliary_Classifier.conv2 (Inception_Net.aux_classifier1 net)) = 512 /\
  conv_in (Auxiliary_Classifier.conv2 (Inception_Net.aux_classifier2 net)) = 528 /\
  exists x4a s1 aux0 s2 x4d s3 aux1 s4 ys s' v4a v4d g1 g2 auxScore0 auxScore1,
    forward_to_4a net x s = Ok (x4a, s1) /\
    pts s1 x4a v4a /\ shape v4a = [N; 512; 14; 14] /\
    clone x4a s1 = Ok (aux0, s2) /\
    loc aux0 = List.length (heap s1) /\ loc aux0 <> loc x4a /\
    forward_4b_to_4d net x4a s2 = Ok (x4d, s3) /\
    pts s3 x4d v4d /\ shape v4d = [N; 528; 14; 14] /\
    clone x4d s3 = Ok (aux1, s4) /\
    loc aux1 = List.length (heap s3) /\ loc aux1 <> loc x4d /\
    forward_after_taps net x4d aux0 aux1 s4 = Ok (ys, s') /\
    Inception_Net.forward net x s = Ok (ys, s') /\
    extends s2 s3 /\ extends s3 s4 /\ extends s4 s' /\
    pts s2 aux0 v4a /\ pts s' aux0 v4a /\
    pts s4 aux1 v4d /\ pts s' aux1 v4d /\
    Auxiliary_Classifier_value (Inception_Net.aux_classifier1 net) v4a g1 =
      Ok (auxScore0, g2) /\
    pts s' (fst (fst ys)) auxScore0 /\
    Auxiliary_Classifier_value (Inception_Net.aux_classifier2 net) v4d g2 =
      Ok (auxScore1, rng s') /\
    pts s' (snd (fst ys)) auxScore1.
Proof.
  intros Hinit HN Hx Hv.
  apply Inception_Net_init_inv in Hinit as [Hnc ->].
  split; [intros s0; apply Inception_Net_forward_stages|].
  split; [reflexivity|]. split; [reflexivity|].
  set (net := net_layers theta nc).
  (* the values *)
  destruct (@Inception_Net_value_cases _ _ theta nc v N 224 224 (rng s))
    as (_ & _ & _ & Hok); try assumption; try lia.
  destruct (Hok eq_refl eq_refl) as (a0 & a1 & m & g' & Hval & _).
  fold net in Hval.
  destruct (Inception_Net_value_inv _ _ _ Hval)
    as (v4a & v4d & pooled & g1 & g2 & T1 & T2 & T3 & T4 & T5 & T6).
  destruct (@trunk_trace_exists _ _ theta nc v N 224 224 Hv) as (w4a & w4d & feat & Htr);
    try lia.
  fold net in Htr.
  destruct (trunk_trace_values Htr) as (U1 & U2 & _).
  assert (w4a = v4a) by congruence. subst w4a.
  assert (w4d = v4d) by congruence. subst w4d.
  pose proof Htr as
       (t1 & t2 & t3 & t4 & t5 & t6 & t7 & t8 & t9 & t10 & t11 & t12 & t13 &
        _ & _ & _ & _ & _ & _ & _ & _ & _ & _ & _ & _ & _ & S4a &
        _ & _ & _ & S4d & _).
  change (shape v4a = [N; 512; 14; 14]) in S4a.
  change (shape v4d = [N; 528; 14; 14]) in S4d.
  (* the run, piece by piece *)
  pose proof (sim_forward_to_4a net Hx) as R1. unfold sim, glift in R1.
  rewrite T1 in R1. destruct R1 as (x4a & s1 & Run1 & P1 & E1 & G1).
  destruct (clone_fresh P1) as (aux0 & s2 & Run2 & P2 & L2 & N2 & Hp2 & G2).
  pose proof (heap_app_extends _ _ _ Hp2) as E2.
  pose proof (pts_extends E2 P1) as P1'.
  pose proof (sim_forward_4b_to_4d net P1') as R3. unfold sim, glift in R3.
  rewrite T2 in R3. destruct R3 as (x4d & s3 & Run3 & P3 & E3 & G3).
  destruct (clone_fresh P3) as (aux1 & s4 & Run4 & P4 & L4 & N4 & Hp4 & G4).
  pose proof (heap_app_extends _ _ _ Hp4) as E4.
  pose proof (pts_extends E4 P3) as P3'.
  pose proof (pts_extends E4 (pts_extends E3 P2)) as P2'.
  pose proof (sim_forward_after_taps net P3' P2' P4) as R5. unfold sim in R5.
  assert (Hg : rng s4 = rng s) by congruence.
  rewrite Hg in R5.
  unfold gbind at 1, glift at 1 in R5. rewrite T3 in R5.
  unfold gbind at 1 in R5. rewrite T4 in R5.
  unfold gbind at 1 in R5. rewrite T5 in R5.
  unfold gbind at 1 in R5. rewrite T6 in R5. unfold gret in R5.
  destruct R5 as ([[y0 y1] y2] & s' & Run5 & (Q0 & Q1 & Q2) & E5 & G5).
  cbn [fst snd] in Q0, Q1, Q2.
  exists x4a, s1, aux0, s2, x4d, s3, aux1, s4, (y0, y1, y2), s', v4a, v4d, g1, g2, a0, a1.
  rewrite G5.
  repeat (split; [first [assumption | eassumption]|]).
  split.
  { rewrite Inception_Net_forward_stages. unfold bind at 1. rewrite Run1.
    unfold bind at 1. rewrite Run2. unfold bind at 1. rewrite Run3.
    unfold bind at 1. rewrite Run4. exact Run5. }
  repeat (split; [first [assumption | eassumption
                        | eapply pts_extends; eassumption]|]).
  exact Q1.
Qed.

End Taps.

(** ** Channel counts *)

Section Channels.

Context {A : Type} {SA : Scalar A}.
Implicit Types (s : Store A) (v : Tensor A).

Lemma conv2d_v_inv (m : Conv2d A) x r :
  conv2d_v m x = Ok r ->
  exists n c h w h' w',
    shape x = [n; c; h; w] /\ 1 <= conv_out m /\ c = conv_in m /\
    shape r = [n; (if c =? 0 then 0 else conv_out m); h'; w'].
Proof.
  unfold conv2d_v, conv2d_shape.
  destruct (shape x) as [|n [|c [|h [|w [|]]]]]; try discriminate.
  destruct (Z.ltb_spec (conv_stride m) 1); [discriminate|].
  destruct (Z.ltb_spec (conv_out m) 1); [discriminate|].
  destruct (Z.eqb_spec c (conv_in m)); [|discriminate]. cbn [negb].
  destruct ((h + 2 * conv_pad m <? conv_k m) || (w + 2 * conv_pad m <? conv_k m));
    [discriminate|].
  cbn [rbind]. intros E. inversion E. cbn [shape].
  eexists n, c, h, w, _, _. repeat split; auto.
Qed.

Lemma max_pool2d_v_inv (m : Pool2d) (x r : Tensor A) :
  max_pool2d_v m x = Ok r ->
  exists n c h w, shape x = [n; c; h; w] /\ c <> 0 /\
                  exists h' w', shape r = [n; c; h'; w'].
Proof.
  unfold max_pool2d_v, pool2d_shape.
  destruct (shape x) as [|n [|c [|h [|w [|]]]]]; try discriminate.
  destruct ((pool_k m <? 1) || (pool_stride m <? 1)); [discriminate|].
  destruct (Z.eqb_spec c 0); [discriminate|]. cbn [orb].
  destruct ((h =? 0) || (w =? 0)); [discriminate|].
  destruct (pool_k m / 2 <? pool_pad m); [discriminate|]. cbv zeta.
  match goal with |- context [if ?b then _ else _] => destruct b; [discriminate|] end.
  cbn [rbind]. intros E. inversion E. cbn [shape].
  exists n, c, h, w. repeat split; eauto.
Qed.

(** A block whose [forward] returns has only positive channel counts. *)
Lemma Inception_Block_value_positive (theta : StateDict A) name p v r :
  nonneg_params p ->
  Inception_Block_value (block_layers theta name p) v = Ok r ->
  positive_params p.
Proof.
  destruct p as [[[[[[i o1] r2] o2] r3] o3] o4].
  intros (Hi & _) Hval. unfold Inception_Block_value in Hval.
  unfold block_layers in Hval.
  cbn [Inception_Block.conv1 Inception_Block.reduce2 Inception_Block.conv2
       Inception_Block.reduce3 Inception_Block.conv3 Inception_Block.maxpool4
       Inception_Block.conv4] in Hval.
  repeat match type of Hval with
         | rbind (conv2d_v ?m ?x) _ = _ =>
             let E := fresh "E" in
             destruct (conv2d_v m x) eqn:E; [|discriminate];
             apply conv2d_v_inv in E; cbn [rbind] in Hval
         | rbind (max_pool2d_v ?m ?x) _ = _ =>
             let E := fresh "E" in
             destruct (max_pool2d_v m x) eqn:E; [|discriminate];
             apply max_pool2d_v_inv in E; cbn [rbind] in Hval
         end.
  repeat match goal with
         | E : exists _, _ |- _ => destruct E
         | E : _ /\ _ |- _ => destruct E
         end.
  cbn [conv_out conv_in] in *. simpl. 
  repeat match goal with
         | E1 : shape ?x = _, E2 : shape ?x = _ |- _ =>
             rewrite E1 in E2; inversion E2; clear E2
         end.
  subst. lia.
Qed.

Lemma Inception_Block_forward_mismatch (theta : StateDict A) name p s x v N C H W :
  positive_params p ->
  pts s x v -> shape v = [N; C; H; W] -> C <> in_channels p ->
  Inception_Block.forward (block_layers theta name p) x s =
    Raise (ChannelMismatch (in_channels p) C).
Proof.
  destruct p as [[[[[[i o1] r2] o2] r3] o3] o4].
  intros (Hi & H1 & _) Hx Hv HC. cbn [in_channels] in *.
  pose proof (sim_Inception_Block (block_layers theta name (i, o1, r2, o2, r3, o3, o4)) Hx)
    as Hsim.
  unfold sim, glift, Inception_Block_value in Hsim.
  rewrite (@conv2d_v_channel_mismatch _ _ _ v N C H W) in Hsim;
    [exact Hsim|try assumption; cbn; lia..].
Qed.

(** C6, as the code has it.  In the network every stage produces the
    channel count the next one expects (192 into 3a, 256, 480, 512,
    512, 512, 528, 832, 832, and 1024 into the final linear layer; 512
    and 528 into the auxiliary classifiers).  Building a block checks
    no such thing: [init] only allocates the weights, so that it
    accepts every tuple of counts from 0 to 1024, whether they fit one
    another or not, and never one with a negative entry.  A channel
    count that does not fit, or a zero entry, is found when [forward]
    runs: the first convolution raises the mismatch of the channel
    counts, and a block with a zero entry never returns. *)
Theorem channel_counts_checked_by_forward (theta : StateDict A) nc net :
  Inception_Net.init theta nc = Ok net ->
  (conv_out (Inception_Net.conv2 net) = block_in (Inception_Net.inception3a net) /\
   block_out (Inception_Net.inception3a net) = block_in (Inception_Net.inception3b net) /\
   block_out (Inception_Net.inception3b net) = block_in (Inception_Net.inception4a net) /\
   block_out (Inception_Net.inception4a net) = block_in (Inception_Net.inception4b net) /\
   block_out (Inception_Net.inception4b net) = block_in (Inception_Net.inception4c net) /\
   block_out (Inception_Net.inception4c net) = block_in (Inception_Net.inception4d net) /\
   block_out (Inception_Net.inception4d net) = block_in (Inception_Net.inception4e net) /\
   block_out (Inception_Net.inception4e net) = block_in (Inception_Net.inception5a net) /\
   block_out (Inception_Net.inception5a net) = block_in (Inception_Net.inception5b net) /\
   block_out (Inception_Net.inception5b net) = lin_in (Inception_Net.linear5 net) /\
   block_out (Inception_Net.inception3a net) = 256 /\
   block_out (Inception_Net.inception4a net) = 512 /\
   conv_in (Auxiliary_Classifier.conv2 (Inception_Net.aux_classifier1 net)) = 512 /\
   block_out (Inception_Net.inception4d net) = 528 /\
   conv_in (Auxiliary_Classifier.conv2 (Inception_Net.aux_classifier2 net)) = 528) /\
  (forall name p,
     (small_params p -> exists b, Inception_Block.init theta name p = Ok b) /\
     ((exists b, Inception_Block.init theta name p = Ok b) -> nonneg_params p)) /\
  (forall name p b s x v N C H W,
     Inception_Block.init theta name p = Ok b ->
     pts s x v -> shape v = [N; C; H; W] ->
     (positive_params p -> C <> in_channels p ->
        Inception_Block.forward b x s = Raise (ChannelMismatch (in_channels p) C)) /\
     (~ positive_params p -> exists e, Inception_Block.forward b x s = Raise e)).
Proof.
  intros Hinit. apply Inception_Net_init_inv in Hinit as [Hnc ->].
  split; [repeat split|]. split.
  - intros name p. split.
    + intros Hp. eexists. apply Inception_Block_init_ok. exact Hp.
    + intros [b Hb]. apply Inception_Block_init_inv in Hb. tauto.
  - intros name p b s x v N C H W Hb Hx Hv.
    apply Inception_Block_init_inv in Hb as [Hp ->]. split.
    + intros Hpos HC. eapply Inception_Block_forward_mismatch; eassumption.
    + intros Hno.
      pose proof (sim_Inception_Block (block_layers theta name p) Hx) as Hsim.
      unfold sim, glift in Hsim.
      destruct (Inception_Block_value (block_layers theta name p) v) as [r|e] eqn:E.
      * exfalso. apply Hno. eapply Inception_Block_value_positive; eassumption.
      * exists e. exact Hsim.
Qed.

End Channels.

(** ** The loss *)

Section LossTheorems.

Local Open Scope R_scope.

Lemma ssum_exp_pos (l : list R) : l <> [] -> 0 < ssum (map exp l).
Proof.
  destruct l as [|a l]; [congruence|]. intros _.
  assert (H : forall l' : list R, 0 <= ssum (map exp l')).
  { induction l' as [|b l' IH]; simpl; [lra|].
    pose proof (exp_pos b). lra. }
  simpl. pose proof (exp_pos a). specialize (H l). lra.
Qed.

Lemma row_nonempty (scores : Tensor R) k i : (0 < k)%Z -> row scores k i <> [].
Proof.
  intros Hk. unfold row, zrange.
  destruct (Z.to_nat k) as [|n] eqn:E; [lia|]. simpl. discriminate.
Qed.

Lemma log_softmax_standard (scores : Tensor R) k i c :
  (0 < k)%Z -> log_softmax scores k i c = ln (softmax scores k i c).
Proof.
  intros Hk. unfold log_softmax, softmax.
  pose proof (ssum_exp_pos (row_nonempty scores i Hk)) as Hpos.
  unfold Rdiv. rewrite ln_mult; [|apply exp_pos|apply Rinv_0_lt_compat; exact Hpos].
  rewrite ln_exp, ln_Rinv by exact Hpos. lra.
Qed.

Lemma nll_terms_standard (scores : Tensor R) k y : forall i,
  Forall (fun c => 0 <= c < k)%Z y ->
  List.length (nll_terms scores k i y) = List.length y /\
  ssum (nll_terms scores k i y) = standard_nll scores k i y.
Proof.
  induction y as [|c y IH]; intros i Hy; [split; reflexivity|].
  inversion Hy as [|c' y' Hc Hy']; subst.
  destruct (IH (i + 1)%Z Hy') as [IHl IHs].
  cbn [nll_terms standard_nll].
  rewrite (proj2 (Z.eqb_neq c (-100))) by lia. cbn [app].
  split; [cbn [List.length]; now rewrite IHl|].
  cbn [ssum fold_right]. fold (ssum (nll_terms scores k (i + 1) y)).
  rewrite IHs, log_softmax_standard by lia. reflexivity.
Qed.

Lemma valid_labels_pass (k : Z) (y : list Z) :
  Forall (fun c => 0 <= c < k)%Z y ->
  existsb (fun c => negb (c =? -100)%Z && ((c <? 0)%Z || (k <=? c)%Z)) y = false.
Proof.
  induction 1 as [|c y Hc _ IH]; [reflexivity|].
  cbn [existsb]. rewrite IH.
  rewrite (proj2 (Z.ltb_ge c 0)), (proj2 (Z.leb_gt k c)) by lia.
  now rewrite Bool.andb_false_r.
Qed.

(** On scores of shape (N, C) and N labels in [0, C) the library's
    cross-entropy is the textbook one. *)
Lemma cross_entropy_standard (scores : Tensor R) (y : list Z) N C :
  shape scores = [N; C] -> Z.of_nat (List.length y) = N ->
  Forall (fun c => 0 <= c < C)%Z y ->
  cross_entropy scores y = Ok (standard_cross_entropy scores y).
Proof.
  intros Hs Hl Hy. unfold cross_entropy, standard_cross_entropy. rewrite Hs.
  rewrite (proj2 (Z.eqb_eq _ _) Hl). cbn [negb nth].
  rewrite (valid_labels_pass Hy).
  destruct (nll_terms_standard scores 0 Hy) as [El Es].
  now rewrite El, Es.
Qed.


End LossTheorems.

(** ** Which inputs the forward methods accept *)

Section Domains.

Context {A : Type} {SA : Scalar A}.
Implicit Types (s : Store A) (v : Tensor A).

Lemma conv2d_v_inv_size (m : Conv2d A) (x r : Tensor A) :
  conv2d_v m x = Ok r ->
  exists n c h w,
    shape x = [n; c; h; w] /\ c = conv_in m /\
    conv_k m <= h + 2 * conv_pad m /\ conv_k m <= w + 2 * conv_pad m.
Proof.
  unfold conv2d_v, conv2d_shape.
  destruct (shape x) as [|n [|c [|h [|w [|? ?]]]]]; try discriminate.
  destruct (conv_stride m <? 1); [discriminate|].
  destruct (conv_out m <? 1); [discriminate|].
  destruct (c =? conv_in m) eqn:Ec; [|discriminate].
  destruct (h + 2 * conv_pad m <? conv_k m) eqn:Eh; [discriminate|].
  destruct (w + 2 * conv_pad m <? conv_k m) eqn:Ew; [discriminate|].
  intros _. exists n, c, h, w.
  apply Z.eqb_eq in Ec. apply Z.ltb_ge in Eh, Ew. auto.
Qed.

Lemma conv2d_v_kernel_too_large (m : Conv2d A) (x : Tensor A) n c h w :
  shape x = [n; c; h; w] ->
  1 <= conv_stride m -> 1 <= conv_out m -> c = conv_in m ->
  h + 2 * conv_pad m < conv_k m \/ w + 2 * conv_pad m < conv_k m ->
  conv2d_v m x = Raise KernelTooLarge.
Proof.
  intros Hx Hs Ho Hc Hk. unfold conv2d_v, conv2d_shape. rewrite Hx.
  rewrite (proj2 (Z.ltb_ge (conv_stride m) 1)) by lia.
  rewrite (proj2 (Z.ltb_ge (conv_out m) 1)) by lia.
  rewrite (proj2 (Z.eqb_eq c (conv_in m))) by assumption.
  cbn [negb].
  destruct Hk as [Hk|Hk]; rewrite (proj2 (Z.ltb_lt _ _) Hk);
    [|rewrite Bool.orb_true_r]; reflexivity.
Qed.

Lemma trunk_trace_shapes (net : Inception_Net.t A) v N H1 W1 H2 W2 H3 W3 H4 W4 H5 W5
    (x4a x4d feat : Tensor A) :
  trunk_trace net v N H1 W1 H2 W2 H3 W3 H4 W4 H5 W5 x4a x4d feat ->
  shape x4a = [N; 512; H4; W4] /\ shape x4d = [N; 528; H4; W4] /\
  shape feat = [N; 1024; H5; W5].
Proof.
  unfold trunk_trace.
  intros (a1 & a2 & a3 & a4 & a5 & b3a & b3b & a6 & b4b & b4c & b4e & a7 & b5a & Htr).
  tauto.
Qed.

(** A block fed a map without rows or columns: the 1x1 convolution of
    the first branch refuses it. *)
Lemma Inception_Block_forward_no_pixels (theta : StateDict A) name p s x v N H W :
  positive_params p ->
  pts s x v -> shape v = [N; in_channels p; H; W] -> H <= 0 \/ W <= 0 ->
  Inception_Block.forward (block_layers theta name p) x s = Raise KernelTooLarge.
Proof.
  intros Hp Hx Hv Hhw.
  destruct p as [[[[[[in_ch out1] red2] out2] red3] out3] out4].
  cbn [positive_params in_channels] in *.
  pose proof (sim_Inception_Block
                (block_layers theta name (in_ch, out1, red2, out2, red3, out3, out4)) Hx)
    as Hsim.
  unfold sim, glift in Hsim.
  assert (E : Inception_Block_value
                (block_layers theta name (in_ch, out1, red2, out2, red3, out3, out4)) v =
              Raise KernelTooLarge).
  { unfold Inception_Block_value.
    rewrite (@conv2d_v_kernel_too_large _ v N in_ch H W); [reflexivity|assumption|..];
      unfold block_layers;
      cbn [Inception_Block.conv1 conv_stride conv_out conv_in conv_k conv_pad]; lia. }
  rewrite E in Hsim. exact Hsim.
Qed.

(** X5. For positive channel counts, [Inception_Block.forward] returns
    exactly on the inputs (N, C, H, W) with C = in_ch and a map of at
    least one row and one column, the empty batch included; with the
    right channel count and no row or no column it raises the error of
    a kernel larger than its input. *)
Theorem Inception_Block_forward_domain (theta : StateDict A) name p self s x v N C H W :
  Inception_Block.init theta name p = Ok self ->
  positive_params p ->
  pts s x v -> shape v = [N; C; H; W] ->
  ((exists y s', Inception_Block.forward self x s = Ok (y, s')) <->
   (C = in_channels p /\ 0 < H /\ 0 < W)) /\
  (C = in_channels p -> H <= 0 \/ W <= 0 ->
   Inception_Block.forward self x s = Raise KernelTooLarge).
Proof.
  intros Hinit Hp Hx Hv.
  apply Inception_Block_init_inv in Hinit as [_ ->].
  assert (Hsmall : C = in_channels p -> H <= 0 \/ W <= 0 ->
            Inception_Block.forward (block_layers theta name p) x s =
              Raise KernelTooLarge).
  { intros -> Hhw. eapply Inception_Block_forward_no_pixels; eassumption. }
  split; [|exact Hsmall].
  split.
  - intros (y & s' & Hrun).
    destruct (Z.eq_dec C (in_channels p)) as [HC|HC].
    + destruct (Z_lt_le_dec 0 H) as [HH|HH]; [destruct (Z_lt_le_dec 0 W) as [HW|HW]|].
      * auto.
      * rewrite (Hsmall HC (or_intror HW)) in Hrun. discriminate.
      * rewrite (Hsmall HC (or_introl HH)) in Hrun. discriminate.
    + rewrite (@Inception_Block_forward_mismatch _ _ theta name p s x v N C H W)
        in Hrun by assumption.
      discriminate.
  - intros (-> & HH & HW).
    destruct p as [[[[[[in_ch out1] red2] out2] red3] out3] out4].
    cbn [in_channels] in Hv.
    destruct (@Inception_Block_value_ok _ _ theta name in_ch out1 red2 out2 red3 out3 out4
                v N H W Hp Hv HH HW) as (b1 & b2 & b3 & b4 & _ & _ & _ & _ & _ & Hval).
    pose proof (sim_Inception_Block
                  (block_layers theta name (in_ch, out1, red2, out2, red3, out3, out4)) Hx)
      as Hsim.
    unfold sim, glift in Hsim. rewrite Hval in Hsim.
    destruct Hsim as (y & s' & Hrun & _). exists y, s'. exact Hrun.
Qed.

(** What the auxiliary classifier raises on a map too small for its
    pooling, on a wrong channel count and on an empty batch. *)
Lemma aux_forward_errors (theta : StateDict A) name in_ch nc self s x v N C H W :
  Auxiliary_Classifier.init theta name in_ch nc = Ok self ->
  pts s x v -> shape v = [N; C; H; W] ->
  0 < C -> 0 < H -> 0 < W ->
  (H < 5 \/ W < 5 ->
     Auxiliary_Classifier.forward self x s = Raise OutputTooSmall) /\
  (5 <= H -> 5 <= W -> C <> in_ch ->
     Auxiliary_Classifier.forward self x s = Raise (ChannelMismatch in_ch C)) /\
  (5 <= H -> 5 <= W -> C = in_ch -> N = 0 ->
     Auxiliary_Classifier.forward self x s = Raise ShapeAmbiguous).
Proof.
  intros Hinit Hx Hv HC HH HW.
  apply Auxiliary_Classifier_init_inv in Hinit as (Hi & Hnc & ->).
  pose proof (sim_Auxiliary_Classifier (aux_layers theta name in_ch nc) Hx) as Hsim.
  unfold sim in Hsim.
  set (self := aux_layers theta name in_ch nc) in *.
  set (m1 := Auxiliary_Classifier.avgpool1 self).
  set (m2 := Auxiliary_Classifier.conv2 self).
  assert (Hpool : 5 <= H -> 5 <= W ->
            avg_pool2d_v m1 v =
              Ok (mkTensor [N; C; (H - 5) / 3 + 1; (W - 5) / 3 + 1]
                    (avg_pool2d_data m1 v [N; C; (H - 5) / 3 + 1; (W - 5) / 3 + 1]))).
  { intros G1 G2. apply avg_pool2d_v_ok with (h := H) (w := W); subst m1 self;
      unfold aux_layers; cbn [Auxiliary_Classifier.avgpool1]; layer_side. }
  split; [|split].
  - intros Hsmall.
    assert (E : Auxiliary_Classifier_value self v (rng s) = Raise OutputTooSmall).
    { unfold Auxiliary_Classifier_value. unfold gbind at 1, glift at 1. fold m1.
      rewrite (@avg_pool2d_v_too_small _ _ m1 v N C H W); [reflexivity|assumption|..];
        subst m1 self; unfold aux_layers;
        cbn [Auxiliary_Classifier.avgpool1 pool_k pool_stride pool_pad]; lia. }
    rewrite E in Hsim. exact Hsim.
  - intros G1 G2 Hne.
    assert (E : Auxiliary_Classifier_value self v (rng s) =
                Raise (ChannelMismatch in_ch C)).
    { unfold Auxiliary_Classifier_value. unfold gbind at 1, glift at 1. fold m1 m2.
      rewrite (Hpool G1 G2). unfold gbind at 1, glift at 1.
      rewrite (@conv2d_v_channel_mismatch _ _ m2 _ N C ((H - 5) / 3 + 1) ((W - 5) / 3 + 1));
        [reflexivity|reflexivity|..]; subst m2 self; unfold aux_layers;
        cbn [Auxiliary_Classifier.conv2 conv_stride conv_out conv_in]; lia. }
    rewrite E in Hsim. exact Hsim.
  - intros G1 G2 -> ->.
    assert (E : Auxiliary_Classifier_value self v (rng s) = Raise ShapeAmbiguous).
    { unfold Auxiliary_Classifier_value. unfold gbind at 1, glift at 1. fold m1 m2.
      rewrite (Hpool G1 G2). unfold gbind at 1, glift at 1.
      rewrite (@conv2d_v_ok _ _ m2 _ 0 in_ch ((H - 5) / 3 + 1) ((W - 5) / 3 + 1)
                 ((H - 5) / 3 + 1) ((W - 5) / 3 + 1));
        try reflexivity;
        try (subst m2 self; unfold aux_layers;
             cbn [Auxiliary_Classifier.conv2 conv_stride conv_out conv_in conv_k conv_pad];
             lia). }
    rewrite E in Hsim. exact Hsim.
Qed.

(** X3. The errors of [Auxiliary_Classifier.forward] on an input
    (N, C, H, W) with C, H, W positive: a map with fewer than 5 rows
    or columns is refused by the average pooling; otherwise a channel
    count other than in_ch is refused by the convolution; otherwise an
    empty batch is refused by the reshape, whose -1 is ambiguous. *)
Theorem Auxiliary_Classifier_forward_errors (theta : StateDict A) name
    in_ch nc self s x v N C H W :
  Auxiliary_Classifier.init theta name in_ch nc = Ok self ->
  pts s x v -> shape v = [N; C; H; W] ->
  0 < C -> 0 < H -> 0 < W ->
  (H < 5 \/ W < 5 ->
     Auxiliary_Classifier.forward self x s = Raise OutputTooSmall) /\
  (5 <= H -> 5 <= W -> C <> in_ch ->
     Auxiliary_Classifier.forward self x s = Raise (ChannelMismatch in_ch C)) /\
  (5 <= H -> 5 <= W -> C = in_ch -> N = 0 ->
     Auxiliary_Classifier.forward self x s = Raise ShapeAmbiguous).
Proof. apply aux_forward_errors. Qed.

(** X4. [Auxiliary_Classifier.forward] returns exactly on the inputs
    (N, in_ch, H, W) with at least one sample and a pooled map of 16
    positions (H and W at least 5). *)
Theorem Auxiliary_Classifier_forward_domain (theta : StateDict A) name
    in_ch nc self s x v N C H W :
  Auxiliary_Classifier.init theta name in_ch nc = Ok self ->
  pts s x v -> shape v = [N; C; H; W] ->
  0 <= N -> 0 < C -> 0 < H -> 0 < W ->
  ((exists y s', Auxiliary_Classifier.forward self x s = Ok (y, s')) <->
   (C = in_ch /\ 1 <= N /\ 5 <= H /\ 5 <= W /\
    ((H - 5) / 3 + 1) * ((W - 5) / 3 + 1) = 16)).
Proof.
  intros Hinit Hx Hv HN HC HH HW.
  destruct (@aux_forward_errors theta name in_ch nc self s x v N C H W
              Hinit Hx Hv HC HH HW)
    as (Esmall & Echan & Eempty).
  split.
  - intros (y & s' & Hrun).
    destruct (Z_lt_le_dec H 5) as [G1|G1];
      [rewrite (Esmall (or_introl G1)) in Hrun; discriminate|].
    destruct (Z_lt_le_dec W 5) as [G2|G2];
      [rewrite (Esmall (or_intror G2)) in Hrun; discriminate|].
    destruct (Z.eq_dec C in_ch) as [G3|G3];
      [|rewrite (Echan G1 G2 G3) in Hrun; discriminate].
    destruct (Z.eq_dec N 0) as [G4|G4];
      [rewrite (Eempty G1 G2 G3 G4) in Hrun; discriminate|].
    subst C.
    destruct (Z.eq_dec (((H - 5) / 3 + 1) * ((W - 5) / 3 + 1)) 16) as [G5|G5].
    + repeat split; try assumption; lia.
    + destruct (@aux_forward_cases _ _ theta name in_ch nc self s x v N H W)
        as [Ebad _]; try assumption; try lia.
      rewrite (Ebad G5) in Hrun. discriminate.
  - intros (-> & G1 & G2 & G3 & G4).
    destruct (@aux_forward_cases _ _ theta name in_ch nc self s x v N H W)
      as [_ Eok]; try assumption; try lia.
    destruct (Eok G4) as (y & s' & Hrun & _). exists y, s'. exact Hrun.
Qed.

(** X1. [Inception_Net.forward] on an input whose channel count is not
    3 (a grey-scale image, say): the first convolution raises the
    channel mismatch, whatever the batch and the image size, in
    training mode and after [eval()]. *)
Theorem Inception_Net_forward_channels (theta : StateDict A) nc net s x v N C H W :
  Inception_Net.init theta nc = Ok net ->
  pts s x v -> shape v = [N; C; H; W] -> C <> 3 ->
  Inception_Net.forward net x s = Raise (ChannelMismatch 3 C) /\
  Inception_Net.forward (Inception_Net.eval net) x s = Raise (ChannelMismatch 3 C).
Proof.
  intros Hinit Hx Hv HC.
  apply Inception_Net_init_inv in Hinit as [Hnc ->].
  assert (E : forall net',
            Inception_Net.conv1 net' = Inception_Net.conv1 (net_layers theta nc) ->
            Inception_Net.forward net' x s = Raise (ChannelMismatch 3 C)).
  { intros net' Hc1.
    pose proof (sim_Inception_Net net' Hx) as Hsim. unfold sim in Hsim.
    assert (E : Inception_Net_value net' v (rng s) = Raise (ChannelMismatch 3 C)).
    { unfold Inception_Net_value. unfold gbind at 1, glift at 1. unfold trunk_to_4a.
      rewrite Hc1.
      rewrite (@conv2d_v_channel_mismatch _ _ (Inception_Net.conv1 (net_layers theta nc))
                 v N C H W); [reflexivity|assumption|..];
        unfold net_layers; cbn [Inception_Net.conv1 conv_stride conv_out conv_in]; lia. }
    rewrite E in Hsim. exact Hsim. }
  split; apply E; reflexivity.
Qed.

(** X2. [Inception_Net.forward] never scores an empty batch: on
    (0, 3, H, W) the trunk runs, and either the final pooling finds its
    map too small (H or W below 193) or the reshape before the final
    layer cannot resolve its -1. *)
Theorem Inception_Net_forward_empty_batch (theta : StateDict A) nc net s x v H W :
  Inception_Net.init theta nc = Ok net ->
  pts s x v -> shape v = [0; 3; H; W] -> 0 < H -> 0 < W ->
  (193 <= H -> 193 <= W -> Inception_Net.forward net x s = Raise ShapeAmbiguous) /\
  (H < 193 \/ W < 193 -> Inception_Net.forward net x s = Raise OutputTooSmall).
Proof.
  intros Hinit Hx Hv HH HW.
  apply Inception_Net_init_inv in Hinit as [Hnc ->].
  pose proof (sim_Inception_Net (net_layers theta nc) Hx) as Hsim.
  unfold sim in Hsim.
  set (net := net_layers theta nc) in *.
  set (h5 := down (down (down (down (down H))))).
  set (w5 := down (down (down (down (down W))))).
  destruct (trunk_trace_exists theta nc v Hv HH HW) as (x4a & x4d & feat & Htr).
  fold net h5 w5 in Htr.
  destruct (trunk_trace_values Htr) as (T1 & T2 & T3).
  destruct (trunk_trace_shapes Htr) as (_ & _ & Sf).
  assert (Hval : Inception_Net_value net v (rng s) =
            gbind (glift (avg_pool2d_v (Inception_Net.avgpool5 net) feat)) (fun pooled =>
            gbind (main_head net pooled) (fun scores2 =>
            gbind (Auxiliary_Classifier_value (Inception_Net.aux_classifier1 net) x4a)
              (fun scores0 =>
            gbind (Auxiliary_Classifier_value (Inception_Net.aux_classifier2 net) x4d)
              (fun scores1 =>
            gret (scores0, scores1, scores2))))) (rng s)).
  { unfold Inception_Net_value. unfold gbind at 1, glift at 1. rewrite T1.
    unfold gbind at 1, glift at 1. rewrite T2.
    unfold gbind at 1, glift at 1. rewrite T3. reflexivity. }
  rewrite Hval in Hsim. clear Hval T1 T2 T3.
  pose proof (down5_pool HH) as [PH _]. pose proof (down5_pool HW) as [PW _].
  fold h5 in PH. fold w5 in PW.
  assert (P5 : 0 < h5) by (subst h5; repeat apply down_pos; assumption).
  assert (Q5 : 0 < w5) by (subst w5; repeat apply down_pos; assumption).
  split.
  - intros G1 G2. apply PH in G1. apply PW in G2.
    unfold gbind at 1, glift at 1 in Hsim.
    rewrite (@avg_pool2d_v_ok _ _ (Inception_Net.avgpool5 net) feat 0 1024 h5 w5
               (h5 - 6) (w5 - 6)) in Hsim;
      try exact Sf;
      try (subst net; unfold net_layers;
           cbn [Inception_Net.avgpool5 pool_k pool_stride pool_pad]; lia).
    exact Hsim.
  - intros Hsmall.
    unfold gbind at 1, glift at 1 in Hsim.
    rewrite (@avg_pool2d_v_too_small _ _ (Inception_Net.avgpool5 net) feat 0 1024 h5 w5)
      in Hsim;
      try exact Sf;
      try (subst net; unfold net_layers;
           cbn [Inception_Net.avgpool5 pool_k pool_stride pool_pad]; lia).
    exact Hsim.
Qed.

End Domains.

(** ** What the forward methods do to the store *)

Section StoreEffects.

Context {A : Type} {SA : Scalar A}.
Implicit Types (s : Store A) (v : Tensor A).
Local Open Scope eager_scope.

Lemma bind_inv {X Y : Type} (m : M A X) (k : X -> M A Y) s y s' :
  bind m k s = Ok (y, s') ->
  exists a s1, m s = Ok (a, s1) /\ k a s1 = Ok (y, s').
Proof.
  unfold bind. destruct (m s) as [[a s1]|e]; [|discriminate].
  intros H. exists a, s1. split; [reflexivity|exact H].
Qed.

Lemma extends_length s s' :
  extends s s' -> (List.length (heap s) <= List.length (heap s'))%nat.
Proof. intros [l ->]. rewrite length_app. lia. Qed.

Lemma pts_below s x v : pts s x v -> (loc x < List.length (heap s))%nat.
Proof. intros [H _]. apply nth_error_Some. congruence. Qed.

(** An out-of-place operation allocates one storage and returns it. *)
Lemma apply1_inv (f : Tensor A -> result (Tensor A)) x s y s' :
  apply1 f x s = Ok (y, s') ->
  extends s s' /\ loc y = List.length (heap s) /\
  List.length (heap s') = S (List.length (heap s)) /\ rng s' = rng s.
Proof.
  unfold apply1, bind, load, lift, alloc.
  destruct (nth_error (heap s) (loc x)); [|discriminate].
  destruct (f _) as [r|e]; [|discriminate].
  intros H. inversion H; subst; clear H. cbn [heap rng loc].
  split; [exists [data r]; reflexivity|].
  rewrite length_app. cbn [List.length]. repeat split; lia.
Qed.

Lemma load_all_inv (xs : list TensorRef) s vs s' :
  load_all xs s = Ok (vs, s') -> s' = s.
Proof.
  revert vs. induction xs as [|x xs IH]; intros vs; cbn [load_all].
  - unfold ret. intros H. now inversion H.
  - unfold bind at 1, load.
    destruct (nth_error (heap s) (loc x)); [|discriminate].
    unfold bind at 1. destruct (load_all xs s) as [[vs' s1]|e] eqn:E; [|discriminate].
    unfold ret. intros H. inversion H; subst. now apply (IH vs').
Qed.

Lemma torch_cat1_inv (xs : list TensorRef) s y s' :
  torch_cat1 xs s = Ok (y, s') ->
  extends s s' /\ loc y = List.length (heap s) /\
  List.length (heap s') = S (List.length (heap s)) /\ rng s' = rng s.
Proof.
  unfold torch_cat1. unfold bind at 1.
  destruct (load_all xs s) as [[vs s1]|e] eqn:E; [|discriminate].
  apply load_all_inv in E. subst s1.
  unfold bind, lift, alloc. destruct (cat1_v vs) as [r|e]; [|discriminate].
  intros H. inversion H; subst; clear H. cbn [heap rng loc].
  split; [exists [data r]; reflexivity|].
  rewrite length_app. cbn [List.length]. repeat split; lia.
Qed.

Lemma shape_at_inv x i s n s' : shape_at x i s = Ok (n, s') -> s' = s.
Proof.
  unfold shape_at, lift. destruct (size (vshape x) i); [|discriminate].
  intros H. now inversion H.
Qed.

(** A reshape returns a view: no storage is allocated. *)
Lemma reshape_inv x target s y s' :
  reshape x target s = Ok (y, s') -> s' = s /\ loc y = loc x.
Proof.
  unfold reshape, bind, load, lift, ret.
  destruct (nth_error (heap s) (loc x)); [|discriminate].
  destruct (infer_size _ _); [|discriminate].
  intros H. inversion H; subst. split; reflexivity.
Qed.

Lemma Dropout_call_inv (m : Dropout) x s y s' :
  Dropout_call m x s = Ok (y, s') ->
  extends s s' /\
  (List.length (heap s) <= List.length (heap s') <= S (List.length (heap s)))%nat /\
  (y = x \/ loc y = List.length (heap s)).
Proof.
  unfold Dropout_call, bind, load.
  destruct (nth_error (heap s) (loc x)) as [d|]; [|discriminate].
  cbn [shape].
  destruct (negb (drop_training m) || Qeq_bool (drop_p m) 0 || (numel (vshape x) =? 0)).
  - unfold ret. intros H. inversion H; subst.
    split; [apply extends_refl|]. split; [lia|]. left. reflexivity.
  - unfold get_rng, set_rng, alloc. cbn [heap rng shape dropout_v].
    intros H. inversion H; subst; clear H. cbn [heap loc].
    split; [eexists; reflexivity|].
    rewrite length_app. cbn [List.length]. split; [lia|]. right. reflexivity.
Qed.

Lemma Conv2d_call_inv (m : Conv2d A) x s y s' :
  Conv2d_call m x s = Ok (y, s') ->
  extends s s' /\ loc y = List.length (heap s) /\
  List.length (heap s') = S (List.length (heap s)) /\ rng s' = rng s.
Proof. apply apply1_inv. Qed.

Lemma MaxPool2d_call_inv (m : Pool2d) x s y s' :
  MaxPool2d_call m x s = Ok (y, s') ->
  extends s s' /\ loc y = List.length (heap s) /\
  List.length (heap s') = S (List.length (heap s)) /\ rng s' = rng s.
Proof. apply apply1_inv. Qed.

Lemma AvgPool2d_call_inv (m : Pool2d) x s y s' :
  AvgPool2d_call m x s = Ok (y, s') ->
  extends s s' /\ loc y = List.length (heap s) /\
  List.length (heap s') = S (List.length (heap s)) /\ rng s' = rng s.
Proof. apply apply1_inv. Qed.

Lemma Linear_call_inv (m : Linear A) x s y s' :
  Linear_call m x s = Ok (y, s') ->
  extends s s' /\ loc y = List.length (heap s) /\
  List.length (heap s') = S (List.length (heap s)) /\ rng s' = rng s.
Proof. apply apply1_inv. Qed.

Lemma F_relu_inv x s y s' :
  F_relu x s = Ok (y, s') ->
  extends s s' /\ loc y = List.length (heap s) /\
  List.length (heap s') = S (List.length (heap s)) /\ rng s' = rng s.
Proof. apply apply1_inv. Qed.

Lemma clone_inv x s y s' :
  clone x s = Ok (y, s') ->
  extends s s' /\ loc y = List.length (heap s) /\
  List.length (heap s') = S (List.length (heap s)) /\ rng s' = rng s.
Proof. apply apply1_inv. Qed.

End StoreEffects.

(** Taking a run apart, one statement at a time. *)
Ltac run_inv H :=
  repeat (apply bind_inv in H;
          let a := fresh "a" in let s1 := fresh "s" in let Hs := fresh "Hstep" in
          destruct H as (a & s1 & Hs & H); cbv beta in H).

Ltac step_facts :=
  repeat match goal with
         | H : Conv2d_call _ _ _ = Ok _ |- _ =>
             apply Conv2d_call_inv in H; destruct H as (? & ? & ? & ?)
         | H : MaxPool2d_call _ _ _ = Ok _ |- _ =>
             apply MaxPool2d_call_inv in H; destruct H as (? & ? & ? & ?)
         | H : AvgPool2d_call _ _ _ = Ok _ |- _ =>
             apply AvgPool2d_call_inv in H; destruct H as (? & ? & ? & ?)
         | H : Linear_call _ _ _ = Ok _ |- _ =>
             apply Linear_call_inv in H; destruct H as (? & ? & ? & ?)
         | H : F_relu _ _ = Ok _ |- _ =>
             apply F_relu_inv in H; destruct H as (? & ? & ? & ?)
         | H : clone _ _ = Ok _ |- _ =>
             apply clone_inv in H; destruct H as (? & ? & ? & ?)
         | H : torch_cat1 _ _ = Ok _ |- _ =>
             apply torch_cat1_inv in H; destruct H as (? & ? & ? & ?)
         | H : shape_at _ _ _ = Ok _ |- _ => apply shape_at_inv in H; subst
         | H : reshape _ _ _ = Ok _ |- _ =>
             apply reshape_inv in H; destruct H as (? & ?); subst
         | H : Dropout_call _ _ _ = Ok _ |- _ =>
             apply Dropout_call_inv in H; destruct H as (? & ? & ?)
         | H : ret _ _ = Ok _ |- _ => unfold ret in H; inversion H; subst; clear H
         end.

Ltac extends_chain :=
  repeat first [ eassumption | apply extends_refl
               | eapply extends_trans; [eassumption|] ].

Section StoreTheorems.

Context {A : Type} {SA : Scalar A}.
Implicit Types (s : Store A) (v : Tensor A).
Local Open Scope eager_scope.

(** A block allocates fourteen storages, the last one for its result,
    and leaves the generator alone. *)
Lemma Inception_Block_forward_inv (self : Inception_Block.t A) x s y s' :
  Inception_Block.forward self x s = Ok (y, s') ->
  extends s s' /\ rng s' = rng s /\
  List.length (heap s') = (List.length (heap s) + 14)%nat /\
  S (loc y) = List.length (heap s').
Proof.
  intros H. unfold Inception_Block.forward in H.
  run_inv H. step_facts.
  split; [extends_chain|]. split; [congruence|]. split; lia.
Qed.

Lemma Auxiliary_Classifier_forward_inv (self : Auxiliary_Classifier.t A) x s y s' :
  Auxiliary_Classifier.forward self x s = Ok (y, s') ->
  extends s s' /\
  (List.length (heap s) + 6 <= List.length (heap s') <= List.length (heap s) + 7)%nat /\
  S (loc y) = List.length (heap s').
Proof.
  intros H. unfold Auxiliary_Classifier.forward in H.
  run_inv H. step_facts.
  split; [extends_chain|]. split; lia.
Qed.

(** X6. A call of [Inception_Block.forward] that returns has written to
    no storage that existed before: every reference keeps its value.
    The result is a storage of its own, the last of the fourteen the
    call allocates, and the generator is not moved. *)
Theorem Inception_Block_forward_store (self : Inception_Block.t A) x s y s' :
  Inception_Block.forward self x s = Ok (y, s') ->
  (forall r w, pts s r w -> pts s' r w /\ loc r <> loc y) /\
  List.length (heap s') = (List.length (heap s) + 14)%nat /\
  S (loc y) = List.length (heap s') /\
  rng s' = rng s.
Proof.
  intros H. apply Inception_Block_forward_inv in H as (He & Hg & Hn & Hy).
  split; [|auto].
  intros r w Hr. split; [exact (pts_extends He Hr)|].
  apply pts_below in Hr. lia.
Qed.

(** X7. A call of [Auxiliary_Classifier.forward] that returns has
    written to no storage that existed before, and its scores are a
    storage of its own, the last one allocated: the reshape is a view
    and dropout outside training returns its argument, but the final
    linear layer allocates. *)
Theorem Auxiliary_Classifier_forward_store (self : Auxiliary_Classifier.t A) x s y s' :
  Auxiliary_Classifier.forward self x s = Ok (y, s') ->
  (forall r w, pts s r w -> pts s' r w /\ loc r <> loc y) /\
  S (loc y) = List.length (heap s').
Proof.
  intros H. apply Auxiliary_Classifier_forward_inv in H as (He & Hn & Hy).
  split; [|exact Hy].
  intros r w Hr. split; [exact (pts_extends He Hr)|].
  apply pts_below in Hr. lia.
Qed.

(** X8. A call of [Inception_Net.forward] that returns has written to
    no storage that existed before, and its three score tensors are
    three storages allocated by the call, in the order main score,
    first auxiliary score, second auxiliary score: none aliases
    another, the input or an earlier tensor. *)
Theorem Inception_Net_forward_store (self : Inception_Net.t A) x s y0 y1 y2 s' :
  Inception_Net.forward self x s = Ok ((y0, y1, y2), s') ->
  (forall r w, pts s r w -> pts s' r w /\ (loc r < loc y2)%nat) /\
  (loc y2 < loc y0 < loc y1)%nat /\
  S (loc y1) = List.length (heap s').
Proof.
  intros H. unfold Inception_Net.forward in H.
  run_inv H.
  repeat match goal with
         | Hb : Inception_Block.forward _ _ _ = Ok _ |- _ =>
             apply Inception_Block_forward_inv in Hb; destruct Hb as (? & _ & ? & ?)
         | Ha : Auxiliary_Classifier.forward _ _ _ = Ok _ |- _ =>
             apply Auxiliary_Classifier_forward_inv in Ha; destruct Ha as (? & ? & ?)
         end.
  step_facts.
  assert (He : extends s s') by extends_chain.
  split; [|split; lia].
  intros r w Hr. split; [exact (pts_extends He Hr)|].
  apply pts_below in Hr. lia.
Qed.

End StoreTheorems.

(** ** More about the loss cell *)

Section LossCell.

Local Open Scope R_scope.

Lemma F_cross_entropy_run (s : Store R) x v (y : list Z) N C :
  pts s x v -> shape v = [N; C] -> Z.of_nat (List.length y) = N ->
  Forall (fun c => 0 <= c < C)%Z y ->
  F_cross_entropy x y s = Ok (standard_cross_entropy v y, s).
Proof.
  intros Hx Hv Hl Hy. unfold F_cross_entropy, bind, lift.
  rewrite (pts_load Hx), (cross_entropy_standard v Hv Hl Hy). reflexivity.
Qed.

Lemma total_loss_run (s : Store R) scores0 scores1 scores2 v0 v1 v2 y N C :
  pts s scores0 v0 -> pts s scores1 v1 -> pts s scores2 v2 ->
  shape v0 = [N; C] -> shape v1 = [N; C] -> shape v2 = [N; C] ->
  Z.of_nat (List.length y) = N ->
  Forall (fun c => 0 <= c < C)%Z y ->
  total_loss scores0 scores1 scores2 y s =
    Ok (standard_cross_entropy v2 y + 0.3 * standard_cross_entropy v0 y
        + 0.3 * standard_cross_entropy v1 y, s).
Proof.
  intros P0 P1 P2 S0 S1 S2 Hl Hy.
  unfold total_loss, bind at 1. rewrite (F_cross_entropy_run P0 S0 Hl Hy).
  unfold bind at 1. rewrite (F_cross_entropy_run P1 S1 Hl Hy).
  unfold bind at 1. rewrite (F_cross_entropy_run P2 S2 Hl Hy). reflexivity.
Qed.

Lemma In_zrange (k c : Z) : (0 <= c < k)%Z -> In c (zrange k).
Proof.
  intros Hc. unfold zrange. rewrite <- (Z2Nat.id c) by lia.
  apply in_map. apply in_seq. lia.
Qed.

Lemma zrange_length (k : Z) : List.length (zrange k) = Z.to_nat k.
Proof. unfold zrange. now rewrite length_map, length_seq. Qed.

Lemma ssum_exp_ge (l : list R) a : In a l -> exp a <= ssum (map exp l).
Proof.
  induction l as [|b l IH]; [intros []|].
  assert (H0 : forall l' : list R, 0 <= ssum (map exp l')).
  { induction l' as [|d l' IH']; simpl; [lra|]. pose proof (exp_pos d). lra. }
  intros [->|Hin]; simpl.
  - specialize (H0 l). lra.
  - specialize (IH Hin). pose proof (exp_pos b). lra.
Qed.

(** A softmax probability lies in (0, 1]. *)
Lemma softmax_range (scores : Tensor R) k i c :
  (0 <= c < k)%Z -> 0 < softmax scores k i c <= 1.
Proof.
  intros Hc. unfold softmax.
  assert (Hk : (0 < k)%Z) by lia.
  pose proof (ssum_exp_pos (row_nonempty scores i Hk)) as Hpos.
  assert (Hle : exp (get scores [i; c]) <= ssum (map exp (row scores k i))).
  { apply ssum_exp_ge. unfold row.
    apply (in_map (fun c => get scores [i; c])). apply In_zrange. exact Hc. }
  pose proof (exp_pos (get scores [i; c])) as He.
  split.
  - apply Rdiv_lt_0_compat; assumption.
  - apply Rmult_le_reg_r with (r := ssum (map exp (row scores k i))); [exact Hpos|].
    unfold Rdiv. rewrite Rmult_assoc, Rinv_l by lra. lra.
Qed.

Lemma standard_nll_nonneg (scores : Tensor R) k y : forall i,
  Forall (fun c => 0 <= c < k)%Z y -> 0 <= standard_nll scores k i y.
Proof.
  induction y as [|c y IH]; intros i Hy; cbn [standard_nll]; [lra|].
  inversion Hy as [|c' y' Hc Hy']; subst.
  specialize (IH (i + 1)%Z Hy').
  destruct (softmax_range scores i Hc) as [Hp H1].
  assert (Hln : ln (softmax scores k i c) <= 0).
  { rewrite <- ln_1. destruct H1 as [H1|H1].
    - left. apply ln_increasing; assumption.
    - rewrite H1. right. reflexivity. }
  lra.
Qed.

Lemma standard_cross_entropy_nonneg (scores : Tensor R) y N C :
  shape scores = [N; C] -> y <> [] ->
  Forall (fun c => 0 <= c < C)%Z y ->
  0 <= standard_cross_entropy scores y.
Proof.
  intros Hs Hne Hy. unfold standard_cross_entropy. rewrite Hs. cbn [nth].
  pose proof (standard_nll_nonneg scores 0 Hy) as Hn.
  assert (Hl : 0 < INR (List.length y)).
  { apply lt_0_INR. destruct y; [congruence|cbn [List.length]; lia]. }
  apply Rmult_le_pos; [exact Hn|]. left. apply Rinv_0_lt_compat. exact Hl.
Qed.

(** X9. With at least one label and all labels in [0, C), no loss of
    the cell is negative: the total loss is at least the main loss,
    which is at least zero. *)
Theorem total_loss_nonnegative (s : Store R) scores0 scores1 scores2 v0 v1 v2 y N C :
  pts s scores0 v0 -> pts s scores1 v1 -> pts s scores2 v2 ->
  shape v0 = [N; C] -> shape v1 = [N; C] -> shape v2 = [N; C] ->
  Z.of_nat (List.length y) = N -> y <> [] ->
  Forall (fun c => 0 <= c < C)%Z y ->
  exists mainLoss total,
    F_cross_entropy scores2 y s = Ok (mainLoss, s) /\
    total_loss scores0 scores1 scores2 y s = Ok (total, s) /\
    0 <= mainLoss <= total.
Proof.
  intros P0 P1 P2 S0 S1 S2 Hl Hne Hy.
  exists (standard_cross_entropy v2 y).
  eexists. split; [exact (F_cross_entropy_run P2 S2 Hl Hy)|].
  split; [exact (total_loss_run P0 P1 P2 S0 S1 S2 Hl Hy)|].
  pose proof (standard_cross_entropy_nonneg v0 S0 Hne Hy).
  pose proof (standard_cross_entropy_nonneg v1 S1 Hne Hy).
  pose proof (standard_cross_entropy_nonneg v2 S2 Hne Hy).
  lra.
Qed.

Lemma ssum_const (l : list Z) (f : Z -> R) (a : R) :
  (forall c, In c l -> f c = a) ->
  ssum (map f l) = INR (List.length l) * a.
Proof.
  induction l as [|c l IH]; intros Hf.
  - simpl. lra.
  - cbn [map ssum fold_right]. fold (ssum (map f l)).
    rewrite IH by (intros d Hd; apply Hf; now right).
    rewrite (Hf c) by now left.
    change (List.length (c :: l)) with (S (List.length l)). rewrite S_INR.
    cbn [sadd Scalar_R]. lra.
Qed.

Lemma in_zrange_inv (k c : Z) : In c (zrange k) -> (0 <= c < k)%Z.
Proof.
  unfold zrange. intros H. apply in_map_iff in H as (n & <- & Hn).
  apply in_seq in Hn. lia.
Qed.

(** The softmax of a row whose scores are all equal is uniform. *)
Lemma softmax_flat_row (scores : Tensor R) k i c :
  (0 < k)%Z ->
  (forall c', (0 <= c' < k)%Z -> get scores [i; c'] = get scores [i; 0%Z]) ->
  (0 <= c < k)%Z ->
  softmax scores k i c = / IZR k.
Proof.
  intros Hk Hflat Hc. unfold softmax, row. rewrite map_map.
  rewrite (@ssum_const (zrange k) _ (exp (get scores [i; 0%Z])))
    by (intros d Hd; rewrite (Hflat d (in_zrange_inv _ _ Hd)); reflexivity).
  rewrite zrange_length, (Hflat c Hc), INR_IZR_INZ, Z2Nat.id by lia.
  pose proof (exp_pos (get scores [i; 0%Z])) as He.
  assert (Hk' : 0 < IZR k) by (apply IZR_lt; exact Hk).
  field. split; lra.
Qed.

Lemma standard_nll_flat (scores : Tensor R) k y : forall i,
  (0 < k)%Z ->
  (forall j c', (0 <= c' < k)%Z -> get scores [j; c'] = get scores [j; 0%Z]) ->
  Forall (fun c => 0 <= c < k)%Z y ->
  standard_nll scores k i y = INR (List.length y) * ln (IZR k).
Proof.
  induction y as [|c y IH]; intros i Hk Hflat Hy.
  - simpl. lra.
  - inversion Hy as [|c' y' Hc Hy']; subst.
    cbn [standard_nll]. rewrite (IH (i + 1)%Z Hk Hflat Hy').
    rewrite (softmax_flat_row scores i Hk (Hflat i) Hc).
    rewrite ln_Rinv by (apply IZR_lt; exact Hk).
    change (List.length (c :: y)) with (S (List.length y)). rewrite S_INR. lra.
Qed.

Lemma standard_cross_entropy_flat (scores : Tensor R) y N C :
  shape scores = [N; C] -> y <> [] ->
  (forall j c', (0 <= c' < C)%Z -> get scores [j; c'] = get scores [j; 0%Z]) ->
  Forall (fun c => 0 <= c < C)%Z y ->
  standard_cross_entropy scores y = ln (IZR C).
Proof.
  intros Hs Hne Hflat Hy. unfold standard_cross_entropy. rewrite Hs. cbn [nth].
  assert (HC : (0 < C)%Z).
  { destruct y as [|c y]; [congruence|]. inversion Hy; subst. lia. }
  rewrite (standard_nll_flat scores 0 HC Hflat Hy).
  assert (Hl : 0 < INR (List.length y)).
  { apply lt_0_INR. destruct y; [congruence|cbn [List.length]; lia]. }
  field. lra.
Qed.

(** X10. When every score tensor gives all classes of a sample the
    same score (an untrained model with zero weights, say), each of the
    three cross-entropies is ln C and the total loss is 1.6 ln C,
    whatever the labels. *)
Theorem total_loss_flat_scores (s : Store R) scores0 scores1 scores2 v0 v1 v2 y N C :
  pts s scores0 v0 -> pts s scores1 v1 -> pts s scores2 v2 ->
  shape v0 = [N; C] -> shape v1 = [N; C] -> shape v2 = [N; C] ->
  Z.of_nat (List.length y) = N -> y <> [] ->
  Forall (fun c => 0 <= c < C)%Z y ->
  (forall v, In v [v0; v1; v2] ->
     forall j c, (0 <= c < C)%Z -> get v [j; c] = get v [j; 0%Z]) ->
  F_cross_entropy scores0 y s = Ok (ln (IZR C), s) /\
  F_cross_entropy scores1 y s = Ok (ln (IZR C), s) /\
  F_cross_entropy scores2 y s = Ok (ln (IZR C), s) /\
  total_loss scores0 scores1 scores2 y s = Ok (1.6 * ln (IZR C), s).
Proof.
  intros P0 P1 P2 S0 S1 S2 Hl Hne Hy Hflat.
  assert (E0 : standard_cross_entropy v0 y = ln (IZR C))
    by (apply (standard_cross_entropy_flat v0 S0 Hne); [apply Hflat; simpl; auto|exact Hy]).
  assert (E1 : standard_cross_entropy v1 y = ln (IZR C))
    by (apply (standard_cross_entropy_flat v1 S1 Hne); [apply Hflat; simpl; auto|exact Hy]).
  assert (E2 : standard_cross_entropy v2 y = ln (IZR C))
    by (apply (standard_cross_entropy_flat v2 S2 Hne); [apply Hflat; simpl; auto|exact Hy]).
  rewrite (F_cross_entropy_run P0 S0 Hl Hy), (F_cross_entropy_run P1 S1 Hl Hy),
    (F_cross_entropy_run P2 S2 Hl Hy), (total_loss_run P0 P1 P2 S0 S1 S2 Hl Hy).
  rewrite E0, E1, E2.
  repeat split. f_equal. f_equal. lra.
Qed.

Lemma bad_label_found (k : Z) (y : list Z) :
  Exists (fun c => c <> (-100)%Z /\ (c < 0 \/ k <= c)%Z) y ->
  existsb (fun c => negb (c =? -100)%Z && ((c <? 0)%Z || (k <=? c)%Z)) y = true.
Proof.
  intros H. apply existsb_exists. apply Exists_exists in H as (c & Hin & Hne & Hout).
  exists c. split; [exact Hin|].
  rewrite (proj2 (Z.eqb_neq c (-100)) Hne). cbn [negb andb].
  destruct Hout as [Hout|Hout].
  - now rewrite (proj2 (Z.ltb_lt c 0) Hout).
  - rewrite (proj2 (Z.leb_le k c) Hout). apply Bool.orb_true_r.
Qed.

(** X11. The errors of the loss cell on scores of shape (N, C): a
    label list whose length is not N is refused as a batch mismatch,
    and a label outside [0, C) other than the ignored -100 as out of
    bounds; no loss is returned, and the first cross-entropy already
    fails. *)
Theorem total_loss_errors (s : Store R) scores0 scores1 scores2 v0 v1 v2 y N C :
  pts s scores0 v0 -> pts s scores1 v1 -> pts s scores2 v2 ->
  shape v0 = [N; C] -> shape v1 = [N; C] -> shape v2 = [N; C] ->
  (Z.of_nat (List.length y) <> N ->
     F_cross_entropy scores0 y s = Raise BatchMismatch /\
     total_loss scores0 scores1 scores2 y s = Raise BatchMismatch) /\
  (Z.of_nat (List.length y) = N ->
   Exists (fun c => c <> (-100)%Z /\ (c < 0 \/ C <= c)%Z) y ->
     F_cross_entropy scores0 y s = Raise TargetOutOfBounds /\
     total_loss scores0 scores1 scores2 y s = Raise TargetOutOfBounds).
Proof.
  intros P0 P1 P2 S0 S1 S2.
  split.
  - intros Hl.
    assert (E : F_cross_entropy scores0 y s = Raise BatchMismatch).
    { unfold F_cross_entropy, bind, lift. rewrite (pts_load P0).
      unfold cross_entropy. rewrite S0.
      rewrite (proj2 (Z.eqb_neq _ _) Hl). reflexivity. }
    split; [exact E|]. unfold total_loss, bind at 1. rewrite E. reflexivity.
  - intros Hl Hbad.
    assert (E : F_cross_entropy scores0 y s = Raise TargetOutOfBounds).
    { unfold F_cross_entropy, bind, lift. rewrite (pts_load P0).
      unfold cross_entropy. rewrite S0.
      rewrite (proj2 (Z.eqb_eq _ _) Hl). cbn [negb].
      rewrite (bad_label_found Hbad). reflexivity. }
    split; [exact E|]. unfold total_loss, bind at 1. rewrite E. reflexivity.
Qed.

(** X12. The whole loss cell on a batch of N images of 224 x 224 and N
    labels in [0, num_classes): the model is run, and the loss returned
    is the main cross-entropy plus 0.3 times each auxiliary one, of the
    three scores the model computes; the stores of the input and of the
    scores are left as they are. *)
Theorem loss_cell_value (theta : StateDict R) nc model s x v (y : list Z) N :
  Inception_Net.init theta nc = Ok model ->
  (0 < N)%Z ->
  pts s x v -> shape v = [N; 3; 224; 224]%Z ->
  Z.of_nat (List.length y) = N ->
  Forall (fun c => 0 <= c < nc)%Z y ->
  exists auxScore0 auxScore1 mainScore g' s',
    Inception_Net_value model v (rng s) = Ok ((auxScore0, auxScore1, mainScore), g') /\
    loss_cell model x y s =
      Ok (standard_cross_entropy mainScore y
          + 0.3 * standard_cross_entropy auxScore0 y
          + 0.3 * standard_cross_entropy auxScore1 y, s') /\
    extends s s' /\ rng s' = g'.
Proof.
  intros Hinit HN Hx Hv Hl Hy.
  apply Inception_Net_init_inv in Hinit as [Hnc ->].
  destruct (@Inception_Net_value_cases _ _ theta nc v N 224 224 (rng s))
    as (_ & _ & _ & Hok); try assumption; try lia.
  destruct (Hok eq_refl eq_refl) as (a0 & a1 & m & g' & Hval & S0 & S1 & S2).
  pose proof (sim_Inception_Net (net_layers theta nc) Hx) as Hsim.
  unfold sim in Hsim. rewrite Hval in Hsim.
  destruct Hsim as ([[y0 y1] y2] & s' & Hrun & (P0 & P1 & P2) & He & Hg).
  cbn [fst snd] in P0, P1, P2.
  exists a0, a1, m, g', s'.
  split; [exact Hval|]. split; [|split; assumption].
  unfold loss_cell, bind. rewrite Hrun.
  exact (total_loss_run P0 P1 P2 S0 S1 S2 Hl Hy).
Qed.

End LossCell.

(** ** The constructors *)

Section Constructors.

Context {A : Type} {SA : Scalar A}.

Lemma torch_empty_raises (size : list Z) e :
  torch_empty size = Raise e -> allocation_error e.
Proof.
  unfold torch_empty, allocation_error.
  repeat match goal with
         | |- context [if ?b then _ else _] => destruct b
         end; intros H; inversion H; auto.
Qed.

Lemma Conv2d_new_raises (theta : StateDict A) name i o k st p e :
  Conv2d_new theta name i o k st p = Raise e -> allocation_error e.
Proof.
  unfold Conv2d_new.
  destruct (torch_empty [o; i; k; k]) eqn:E1;
    [|intros H; inversion H; subst; exact (torch_empty_raises _ E1)].
  destruct (torch_empty [o]) eqn:E2;
    [discriminate|intros H; inversion H; subst; exact (torch_empty_raises _ E2)].
Qed.

Lemma Linear_new_raises (theta : StateDict A) name i o e :
  Linear_new theta name i o = Raise e -> allocation_error e.
Proof.
  unfold Linear_new.
  destruct (torch_empty [o; i]) eqn:E1;
    [|intros H; inversion H; subst; exact (torch_empty_raises _ E1)].
  destruct (torch_empty [o]) eqn:E2;
    [discriminate|intros H; inversion H; subst; exact (torch_empty_raises _ E2)].
Qed.

Lemma Auxiliary_Classifier_init_raises (theta : StateDict A) name in_ch nc e :
  Auxiliary_Classifier.init theta name in_ch nc = Raise e -> allocation_error e.
Proof.
  unfold Auxiliary_Classifier.init.
  destruct (Conv2d_new theta (name ++ ".conv2") in_ch 128 1 1 0) eqn:E1;
    [|intros H; inversion H; subst; exact (Conv2d_new_raises _ _ _ _ _ _ _ E1)].
  cbn [rbind].
  destruct (Linear_new theta (name ++ ".fc3") (4 * 4 * 128) 1024) eqn:E2;
    [|intros H; inversion H; subst; exact (Linear_new_raises _ _ _ _ E2)].
  cbn [rbind]. change (Dropout_new (7 # 10)) with (Ok (mkDropout (7 # 10) true)).
  cbn [rbind].
  destruct (Linear_new theta (name ++ ".fc5") 1024 nc) eqn:E3;
    [discriminate|intros H; inversion H; subst; exact (Linear_new_raises _ _ _ _ E3)].
Qed.

Lemma Conv2d_new_not_int64 (theta : StateDict A) name i o k st p :
  i < - 2 ^ 63 \/ 2 ^ 63 <= i ->
  Conv2d_new theta name i o k st p = Raise SizeNotInt64.
Proof.
  intros Hi. unfold Conv2d_new.
  rewrite torch_empty_not_int64; [reflexivity|]. right. left. exact Hi.
Qed.

Lemma Conv2d_new_negative_in (theta : StateDict A) name i o k st p :
  - 2 ^ 63 <= i < 0 -> 0 <= o < 2 ^ 63 -> 0 <= k < 2 ^ 63 ->
  Conv2d_new theta name i o k st p = Raise NegativeDimension.
Proof.
  intros Hi Ho Hk. unfold Conv2d_new.
  rewrite torch_empty_negative; [reflexivity| |].
  - repeat constructor; lia.
  - right. left. lia.
Qed.

(** X13. The errors of [Auxiliary_Classifier(in_ch, num_classes)].
    The convolution is built first: an [in_ch] that is no 64-bit
    integer is refused as such, a negative one as a negative
    dimension.  With [in_ch] from 0 to 1024 the last linear layer
    refuses [num_classes] in the same two ways, and with both counts
    from 0 to 1024 (zero included) the classifier is built.  Whatever
    the counts, a failure is an error of [torch.empty], and a
    classifier that is built has counts that are natural numbers below
    2^63 and its dropout in training mode with p = 0.7. *)
Theorem Auxiliary_Classifier_init_errors (theta : StateDict A) name in_ch nc :
  (in_ch < - 2 ^ 63 \/ 2 ^ 63 <= in_ch ->
   Auxiliary_Classifier.init theta name in_ch nc = Raise SizeNotInt64) /\
  (- 2 ^ 63 <= in_ch < 0 ->
   Auxiliary_Classifier.init theta name in_ch nc = Raise NegativeDimension) /\
  (0 <= in_ch <= 1024 ->
   (nc < - 2 ^ 63 \/ 2 ^ 63 <= nc ->
    Auxiliary_Classifier.init theta name in_ch nc = Raise SizeNotInt64) /\
   (- 2 ^ 63 <= nc < 0 ->
    Auxiliary_Classifier.init theta name in_ch nc = Raise NegativeDimension) /\
   (0 <= nc <= 1024 ->
    exists self, Auxiliary_Classifier.init theta name in_ch nc = Ok self)) /\
  (forall e, Auxiliary_Classifier.init theta name in_ch nc = Raise e ->
   allocation_error e) /\
  (forall self, Auxiliary_Classifier.init theta name in_ch nc = Ok self ->
   0 <= in_ch < 2 ^ 63 /\ 0 <= nc < 2 ^ 63 /\
   Auxiliary_Classifier.dropout4 self = mkDropout (7 # 10) true).
Proof.
  split; [|split; [|split; [|split]]].
  - intros Hi. unfold Auxiliary_Classifier.init.
    rewrite Conv2d_new_not_int64 by exact Hi. reflexivity.
  - intros Hi. unfold Auxiliary_Classifier.init.
    rewrite Conv2d_new_negative_in by lia. reflexivity.
  - intros Hi.
    assert (E : Auxiliary_Classifier.init theta name in_ch nc =
                rbind (Linear_new theta (name ++ ".fc5") 1024 nc) (fun fc5 =>
                Ok (Auxiliary_Classifier.mk
                      (Auxiliary_Classifier.avgpool1 (aux_layers theta name in_ch nc))
                      (Auxiliary_Classifier.conv2 (aux_layers theta name in_ch nc))
                      (Auxiliary_Classifier.fc3 (aux_layers theta name in_ch nc))
                      (Auxiliary_Classifier.dropout4 (aux_layers theta name in_ch nc))
                      fc5))).
    { unfold Auxiliary_Classifier.init.
      rewrite Conv2d_new_ok by lia. cbn [rbind].
      rewrite Linear_new_ok by lia. cbn [rbind].
      change (Dropout_new (7 # 10)) with (Ok (mkDropout (7 # 10) true)). cbn [rbind].
      unfold aux_layers. cbn [Auxiliary_Classifier.avgpool1 Auxiliary_Classifier.conv2
                               Auxiliary_Classifier.fc3 Auxiliary_Classifier.dropout4].
      rewrite !string_app_assoc. reflexivity. }
    rewrite E. split; [|split].
    + intros Hn. rewrite Linear_new_not_int64 by exact Hn. reflexivity.
    + intros Hn. rewrite Linear_new_negative by lia. reflexivity.
    + intros Hn. rewrite Linear_new_ok by lia. eexists. reflexivity.
  - apply Auxiliary_Classifier_init_raises.
  - intros self Hinit.
    assert (Hb : in_ch < 2 ^ 63 /\ nc < 2 ^ 63).
    { unfold Auxiliary_Classifier.init in Hinit.
      destruct (Conv2d_new theta (name ++ ".conv2") in_ch 128 1 1 0) eqn:E1;
        [|discriminate]. apply Conv2d_new_int64 in E1. cbn [rbind] in Hinit.
      destruct (Linear_new theta (name ++ ".fc3") (4 * 4 * 128) 1024) eqn:E2;
        [|discriminate]. cbn [rbind] in Hinit.
      change (Dropout_new (7 # 10)) with (Ok (mkDropout (7 # 10) true)) in Hinit.
      cbn [rbind] in Hinit.
      destruct (Linear_new theta (name ++ ".fc5") 1024 nc) eqn:E3; [|discriminate].
      apply Linear_new_int64 in E3. lia. }
    apply Auxiliary_Classifier_init_inv in Hinit as (Hi & Hn & ->).
    repeat split; first [lia | reflexivity].
Qed.

(** X14. The errors of [Inception_Net(num_classes)].  Every key the
    constructor looks up is in its table and every count of the table
    is accepted, so that the trunk is always built and only
    [num_classes] can make the constructor fail, at the allocation of
    the weight of [linear5]: a [num_classes] that is no 64-bit integer
    is refused as such, a negative one as a negative dimension; from 0
    to 1024 (zero included) the model is built.  Whatever
    [num_classes], a failure is an error of [torch.empty], never a
    missing key.  A model that is built is in training mode: its three
    dropout layers are active, with probabilities 0.4, 0.7 and 0.7. *)
Theorem Inception_Net_init_errors (theta : StateDict A) nc :
  (nc < - 2 ^ 63 \/ 2 ^ 63 <= nc ->
   Inception_Net.init theta nc = Raise SizeNotInt64) /\
  (- 2 ^ 63 <= nc < 0 -> Inception_Net.init theta nc = Raise NegativeDimension) /\
  (0 <= nc <= 1024 -> exists net, Inception_Net.init theta nc = Ok net) /\
  (forall e, Inception_Net.init theta nc = Raise e -> allocation_error e) /\
  (forall net, Inception_Net.init theta nc = Ok net ->
   0 <= nc < 2 ^ 63 /\
   Inception_Net.dropout5 net = mkDropout (4 # 10) true /\
   Auxiliary_Classifier.dropout4 (Inception_Net.aux_classifier1 net) =
     mkDropout (7 # 10) true /\
   Auxiliary_Classifier.dropout4 (Inception_Net.aux_classifier2 net) =
     mkDropout (7 # 10) true /\
   ~ inference_mode net).
Proof.
  split; [|split; [|split; [|split]]].
  - apply Inception_Net_init_not_int64.
  - apply Inception_Net_init_negative.
  - intros Hn. eexists. apply Inception_Net_init_ok. lia.
  - intros e. rewrite Inception_Net_init_blocks.
    destruct (Linear_new theta "linear5" 1024 nc) eqn:E1;
      [|intros H; inversion H; subst; exact (Linear_new_raises _ _ _ _ E1)].
    cbn [rbind].
    destruct (Auxiliary_Classifier.init theta "aux_classifier1" 512 nc) eqn:E2;
      [|intros H; inversion H; subst; exact (Auxiliary_Classifier_init_raises _ _ _ _ E2)].
    cbn [rbind].
    destruct (Auxiliary_Classifier.init theta "aux_classifier2" 528 nc) eqn:E3;
      [discriminate
      |intros H; inversion H; subst; exact (Auxiliary_Classifier_init_raises _ _ _ _ E3)].
  - intros net Hinit. pose proof (Inception_Net_init_int64 _ _ Hinit) as Hb.
    apply Inception_Net_init_inv in Hinit as (Hn & ->).
    split; [lia|]. repeat split. intros (Hd & _). discriminate Hd.
Qed.

End Constructors.

(** ** Rectified outputs *)

Section Rectified.

Lemma Qmax_0_nonneg (a : Q) : (0 <= Qmax 0 a)%Q.
Proof.
  unfold Qmax. destruct (Qle_bool 0 a) eqn:E.
  - apply Qle_bool_iff. exact E.
  - apply Qle_refl.
Qed.

Lemma cat1_pick_nonneg (ts : list (Tensor Q)) :
  Forall (fun t => forall o, (0 <= data t o)%Q) ts ->
  forall n c h w, (0 <= cat1_pick ts n c h w)%Q.
Proof.
  induction 1 as [|t ts Ht _ IH]; intros n c h w; cbn [cat1_pick].
  - apply Qle_refl.
  - destruct (c <? nth 1 (shape t) 0); [apply Ht|apply IH].
Qed.

Lemma cat1_data_nonneg (ts : list (Tensor Q)) sh o :
  Forall (fun t => forall o, (0 <= data t o)%Q) ts ->
  (0 <= cat1_data ts sh o)%Q.
Proof.
  intros Hts. unfold cat1_data.
  destruct (unravel sh o) as [|n [|c [|h [|w [|? ?]]]]];
    try apply Qle_refl. apply cat1_pick_nonneg. exact Hts.
Qed.

(** X15. No element of the output of an Inception block is negative:
    each of the four branches ends in a rectification, and the
    concatenation only copies. *)
Theorem Inception_Block_output_nonnegative (theta : StateDict Q) name p self
    s x v N H W :
  Inception_Block.init theta name p = Ok self ->
  positive_params p -> 0 < H -> 0 < W ->
  pts s x v -> shape v = [N; in_channels p; H; W] ->
  exists y s' out,
    Inception_Block.forward self x s = Ok (y, s') /\
    pts s' y out /\
    forall idx, (0 <= get out idx)%Q.
Proof.
  intros Hinit Hp HH HW Hx Hv.
  apply Inception_Block_init_inv in Hinit as [_ ->].
  destruct p as [[[[[[in_ch out1] red2] out2] red3] out3] out4].
  cbn [in_channels] in Hv.
  destruct (@Inception_Block_value_ok _ _ theta name in_ch out1 red2 out2 red3 out3 out4
              v N H W Hp Hv HH HW)
    as (b1 & b2 & b3 & b4 & Hbr & _ & _ & _ & _ & Hval).
  pose proof (sim_Inception_Block
                (block_layers theta name (in_ch, out1, red2, out2, red3, out3, out4)) Hx)
    as Hsim.
  unfold sim, glift in Hsim. rewrite Hval in Hsim.
  destruct Hsim as (y & s' & Hrun & Hy & _).
  eexists y, s', _. split; [exact Hrun|]. split; [exact Hy|].
  intros idx. unfold get. cbn [data shape].
  apply cat1_data_nonneg.
  destruct Hbr as [(c1 & _ & ->) (a2 & c2 & _ & _ & ->) (a3 & c3 & _ & _ & ->)
                   (a4 & c4 & _ & _ & ->)].
  repeat constructor; intros o; cbn [relu_v data]; apply Qmax_0_nonneg.
Qed.

End Rectified.

(** ** Shapes do not depend on the data *)

Section ShapeOnly.

Context {A : Type} {SA : Scalar A}.
Implicit Types (s : Store A) (v : Tensor A).

Lemma robs_rbind {X Y O O' : Type} (f : X -> O) (h : Y -> O')
    (r1 r2 : result X) (k1 k2 : X -> result Y) :
  robs f r1 = robs f r2 ->
  (forall a b, f a = f b -> robs h (k1 a) = robs h (k2 b)) ->
  robs h (rbind r1 k1) = robs h (rbind r2 k2).
Proof.
  intros Hr Hk. destruct r1 as [a|e1], r2 as [b|e2]; cbn [robs rbind] in *;
    try discriminate; [|congruence].
  apply Hk. congruence.
Qed.

Lemma gobs_gbind {X Y O O' : Type} (f : X -> O) (h : Y -> O')
    (p1 p2 : G X) (k1 k2 : X -> G Y) :
  (forall g1 g2, gobs f p1 g1 = gobs f p2 g2) ->
  (forall a b, f a = f b -> forall g1 g2, gobs h (k1 a) g1 = gobs h (k2 b) g2) ->
  forall g1 g2, gobs h (gbind p1 k1) g1 = gobs h (gbind p2 k2) g2.
Proof.
  intros Hp Hk g1 g2. specialize (Hp g1 g2). unfold gobs, gbind in *.
  destruct (p1 g1) as [[a g1']|e1], (p2 g2) as [[b g2']|e2];
    try discriminate; [|congruence].
  apply Hk. congruence.
Qed.

Lemma gobs_glift {X O : Type} (f : X -> O) (r : result X) g :
  gobs f (glift r) g = robs f r.
Proof. unfold gobs, glift. destruct r; reflexivity. Qed.

Lemma gobs_glift_rel {X O : Type} (f : X -> O) (r1 r2 : result X) :
  robs f r1 = robs f r2 ->
  forall g1 g2, gobs f (glift r1) g1 = gobs f (glift r2) g2.
Proof. intros H g1 g2. now rewrite !gobs_glift. Qed.

Lemma conv2d_v_shape_only (m1 m2 : Conv2d A) v1 v2 :
  conv_hyper m1 = conv_hyper m2 -> shape v1 = shape v2 ->
  robs shape (conv2d_v m1 v1) = robs shape (conv2d_v m2 v2).
Proof.
  intros Hm Hv. unfold conv_hyper in Hm. injection Hm as H1 H2 H3 H4 H5.
  unfold conv2d_v. rewrite Hv.
  assert (E : conv2d_shape m1 (shape v2) = conv2d_shape m2 (shape v2))
    by (unfold conv2d_shape; now rewrite H1, H2, H3, H4, H5).
  rewrite E. destruct (conv2d_shape m2 (shape v2)); reflexivity.
Qed.

Lemma max_pool2d_v_shape_only (m : Pool2d) v1 v2 :
  shape v1 = shape v2 ->
  robs shape (max_pool2d_v m v1) = robs shape (max_pool2d_v m v2).
Proof.
  intros Hv. unfold max_pool2d_v. rewrite Hv.
  destruct (pool2d_shape m (shape v2)); reflexivity.
Qed.

Lemma avg_pool2d_v_shape_only (m : Pool2d) v1 v2 :
  shape v1 = shape v2 ->
  robs shape (avg_pool2d_v m v1) = robs shape (avg_pool2d_v m v2).
Proof.
  intros Hv. unfold avg_pool2d_v. rewrite Hv.
  destruct (pool2d_shape m (shape v2)); reflexivity.
Qed.

Lemma linear_shape_only (m1 m2 : Linear A) sh :
  lin_hyper m1 = lin_hyper m2 -> linear_shape m1 sh = linear_shape m2 sh.
Proof.
  intros Hm. unfold lin_hyper in Hm. injection Hm as H1 H2.
  induction sh as [|d sh IH]; [reflexivity|].
  cbn [linear_shape]. destruct sh as [|d' sh']; [now rewrite H1, H2|].
  now rewrite IH.
Qed.

Lemma linear_v_shape_only (m1 m2 : Linear A) v1 v2 :
  lin_hyper m1 = lin_hyper m2 -> shape v1 = shape v2 ->
  robs shape (linear_v m1 v1) = robs shape (linear_v m2 v2).
Proof.
  intros Hm Hv. unfold linear_v. rewrite Hv, (linear_shape_only (shape v2) Hm).
  destruct (linear_shape m2 (shape v2)); reflexivity.
Qed.

Lemma relu_v_shape_only v1 v2 :
  shape v1 = shape v2 ->
  robs shape (Ok (relu_v v1)) = robs shape (Ok (relu_v v2)).
Proof. intros Hv. cbn [robs relu_v shape]. now rewrite Hv. Qed.

Lemma reshape_v_shape_only v1 v2 target :
  shape v1 = shape v2 ->
  robs shape (reshape_v v1 target) = robs shape (reshape_v v2 target).
Proof.
  intros Hv. unfold reshape_v. rewrite Hv.
  destruct (infer_size target (numel (shape v2))); reflexivity.
Qed.

Lemma dropout_g_shape_only (m1 m2 : Dropout) v1 v2 :
  shape v1 = shape v2 ->
  forall g1 g2, gobs shape (dropout_g m1 v1) g1 = gobs shape (dropout_g m2 v2) g2.
Proof.
  intros Hv g1 g2.
  destruct (dropout_g_shape m1 v1 g1) as (r1 & g1' & E1 & S1).
  destruct (dropout_g_shape m2 v2 g2) as (r2 & g2' & E2 & S2).
  unfold gobs. rewrite E1, E2. congruence.
Qed.

Lemma cat1_v_shape_only (ts1 ts2 : list (Tensor A)) :
  map shape ts1 = map shape ts2 ->
  robs shape (cat1_v ts1) = robs shape (cat1_v ts2).
Proof.
  intros Hts. unfold cat1_v. rewrite Hts.
  destruct (cat1_shape (map shape ts2)); reflexivity.
Qed.

Ltac split_pairs H :=
  repeat match type of H with
         | (_, _) = (_, _) =>
             apply pair_equal_spec in H; let H' := fresh "Hh" in destruct H as [H H']
         end.

Ltac shape_step :=
  first [ apply conv2d_v_shape_only; assumption
        | apply max_pool2d_v_shape_only; assumption
        | apply avg_pool2d_v_shape_only; assumption
        | apply linear_v_shape_only; assumption
        | apply relu_v_shape_only; assumption
        | apply reshape_v_shape_only; assumption ].

Lemma Inception_Block_value_shape_only (b1 b2 : Inception_Block.t A) v1 v2 :
  block_hyper b1 = block_hyper b2 -> shape v1 = shape v2 ->
  robs shape (Inception_Block_value b1 v1) = robs shape (Inception_Block_value b2 v2).
Proof.
  intros Hb Hv. unfold block_hyper in Hb. split_pairs Hb.
  unfold Inception_Block_value.
  match goal with E : Inception_Block.maxpool4 b1 = _ |- _ => rewrite E end.
  repeat (apply robs_rbind with (f := shape); [shape_step|intros ? ? ?]).
  apply robs_rbind with (f := shape); [|intros ? ? E; cbn [robs]; now rewrite E].
  apply cat1_v_shape_only. cbn [map]. congruence.
Qed.

Lemma Auxiliary_Classifier_value_shape_only (a1 a2 : Auxiliary_Classifier.t A) v1 v2 :
  aux_hyper a1 = aux_hyper a2 -> shape v1 = shape v2 ->
  forall g1 g2,
    gobs shape (Auxiliary_Classifier_value a1 v1) g1 =
    gobs shape (Auxiliary_Classifier_value a2 v2) g2.
Proof.
  intros Ha Hv. unfold aux_hyper in Ha. split_pairs Ha.
  unfold Auxiliary_Classifier_value. rewrite Ha.
  apply gobs_gbind with (f := shape); [apply gobs_glift_rel; shape_step|intros ? ? ?].
  apply gobs_gbind with (f := shape); [apply gobs_glift_rel; shape_step|intros ? ? ?].
  apply gobs_gbind with (f := shape); [apply gobs_glift_rel; shape_step|intros ? ? ?].
  apply gobs_gbind with (f := fun n : Z => n);
    [apply gobs_glift_rel; cbn [robs]; congruence|intros n n' Hn].
  cbv beta in Hn. subst n'.
  apply gobs_gbind with (f := shape); [apply gobs_glift_rel; shape_step|intros ? ? ?].
  apply gobs_gbind with (f := shape); [apply gobs_glift_rel; shape_step|intros ? ? ?].
  apply gobs_gbind with (f := shape); [apply gobs_glift_rel; shape_step|intros ? ? ?].
  apply gobs_gbind with (f := shape); [apply dropout_g_shape_only; assumption|intros ? ? ?].
  apply gobs_gbind with (f := shape); [apply gobs_glift_rel; shape_step|intros ? ? E].
  intros g1 g2. unfold gobs, gret. now rewrite E.
Qed.

Lemma main_head_shape_only (n1 n2 : Inception_Net.t A) v1 v2 :
  lin_hyper (Inception_Net.linear5 n1) = lin_hyper (Inception_Net.linear5 n2) ->
  shape v1 = shape v2 ->
  forall g1 g2, gobs shape (main_head n1 v1) g1 = gobs shape (main_head n2 v2) g2.
Proof.
  intros Hl Hv. unfold main_head.
  apply gobs_gbind with (f := fun n : Z => n);
    [apply gobs_glift_rel; cbn [robs]; congruence|intros n n' Hn].
  cbv beta in Hn. subst n'.
  apply gobs_gbind with (f := shape); [apply gobs_glift_rel; shape_step|intros ? ? ?].
  apply gobs_gbind with (f := shape); [apply dropout_g_shape_only; assumption|intros ? ? ?].
  apply gobs_glift_rel. shape_step.
Qed.

Ltac block_step :=
  apply robs_rbind with (f := shape);
  [first [shape_step | apply Inception_Block_value_shape_only; assumption]
  |intros ? ? ?].

Lemma Inception_Net_value_shape_only (n1 n2 : Inception_Net.t A) v1 v2 :
  net_hyper n1 = net_hyper n2 -> shape v1 = shape v2 ->
  forall g1 g2,
    gobs shapes3 (Inception_Net_value n1 v1) g1 =
    gobs shapes3 (Inception_Net_value n2 v2) g2.
Proof.
  intros Hn Hv. unfold net_hyper in Hn. split_pairs Hn.
  unfold Inception_Net_value.
  apply gobs_gbind with (f := shape).
  { apply gobs_glift_rel. unfold trunk_to_4a.
    repeat match goal with
           | E : Inception_Net.maxpool1 n1 = _ |- _ => rewrite E; clear E
           | E : Inception_Net.maxpool2 n1 = _ |- _ => rewrite E; clear E
           | E : Inception_Net.maxpool3 n1 = _ |- _ => rewrite E; clear E
           end.
    do 11 block_step. apply Inception_Block_value_shape_only; assumption. }
  intros x4a x4a' H4a.
  apply gobs_gbind with (f := shape).
  { apply gobs_glift_rel. unfold trunk_4a_to_4d.
    do 2 block_step. apply Inception_Block_value_shape_only; assumption. }
  intros x4d x4d' H4d.
  apply gobs_gbind with (f := shape).
  { apply gobs_glift_rel. unfold trunk_4d_to_pool.
    repeat match goal with
           | E : Inception_Net.maxpool4 n1 = _ |- _ => rewrite E; clear E
           | E : Inception_Net.avgpool5 n1 = _ |- _ => rewrite E; clear E
           end.
    do 4 block_step. shape_step. }
  intros pooled pooled' Hp.
  apply gobs_gbind with (f := shape);
    [apply main_head_shape_only; assumption|intros m m' Hm].
  apply gobs_gbind with (f := shape);
    [apply Auxiliary_Classifier_value_shape_only; assumption|intros a0 a0' Ha0].
  apply gobs_gbind with (f := shape);
    [apply Auxiliary_Classifier_value_shape_only; assumption|intros a1 a1' Ha1].
  intros g1 g2. unfold gobs, gret, shapes3. congruence.
Qed.

(** What a run shows of its shapes is what its value shows. *)
Lemma run_shape_block (b : Inception_Block.t A) s x v :
  pts s x v ->
  run_shape (Inception_Block.forward b x s) = robs shape (Inception_Block_value b v).
Proof.
  intros Hx. pose proof (sim_Inception_Block b Hx) as Hsim.
  unfold sim, glift in Hsim.
  destruct (Inception_Block_value b v) as [r|e]; cbn [robs].
  - destruct Hsim as (y & s' & -> & [_ Hy] & _). cbn [run_shape]. now rewrite Hy.
  - now rewrite Hsim.
Qed.

Lemma run_shape_aux (a : Auxiliary_Classifier.t A) s x v :
  pts s x v ->
  run_shape (Auxiliary_Classifier.forward a x s) =
  gobs shape (Auxiliary_Classifier_value a v) (rng s).
Proof.
  intros Hx. pose proof (sim_Auxiliary_Classifier a Hx) as Hsim.
  unfold sim in Hsim. unfold gobs.
  destruct (Auxiliary_Classifier_value a v (rng s)) as [[r g']|e].
  - destruct Hsim as (y & s' & -> & [_ Hy] & _). cbn [run_shape]. now rewrite Hy.
  - now rewrite Hsim.
Qed.

Lemma run_shapes3_net (net : Inception_Net.t A) s x v :
  pts s x v ->
  run_shapes3 (Inception_Net.forward net x s) =
  gobs shapes3 (Inception_Net_value net v) (rng s).
Proof.
  intros Hx. pose proof (sim_Inception_Net net Hx) as Hsim.
  unfold sim in Hsim. unfold gobs.
  destruct (Inception_Net_value net v (rng s)) as [[[[r0 r1] r2] g']|e].
  - destruct Hsim as ([[y0 y1] y2] & s' & -> & ([_ H0] & [_ H1] & [_ H2]) & _).
    cbn [fst snd] in H0, H1, H2. cbn [run_shapes3 shapes3]. now rewrite H0, H1, H2.
  - now rewrite Hsim.
Qed.

Lemma net_hyper_eval (net : Inception_Net.t A) :
  net_hyper (Inception_Net.eval net) = net_hyper net.
Proof. reflexivity. Qed.

(** X16. Whether a block returns, with which error it fails and the
    shape of what it returns depend on the shape of its input only:
    not on the elements of the input, on the weights, on the store. *)
Theorem Inception_Block_shape_from_shape (theta1 theta2 : StateDict A) name1 name2 p
    b1 b2 s1 s2 x1 x2 v1 v2 :
  Inception_Block.init theta1 name1 p = Ok b1 ->
  Inception_Block.init theta2 name2 p = Ok b2 ->
  pts s1 x1 v1 -> pts s2 x2 v2 -> shape v1 = shape v2 ->
  run_shape (Inception_Block.forward b1 x1 s1) =
  run_shape (Inception_Block.forward b2 x2 s2).
Proof.
  intros H1 H2 P1 P2 Hv.
  apply Inception_Block_init_inv in H1 as [_ ->].
  apply Inception_Block_init_inv in H2 as [_ ->].
  rewrite (run_shape_block _ P1), (run_shape_block _ P2).
  apply Inception_Block_value_shape_only; [|exact Hv].
  destruct p as [[[[[[in_ch out1] red2] out2] red3] out3] out4]. reflexivity.
Qed.

(** X17. The same for the auxiliary classifier, in training mode or
    outside it and whatever the generator: dropout changes elements,
    not shapes. *)
Theorem Auxiliary_Classifier_shape_from_shape (theta1 theta2 : StateDict A) name1 name2
    in_ch nc a1 a2 s1 s2 x1 x2 v1 v2 :
  Auxiliary_Classifier.init theta1 name1 in_ch nc = Ok a1 ->
  Auxiliary_Classifier.init theta2 name2 in_ch nc = Ok a2 ->
  pts s1 x1 v1 -> pts s2 x2 v2 -> shape v1 = shape v2 ->
  run_shape (Auxiliary_Classifier.forward a1 x1 s1) =
    run_shape (Auxiliary_Classifier.forward a2 x2 s2) /\
  run_shape (Auxiliary_Classifier.forward (Auxiliary_Classifier.eval a1) x1 s1) =
    run_shape (Auxiliary_Classifier.forward a2 x2 s2).
Proof.
  intros H1 H2 P1 P2 Hv.
  apply Auxiliary_Classifier_init_inv in H1 as (_ & _ & ->).
  apply Auxiliary_Classifier_init_inv in H2 as (_ & _ & ->).
  rewrite !(run_shape_aux _ P1), (run_shape_aux _ P2).
  split; apply Auxiliary_Classifier_value_shape_only; try exact Hv; reflexivity.
Qed.

(** X18. The three shapes [Inception_Net.forward] returns, or the
    error it raises, depend on the shape of the input and on
    num_classes only: two models built with the same num_classes, with
    any weights, in training or in inference mode, on any two inputs of
    one shape, from any stores and generators, return the same shapes
    or fail alike.  The notebook's check on a tensor of zeros holds for
    every input of that shape. *)
Theorem Inception_Net_shapes_from_shape (theta1 theta2 : StateDict A) nc
    net1 net2 s1 s2 x1 x2 v1 v2 :
  Inception_Net.init theta1 nc = Ok net1 ->
  Inception_Net.init theta2 nc = Ok net2 ->
  pts s1 x1 v1 -> pts s2 x2 v2 -> shape v1 = shape v2 ->
  run_shapes3 (Inception_Net.forward net1 x1 s1) =
    run_shapes3 (Inception_Net.forward net2 x2 s2) /\
  run_shapes3 (Inception_Net.forward (Inception_Net.eval net1) x1 s1) =
    run_shapes3 (Inception_Net.forward net2 x2 s2).
Proof.
  intros H1 H2 P1 P2 Hv.
  apply Inception_Net_init_inv in H1 as (_ & ->).
  apply Inception_Net_init_inv in H2 as (_ & ->).
  rewrite !(run_shapes3_net _ P1), (run_shapes3_net _ P2).
  split; apply Inception_Net_value_shape_only; try exact Hv; reflexivity.
Qed.

End ShapeOnly.

(** ** Training mode *)

Section Training.

Context {A : Type} {SA : Scalar A}.
Implicit Types (s : Store A) (v : Tensor A).

Lemma advance_advance (g : Generator) a b :
  advance (advance g a) b = advance g (a + b).
Proof. unfold advance. cbn [stream cursor]. f_equal. lia. Qed.

Lemma dropout_g_training (m : Dropout) (x : Tensor A) g :
  drop_training m = true -> Qeq_bool (drop_p m) 0 = false ->
  numel (shape x) <> 0 ->
  dropout_g m x g = Ok (dropout_v (drop_p m) g x, advance g (numel (shape x))).
Proof.
  intros Ht Hp Hn. unfold dropout_g.
  rewrite Ht, Hp, (proj2 (Z.eqb_neq _ _) Hn). reflexivity.
Qed.

(** The auxiliary classifier in training mode, on a 14 x 14 map: one
    sample is drawn for each of the N x 1024 hidden activations. *)
Lemma Auxiliary_Classifier_value_training (theta : StateDict A) name in_ch nc v N g :
  0 < in_ch -> 0 < N -> shape v = [N; in_ch; 14; 14] ->
  exists scores,
    Auxiliary_Classifier_value (aux_layers theta name in_ch nc) v g =
      Ok (scores, advance g (1024 * N)) /\
    shape scores = [N; nc].
Proof.
  intros Hi HN Hv.
  destruct (@aux_features _ _ theta name in_ch nc v N 14 14 4 4)
    as (pooled & c & flat & _ & _ & _ & _ & _ & Hf & Hval);
    try assumption; try reflexivity; try lia.
  change (128 * 4 * 4) with 2048 in Hf.
  destruct (@aux_head_ok _ _ theta name in_ch nc flat N g Hf)
    as (hid & d & g' & scores & E1 & E2 & _ & Hs & Hrest).
  rewrite (linear_v_ok2 _ flat Hf) in E1 by reflexivity.
  injection E1 as <-.
  rewrite dropout_g_training in E2;
    [|reflexivity|reflexivity|cbn [relu_v shape numel fold_right lin_out
                                    Auxiliary_Classifier.fc3 aux_layers]; lia].
  injection E2 as _ <-.
  exists scores. split; [|exact Hs].
  rewrite Hval, Hrest. f_equal. f_equal. f_equal.
  cbn [relu_v shape numel fold_right lin_out Auxiliary_Classifier.fc3 aux_layers]. lia.
Qed.

Lemma main_head_training (theta : StateDict A) nc pooled N g :
  0 < N -> shape pooled = [N; 1024; 1; 1] ->
  exists scores,
    main_head (net_layers theta nc) pooled g = Ok (scores, advance g (1024 * N)) /\
    shape scores = [N; nc].
Proof.
  intros HN Hp.
  destruct (@main_head_run _ _ theta nc pooled N 1 1 g HN Hp)
    as (flat & d & g' & _ & Sf & E2 & Sd & Hm).
  change (1024 * (1 * 1)) with 1024 in Sf, Sd.
  rewrite dropout_g_training in E2;
    [|reflexivity|reflexivity|rewrite Sf; cbn [numel fold_right]; lia].
  injection E2 as _ <-.
  rewrite (linear_v_ok2 _ d Sd) in Hm by reflexivity.
  exists (mkTensor [N; nc] (linear_data (Inception_Net.linear5 (net_layers theta nc)) d)).
  split; [|reflexivity].
  rewrite Hm. f_equal. f_equal. f_equal.
  rewrite Sf. cbn [numel fold_right]. lia.
Qed.

Lemma Inception_Net_value_training (theta : StateDict A) nc v N g :
  0 < N -> shape v = [N; 3; 224; 224] ->
  exists scores0 scores1 scores2,
    Inception_Net_value (net_layers theta nc) v g =
      Ok ((scores0, scores1, scores2), advance g (3 * (1024 * N))) /\
    shape scores0 = [N; nc] /\ shape scores1 = [N; nc] /\ shape scores2 = [N; nc].
Proof.
  intros HN Hv. set (net := net_layers theta nc).
  destruct (@trunk_trace_exists _ _ theta nc v N 224 224 Hv ltac:(lia) ltac:(lia))
    as (x4a & x4d & feat & Htr).
  fold net in Htr.
  destruct (trunk_trace_values Htr) as (T1 & T2 & T3).
  destruct (trunk_trace_shapes Htr) as (S4a & S4d & Sf).
  change (down (down (down (down 224)))) with 14 in S4a, S4d.
  change (down (down (down (down (down 224))))) with 7 in Sf.
  assert (Ep : avg_pool2d_v (Inception_Net.avgpool5 net) feat =
               Ok (mkTensor [N; 1024; 1; 1]
                     (avg_pool2d_data (Inception_Net.avgpool5 net) feat [N; 1024; 1; 1])))
    by (apply avg_pool2d_v_ok with (h := 7) (w := 7);
        [exact Sf|subst net; unfold net_layers;
                  cbn [Inception_Net.avgpool5 pool_k pool_stride pool_pad]; lia..]).
  set (pooled := mkTensor [N; 1024; 1; 1]
                   (avg_pool2d_data (Inception_Net.avgpool5 net) feat [N; 1024; 1; 1]))
    in *.
  destruct (@main_head_training theta nc pooled N g HN eq_refl) as (m & Em & Sm).
  destruct (@Auxiliary_Classifier_value_training theta "aux_classifier1" 512 nc x4a N
              (advance g (1024 * N)) ltac:(lia) HN S4a) as (s0 & E0 & S0).
  destruct (@Auxiliary_Classifier_value_training theta "aux_classifier2" 528 nc x4d N
              (advance (advance g (1024 * N)) (1024 * N)) ltac:(lia) HN S4d)
    as (s1 & E1 & S1).
  exists s0, s1, m. split; [|auto].
  unfold Inception_Net_value. unfold gbind at 1, glift at 1. rewrite T1.
  unfold gbind at 1, glift at 1. rewrite T2.
  unfold gbind at 1, glift at 1. rewrite T3, Ep.
  unfold gbind at 1. fold net in Em. rewrite Em.
  change (Inception_Net.aux_classifier1 net)
    with (aux_layers theta "aux_classifier1" 512 nc).
  change (Inception_Net.aux_classifier2 net)
    with (aux_layers theta "aux_classifier2" 528 nc).
  unfold gbind at 1. rewrite E0.
  unfold gbind at 1. rewrite E1.
  unfold gret. rewrite !advance_advance. f_equal. f_equal. f_equal. lia.
Qed.

(** X19. A model as the constructor returns it is in training mode:
    on a batch of N images of 224 x 224 its forward pass draws three
    dropout masks of N x 1024 samples each (for the main head, then for
    the two auxiliary classifiers) and leaves the generator 3072 N
    samples further.  After [eval()] the same call leaves the
    generator where it was. *)
Theorem Inception_Net_forward_training (theta : StateDict A) nc net s x v N :
  Inception_Net.init theta nc = Ok net ->
  0 < N ->
  pts s x v -> shape v = [N; 3; 224; 224] ->
  (exists ys s', Inception_Net.forward net x s = Ok (ys, s') /\
                 rng s' = advance (rng s) (3 * (1024 * N)) /\
                 rng s' <> rng s) /\
  (exists ys s', Inception_Net.forward (Inception_Net.eval net) x s = Ok (ys, s') /\
                 rng s' = rng s).
Proof.
  intros Hinit HN Hx Hv.
  apply Inception_Net_init_inv in Hinit as [Hnc ->].
  split.
  - destruct (@Inception_Net_value_training theta nc v N (rng s) HN Hv)
      as (a0 & a1 & m & Hval & _).
    pose proof (sim_Inception_Net (net_layers theta nc) Hx) as Hsim.
    unfold sim in Hsim. rewrite Hval in Hsim.
    destruct Hsim as (ys & s' & Hrun & _ & _ & Hg).
    exists ys, s'. split; [exact Hrun|]. split; [exact Hg|].
    rewrite Hg. intros E. apply (f_equal cursor) in E.
    unfold advance in E. cbn [cursor] in E. lia.
  - destruct (gpure_Inception_Net v (inference_mode_eval (net_layers theta nc)))
      as [r Hr].
    destruct (@Inception_Net_value_cases _ _ theta nc v N 224 224 (rng s))
      as (_ & _ & _ & Hok); try assumption; try lia.
    destruct (Hok eq_refl eq_refl) as (a0 & a1 & m & g' & Hval & _).
    pose proof (@Inception_Net_value_shape_only _ _
                  (Inception_Net.eval (net_layers theta nc))
                  (net_layers theta nc) v v eq_refl eq_refl (rng s) (rng s)) as E.
    unfold gobs in E. rewrite Hval, Hr in E.
    pose proof (sim_Inception_Net (Inception_Net.eval (net_layers theta nc)) Hx) as Hsim.
    unfold sim in Hsim. rewrite Hr in Hsim.
    destruct r as [yv|e]; [|discriminate E].
    cbn [glift] in Hsim.
    destruct Hsim as (ys & s' & Hrun & _ & _ & Hg). exists ys, s'. auto.
Qed.

End Training.

(** ** The strides of the trunk *)

Section Strides.

Context {A : Type} {SA : Scalar A}.
Implicit Types (s : Store A) (v : Tensor A).

Lemma down4_closed H : 0 < H -> down (down (down (down H))) = (H + 15) / 16.
Proof. unfold down. lia. Qed.

Lemma down5_closed H : 0 < H -> down (down (down (down (down H)))) = (H + 31) / 32.
Proof. unfold down. lia. Qed.

(** X20. The trunk accepts every image size: on an input
    (N, 3, H, W) with H and W positive, the lines of [forward] up to
    block 4a run and return a map of 512 channels and of size
    ceil(H/16) x ceil(W/16); the blocks 4b to 4d turn it into one of 528
    channels and the same size; and the final average pooling is handed
    a map of 1024 channels and of size ceil(H/32) x ceil(W/32).  An
    input the model refuses is refused by one of its three heads. *)
Theorem Inception_Net_trunk_strides (theta : StateDict A) nc net s x v N H W :
  Inception_Net.init theta nc = Ok net ->
  0 < H -> 0 < W ->
  pts s x v -> shape v = [N; 3; H; W] ->
  exists x4a s1 v4a v4d feat,
    forward_to_4a net x s = Ok (x4a, s1) /\
    pts s1 x4a v4a /\
    shape v4a = [N; 512; (H + 15) / 16; (W + 15) / 16] /\
    trunk_4a_to_4d net v4a = Ok v4d /\
    shape v4d = [N; 528; (H + 15) / 16; (W + 15) / 16] /\
    trunk_4d_to_pool net v4d = avg_pool2d_v (Inception_Net.avgpool5 net) feat /\
    shape feat = [N; 1024; (H + 31) / 32; (W + 31) / 32].
Proof.
  intros Hinit HH HW Hx Hv.
  apply Inception_Net_init_inv in Hinit as [Hnc ->].
  destruct (trunk_trace_exists theta nc v Hv HH HW) as (v4a & v4d & feat & Htr).
  destruct (trunk_trace_values Htr) as (T1 & T2 & T3).
  destruct (trunk_trace_shapes Htr) as (S4a & S4d & Sf).
  rewrite (down4_closed HH), (down4_closed HW) in S4a, S4d.
  rewrite (down5_closed HH), (down5_closed HW) in Sf.
  pose proof (sim_forward_to_4a (net_layers theta nc) Hx) as Hsim.
  unfold sim, glift in Hsim. rewrite T1 in Hsim.
  destruct Hsim as (x4a & s1 & Hrun & Hp & _).
  exists x4a, s1, v4a, v4d, feat. auto 10.
Qed.

End Strides.

(** ** Runs from the same generator *)

Section Reproducible.

Context {A : Type} {SA : Scalar A}.
Implicit Types (s : Store A) (v : Tensor A).

(** What a caller sees of a run is what the value of [forward] is. *)
Lemma observe_value (net : Inception_Net.t A) s x v :
  pts s x v ->
  observe (Inception_Net.forward net x s) =
  gobs (fun yv => yv) (Inception_Net_value net v) (rng s).
Proof.
  intros Hx. pose proof (sim_Inception_Net net Hx) as Hsim.
  unfold sim in Hsim. unfold gobs.
  destruct (Inception_Net_value net v (rng s)) as [[[[r0 r1] r2] g']|e].
  - destruct Hsim as ([[y0 y1] y2] & s' & -> & (P0 & P1 & P2) & _).
    cbn [fst snd] in P0, P1, P2. cbn [observe].
    now rewrite (pts_load P0), (pts_load P1), (pts_load P2).
  - now rewrite Hsim.
Qed.

(** X21. In any mode, training included, the three scores (or the
    error) of [Inception_Net.forward] are a function of the value of
    the input and of the state of the generator: two calls on inputs of
    equal value from stores whose generators are in the same state see
    the same scores, wherever the tensors are stored. *)
Theorem Inception_Net_forward_reproducible (net : Inception_Net.t A) s1 s2 x1 x2 v :
  pts s1 x1 v -> pts s2 x2 v -> rng s1 = rng s2 ->
  observe (Inception_Net.forward net x1 s1) =
  observe (Inception_Net.forward net x2 s2).
Proof.
  intros P1 P2 Hg. rewrite (observe_value net P1), (observe_value net P2), Hg.
  reflexivity.
Qed.

End Reproducible.

(** ** The theorems at concrete inputs *)

Lemma Inception_Net_forward_scores_witness :
  Inception_Net.init theta0 1000 = Ok (net_layers theta0 1000) /\
  0 < 64 /\
  pts store0 (input_ref [64; 3; 224; 224]) (input_value [64; 3; 224; 224]) /\
  exists y0 y1 y2 s',
    Inception_Net.forward (net_layers theta0 1000) (input_ref [64; 3; 224; 224]) store0 =
      Ok ((y0, y1, y2), s') /\
    vshape y0 = [64; 1000] /\ vshape y1 = [64; 1000] /\ vshape y2 = [64; 1000].
Proof.
  assert (Hinit : Inception_Net.init theta0 1000 = Ok (net_layers theta0 1000))
    by reflexivity.
  assert (Hx : pts store0 (input_ref [64; 3; 224; 224]) (input_value [64; 3; 224; 224]))
    by (split; reflexivity).
  split; [exact Hinit|]. split; [lia|]. split; [exact Hx|].
  destruct (@Inception_Net_forward_scores _ _ theta0 1000 _ store0 _ _ 64
              Hinit ltac:(lia) Hx eq_refl)
    as (x4a & x4d & pooled & g1 & g2 & a0 & a1 & m & y0 & y1 & y2 & s' &
        _ & _ & _ & _ & _ & _ & Hrun & _ & _ & _ & S0 & S1 & S2).
  exists y0, y1, y2, s'. auto.
Defined.

Lemma Inception_Block_forward_shape_witness :
  Inception_Block.init theta0 "inception3a" (192, 64, 96, 128, 16, 32, 32) =
    Ok (block_layers theta0 "inception3a" (192, 64, 96, 128, 16, 32, 32)) /\
  pts store0 (input_ref [64; 192; 32; 32]) (input_value [64; 192; 32; 32]) /\
  exists y s',
    Inception_Block.forward
      (block_layers theta0 "inception3a" (192, 64, 96, 128, 16, 32, 32))
      (input_ref [64; 192; 32; 32]) store0 = Ok (y, s') /\
    vshape y = [64; 256; 32; 32].
Proof.
  assert (Hinit : Inception_Block.init theta0 "inception3a" (192, 64, 96, 128, 16, 32, 32) =
                  Ok (block_layers theta0 "inception3a" (192, 64, 96, 128, 16, 32, 32)))
    by reflexivity.
  assert (Hx : pts store0 (input_ref [64; 192; 32; 32]) (input_value [64; 192; 32; 32]))
    by (split; reflexivity).
  split; [exact Hinit|]. split; [exact Hx|].
  exact (@Inception_Block_forward_shape _ _ theta0 "inception3a" 192 64 96 128 16 32 32
           _ store0 _ _ 64 32 32 Hinit
           ltac:(lia) ltac:(lia) ltac:(lia) ltac:(lia) ltac:(lia) ltac:(lia) ltac:(lia)
           ltac:(lia) ltac:(lia) Hx eq_refl).
Defined.

Lemma Inception_Block_forward_branches_witness :
  Inception_Block.init theta0 "inception3a" (192, 64, 96, 128, 16, 32, 32) =
    Ok (block_layers theta0 "inception3a" (192, 64, 96, 128, 16, 32, 32)) /\
  pts store0 (input_ref [64; 192; 32; 32]) (input_value [64; 192; 32; 32]) /\
  exists b1 b2 b3 b4 out y s',
    Branches (block_layers theta0 "inception3a" (192, 64, 96, 128, 16, 32, 32))
             (input_value [64; 192; 32; 32]) b1 b2 b3 b4 /\
    Inception_Block.forward
      (block_layers theta0 "inception3a" (192, 64, 96, 128, 16, 32, 32))
      (input_ref [64; 192; 32; 32]) store0 = Ok (y, s') /\
    pts s' y out /\
    get out [0; 63; 5; 7] = get b1 [0; 63; 5; 7] /\
    get out [0; 64; 5; 7] = get b2 [0; 0; 5; 7] /\
    get out [0; 192; 5; 7] = get b3 [0; 0; 5; 7] /\
    get out [0; 224; 5; 7] = get b4 [0; 0; 5; 7].
Proof.
  assert (Hinit : Inception_Block.init theta0 "inception3a" (192, 64, 96, 128, 16, 32, 32) =
                  Ok (block_layers theta0 "inception3a" (192, 64, 96, 128, 16, 32, 32)))
    by reflexivity.
  assert (Hx : pts store0 (input_ref [64; 192; 32; 32]) (input_value [64; 192; 32; 32]))
    by (split; reflexivity).
  split; [exact Hinit|]. split; [exact Hx|].
  destruct (@Inception_Block_forward_branches _ _ theta0 "inception3a" 192 64 96 128 16 32 32
              _ store0 _ _ 64 32 32 Hinit
              ltac:(lia) ltac:(lia) ltac:(lia) ltac:(lia) ltac:(lia) ltac:(lia) ltac:(lia)
              ltac:(lia) ltac:(lia) Hx eq_refl)
    as (_ & b1 & b2 & b3 & b4 & out & y & s' & Hbr & Hrun & Hy & _ & Hget).
  exists b1, b2, b3, b4, out, y, s'.
  split; [exact Hbr|]. split; [exact Hrun|]. split; [exact Hy|].
  split; [exact (proj1 (Hget 0 63 5 7 ltac:(lia) ltac:(lia) ltac:(lia)) ltac:(lia))|].
  split; [exact (proj1 (proj2 (Hget 0 0 5 7 ltac:(lia) ltac:(lia) ltac:(lia))) ltac:(lia))|].
  split; [exact (proj1 (proj2 (proj2 (Hget 0 0 5 7 ltac:(lia) ltac:(lia) ltac:(lia))))
                   ltac:(lia))|].
  exact (proj2 (proj2 (proj2 (Hget 0 0 5 7 ltac:(lia) ltac:(lia) ltac:(lia)))) ltac:(lia)).
Defined.

Lemma Auxiliary_Classifier_forward_pipeline_witness :
  Auxiliary_Classifier.init theta0 "aux_classifier1" 512 1000 =
    Ok (aux_layers theta0 "aux_classifier1" 512 1000) /\
  (14 - 5) / 3 + 1 = 4 /\
  pts store0 (input_ref [64; 512; 14; 14]) (input_value [64; 512; 14; 14]) /\
  exists y s',
    Auxiliary_Classifier.forward (aux_layers theta0 "aux_classifier1" 512 1000)
      (input_ref [64; 512; 14; 14]) store0 = Ok (y, s') /\
    vshape y = [64; 1000].
Proof.
  assert (Hinit : Auxiliary_Classifier.init theta0 "aux_classifier1" 512 1000 =
                  Ok (aux_layers theta0 "aux_classifier1" 512 1000)) by reflexivity.
  assert (Hx : pts store0 (input_ref [64; 512; 14; 14]) (input_value [64; 512; 14; 14]))
    by (split; reflexivity).
  split; [exact Hinit|]. split; [reflexivity|]. split; [exact Hx|].
  destruct (@Auxiliary_Classifier_forward_pipeline _ _ theta0 "aux_classifier1" 512 1000
              _ store0 _ _ 64 14 14 Hinit ltac:(lia) ltac:(lia) eq_refl eq_refl Hx eq_refl)
    as (_ & pooled & c & flat & hid & d & g' & scores & y & s' &
        _ & _ & _ & _ & _ & _ & _ & Hrun & _ & _ & Hs).
  exists y, s'. auto.
Defined.


Lemma channel_counts_checked_by_forward_witness :
  Inception_Net.init theta0 1000 = Ok (net_layers theta0 1000) /\
  block_out (Inception_Net.inception3a (net_layers theta0 1000)) =
    block_in (Inception_Net.inception3b (net_layers theta0 1000)) /\
  block_out (Inception_Net.inception4a (net_layers theta0 1000)) = 512 /\
  block_out (Inception_Net.inception4d (net_layers theta0 1000)) = 528.
Proof.
  assert (Hinit : Inception_Net.init theta0 1000 = Ok (net_layers theta0 1000))
    by reflexivity.
  split; [exact Hinit|].
  destruct (@channel_counts_checked_by_forward _ _ theta0 1000 _ Hinit)
    as ((_ & H3a & _ & _ & _ & _ & _ & _ & _ & _ & _ & H4a & _ & H4d & _) & _).
  auto.
Defined.

Lemma Inception_Net_forward_taps_witness :
  Inception_Net.init theta0 1000 = Ok (net_layers theta0 1000) /\
  0 < 64 /\
  pts store0 (input_ref [64; 3; 224; 224]) (input_value [64; 3; 224; 224]) /\
  exists x4a s1 aux0 s2 ys s' v4a,
    forward_to_4a (net_layers theta0 1000) (input_ref [64; 3; 224; 224]) store0 =
      Ok (x4a, s1) /\
    pts s1 x4a v4a /\
    clone x4a s1 = Ok (aux0, s2) /\
    loc aux0 <> loc x4a /\
    Inception_Net.forward (net_layers theta0 1000) (input_ref [64; 3; 224; 224]) store0 =
      Ok (ys, s') /\
    pts s' aux0 v4a.
Proof.
  assert (Hinit : Inception_Net.init theta0 1000 = Ok (net_layers theta0 1000))
    by reflexivity.
  assert (Hx : pts store0 (input_ref [64; 3; 224; 224]) (input_value [64; 3; 224; 224]))
    by (split; reflexivity).
  split; [exact Hinit|]. split; [lia|]. split; [exact Hx|].
  destruct (@Inception_Net_forward_taps _ _ theta0 1000 _ store0 _ _ 64
              Hinit ltac:(lia) Hx eq_refl)
    as (_ & _ & _ &
        x4a & s1 & aux0 & s2 & x4d & s3 & aux1 & s4 & ys & s' & v4a & v4d &
        g1 & g2 & a0 & a1 &
        R1 & P1 & _ & R2 & _ & N2 & _ & _ & _ & _ & _ & _ & _ & R & _ & _ & _ &
        _ & P0 & _).
  exists x4a, s1, aux0, s2, ys, s', v4a. auto 10.
Defined.

Lemma Inception_Net_eval_deterministic_witness :
  Inception_Net.init theta0 1000 = Ok (net_layers theta0 1000) /\
  observe (Inception_Net.forward (Inception_Net.eval (net_layers theta0 1000))
             (input_ref [64; 3; 224; 224]) store0) =
  observe (Inception_Net.forward (Inception_Net.eval (net_layers theta0 1000))
             (input_ref [64; 3; 224; 224])
             {| heap := heap store0; rng := advance (rng store0) 17 |}).
Proof.
  assert (Hinit : Inception_Net.init theta0 1000 = Ok (net_layers theta0 1000))
    by reflexivity.
  split; [exact Hinit|].
  destruct (@Inception_Net_eval_deterministic _ _ theta0 1000 _ Hinit)
    as (_ & _ & Hdet & _).
  apply Hdet with (v := input_value [64; 3; 224; 224]); split; reflexivity.
Defined.

Lemma Auxiliary_Classifier_forward_width_witness :
  Auxiliary_Classifier.init theta0 "aux_classifier1" 512 1000 =
    Ok (aux_layers theta0 "aux_classifier1" 512 1000) /\
  pts store0 (input_ref [64; 512; 13; 13]) (input_value [64; 512; 13; 13]) /\
  ((13 - 5) / 3 + 1) * ((13 - 5) / 3 + 1) <> 16 /\
  Auxiliary_Classifier.forward (aux_layers theta0 "aux_classifier1" 512 1000)
    (input_ref [64; 512; 13; 13]) store0 = Raise (MatMulMismatch 2048 1152).
Proof.
  assert (Hinit : Auxiliary_Classifier.init theta0 "aux_classifier1" 512 1000 =
                  Ok (aux_layers theta0 "aux_classifier1" 512 1000)) by reflexivity.
  assert (Hx : pts store0 (input_ref [64; 512; 13; 13]) (input_value [64; 512; 13; 13]))
    by (split; reflexivity).
  assert (Hne : ((13 - 5) / 3 + 1) * ((13 - 5) / 3 + 1) <> 16) by (vm_compute; lia).
  split; [exact Hinit|]. split; [exact Hx|]. split; [exact Hne|].
  exact (proj1 (@Auxiliary_Classifier_forward_width _ _ theta0 "aux_classifier1" 512 1000
                  _ store0 _ _ 64 13 13 Hinit ltac:(lia) ltac:(lia) ltac:(lia) ltac:(lia)
                  Hx eq_refl) Hne).
Defined.

Lemma Inception_Net_forward_spatial_witness :
  Inception_Net.init theta0 1000 = Ok (net_layers theta0 1000) /\
  0 < 64 /\ 0 < 224 /\
  pts store0 (input_ref [64; 3; 224; 224]) (input_value [64; 3; 224; 224]) /\
  exists ys s',
    Inception_Net.forward (net_layers theta0 1000) (input_ref [64; 3; 224; 224]) store0 =
      Ok (ys, s').
Proof.
  assert (Hinit : Inception_Net.init theta0 1000 = Ok (net_layers theta0 1000))
    by reflexivity.
  assert (Hx : pts store0 (input_ref [64; 3; 224; 224]) (input_value [64; 3; 224; 224]))
    by (split; reflexivity).
  split; [exact Hinit|]. split; [lia|]. split; [lia|]. split; [exact Hx|].
  destruct (@Inception_Net_forward_spatial _ _ theta0 1000 _ store0 _ _ 64 224 224
              Hinit ltac:(lia) ltac:(lia) ltac:(lia) Hx eq_refl)
    as (_ & Hiff & _).
  apply Hiff. lia.
Defined.

(** ** The further theorems at concrete inputs *)

Lemma run_shape_returns {A : Type} (r : result (TensorRef * Store A)) sh :
  run_shape r = Ok sh -> exists y s', r = Ok (y, s').
Proof. destruct r as [[y s']|e]; [|discriminate]. intros _. exists y, s'. reflexivity. Qed.

Lemma run_shapes3_returns {A : Type}
    (r : result ((TensorRef * TensorRef * TensorRef) * Store A)) shs :
  run_shapes3 r = Ok shs -> exists y0 y1 y2 s', r = Ok ((y0, y1, y2), s').
Proof.
  destruct r as [[[[y0 y1] y2] s']|e]; [|discriminate].
  intros _. exists y0, y1, y2, s'. reflexivity.
Qed.

Lemma Inception_Net_forward_channels_witness :
  Inception_Net.init theta0 1000 = Ok (net_layers theta0 1000) /\
  pts store0 (input_ref [64; 1; 224; 224]) (input_value [64; 1; 224; 224]) /\
  1 <> 3 /\
  Inception_Net.forward (net_layers theta0 1000) (input_ref [64; 1; 224; 224]) store0 =
    Raise (ChannelMismatch 3 1).
Proof.
  assert (Hinit : Inception_Net.init theta0 1000 = Ok (net_layers theta0 1000))
    by reflexivity.
  assert (Hx : pts store0 (input_ref [64; 1; 224; 224]) (input_value [64; 1; 224; 224]))
    by (split; reflexivity).
  assert (Hc : 1 <> 3) by lia.
  split; [exact Hinit|]. split; [exact Hx|]. split; [exact Hc|].
  exact (proj1 (@Inception_Net_forward_channels _ _ theta0 1000 _ store0 _ _ 64 1 224 224
                  Hinit Hx eq_refl Hc)).
Defined.

Lemma Inception_Net_forward_empty_batch_witness :
  Inception_Net.init theta0 1000 = Ok (net_layers theta0 1000) /\
  pts store0 (input_ref [0; 3; 224; 224]) (input_value [0; 3; 224; 224]) /\
  0 < 224 /\ 193 <= 224 /\
  Inception_Net.forward (net_layers theta0 1000) (input_ref [0; 3; 224; 224]) store0 =
    Raise ShapeAmbiguous.
Proof.
  assert (Hinit : Inception_Net.init theta0 1000 = Ok (net_layers theta0 1000))
    by reflexivity.
  assert (Hx : pts store0 (input_ref [0; 3; 224; 224]) (input_value [0; 3; 224; 224]))
    by (split; reflexivity).
  split; [exact Hinit|]. split; [exact Hx|]. split; [lia|]. split; [lia|].
  exact (proj1 (@Inception_Net_forward_empty_batch _ _ theta0 1000 _ store0 _ _ 224 224
                  Hinit Hx eq_refl ltac:(lia) ltac:(lia)) ltac:(lia) ltac:(lia)).
Defined.

Lemma Auxiliary_Classifier_forward_errors_witness :
  Auxiliary_Classifier.init theta0 "aux_classifier1" 512 1000 =
    Ok (aux_layers theta0 "aux_classifier1" 512 1000) /\
  pts store0 (input_ref [64; 512; 4; 4]) (input_value [64; 512; 4; 4]) /\
  0 < 512 /\ 0 < 4 /\ 4 < 5 /\
  Auxiliary_Classifier.forward (aux_layers theta0 "aux_classifier1" 512 1000)
    (input_ref [64; 512; 4; 4]) store0 = Raise OutputTooSmall.
Proof.
  assert (Hinit : Auxiliary_Classifier.init theta0 "aux_classifier1" 512 1000 =
                  Ok (aux_layers theta0 "aux_classifier1" 512 1000)) by reflexivity.
  assert (Hx : pts store0 (input_ref [64; 512; 4; 4]) (input_value [64; 512; 4; 4]))
    by (split; reflexivity).
  assert (Hs : 4 < 5 \/ 4 < 5) by (left; lia).
  split; [exact Hinit|]. split; [exact Hx|]. split; [lia|]. split; [lia|]. split; [lia|].
  exact (proj1 (@Auxiliary_Classifier_forward_errors _ _ theta0 "aux_classifier1" 512 1000
                  _ store0 _ _ 64 512 4 4 Hinit Hx eq_refl
                  ltac:(lia) ltac:(lia) ltac:(lia)) Hs).
Defined.

Lemma Auxiliary_Classifier_forward_domain_witness :
  Auxiliary_Classifier.init theta0 "aux_classifier1" 512 1000 =
    Ok (aux_layers theta0 "aux_classifier1" 512 1000) /\
  pts store0 (input_ref [64; 512; 14; 14]) (input_value [64; 512; 14; 14]) /\
  0 <= 64 /\ 0 < 512 /\ 0 < 14 /\
  exists y s', Auxiliary_Classifier.forward (aux_layers theta0 "aux_classifier1" 512 1000)
                 (input_ref [64; 512; 14; 14]) store0 = Ok (y, s').
Proof.
  assert (Hinit : Auxiliary_Classifier.init theta0 "aux_classifier1" 512 1000 =
                  Ok (aux_layers theta0 "aux_classifier1" 512 1000)) by reflexivity.
  assert (Hx : pts store0 (input_ref [64; 512; 14; 14]) (input_value [64; 512; 14; 14]))
    by (split; reflexivity).
  split; [exact Hinit|]. split; [exact Hx|]. split; [lia|]. split; [lia|]. split; [lia|].
  apply (@Auxiliary_Classifier_forward_domain _ _ theta0 "aux_classifier1" 512 1000
           _ store0 _ _ 64 512 14 14 Hinit Hx eq_refl
           ltac:(lia) ltac:(lia) ltac:(lia) ltac:(lia)).
  repeat split; try lia; reflexivity.
Defined.

Lemma Inception_Block_forward_domain_witness :
  Inception_Block.init theta0 "inception3a" (192, 64, 96, 128, 16, 32, 32) =
    Ok (block_layers theta0 "inception3a" (192, 64, 96, 128, 16, 32, 32)) /\
  positive_params (192, 64, 96, 128, 16, 32, 32) /\
  pts store0 (input_ref [64; 192; 32; 32]) (input_value [64; 192; 32; 32]) /\
  exists y s',
    Inception_Block.forward
      (block_layers theta0 "inception3a" (192, 64, 96, 128, 16, 32, 32))
      (input_ref [64; 192; 32; 32]) store0 = Ok (y, s').
Proof.
  assert (Hinit : Inception_Block.init theta0 "inception3a" (192, 64, 96, 128, 16, 32, 32) =
                  Ok (block_layers theta0 "inception3a" (192, 64, 96, 128, 16, 32, 32)))
    by reflexivity.
  assert (Hp : positive_params (192, 64, 96, 128, 16, 32, 32)) by (simpl; lia).
  assert (Hx : pts store0 (input_ref [64; 192; 32; 32]) (input_value [64; 192; 32; 32]))
    by (split; reflexivity).
  split; [exact Hinit|]. split; [exact Hp|]. split; [exact Hx|].
  apply (proj1 (@Inception_Block_forward_domain _ _ theta0 "inception3a"
                  (192, 64, 96, 128, 16, 32, 32) _ store0 _ _ 64 192 32 32
                  Hinit Hp Hx eq_refl)).
  repeat split; lia.
Defined.

Lemma Inception_Block_forward_store_witness :
  exists y s',
    Inception_Block.forward
      (block_layers theta0 "inception3a" (192, 64, 96, 128, 16, 32, 32))
      (input_ref [64; 192; 32; 32]) store0 = Ok (y, s') /\
    pts s' (input_ref [64; 192; 32; 32]) (input_value [64; 192; 32; 32]) /\
    loc y = 14%nat /\ List.length (heap s') = 15%nat.
Proof.
  destruct (@run_shape_returns Q
              (Inception_Block.forward
                 (block_layers theta0 "inception3a" (192, 64, 96, 128, 16, 32, 32))
                 (input_ref [64; 192; 32; 32]) store0) [64; 256; 32; 32])
    as (y & s' & Hrun); [vm_compute; reflexivity|].
  exists y, s'. split; [exact Hrun|].
  destruct (@Inception_Block_forward_store _ _ _ _ _ _ _ Hrun) as (Hold & Hn & Hy & _).
  split; [apply Hold; split; reflexivity|].
  cbn [store0 heap List.length] in Hn. lia.
Defined.

Lemma Auxiliary_Classifier_forward_store_witness :
  exists y s',
    Auxiliary_Classifier.forward (aux_layers theta0 "aux_classifier1" 512 1000)
      (input_ref [64; 512; 14; 14]) store0 = Ok (y, s') /\
    pts s' (input_ref [64; 512; 14; 14]) (input_value [64; 512; 14; 14]) /\
    loc (input_ref [64; 512; 14; 14]) <> loc y.
Proof.
  destruct (@run_shape_returns Q
              (Auxiliary_Classifier.forward (aux_layers theta0 "aux_classifier1" 512 1000)
                 (input_ref [64; 512; 14; 14]) store0) [64; 1000])
    as (y & s' & Hrun); [vm_compute; reflexivity|].
  exists y, s'. split; [exact Hrun|].
  destruct (@Auxiliary_Classifier_forward_store _ _ _ _ _ _ _ Hrun) as (Hold & _).
  apply Hold. split; reflexivity.
Defined.

Lemma Inception_Net_forward_store_witness :
  exists y0 y1 y2 s',
    Inception_Net.forward (net_layers theta0 1000) (input_ref [64; 3; 224; 224]) store0 =
      Ok ((y0, y1, y2), s') /\
    pts s' (input_ref [64; 3; 224; 224]) (input_value [64; 3; 224; 224]) /\
    (0 < loc y2 < loc y0)%nat /\ (loc y0 < loc y1)%nat.
Proof.
  destruct (@run_shapes3_returns Q
              (Inception_Net.forward (net_layers theta0 1000)
                 (input_ref [64; 3; 224; 224]) store0)
              ([64; 1000], [64; 1000], [64; 1000]))
    as (y0 & y1 & y2 & s' & Hrun); [vm_compute; reflexivity|].
  exists y0, y1, y2, s'. split; [exact Hrun|].
  destruct (@Inception_Net_forward_store _ _ _ _ _ _ _ _ _ Hrun) as (Hold & Hord & _).
  destruct (Hold (input_ref [64; 3; 224; 224]) (input_value [64; 3; 224; 224]))
    as [Hin Hlt]; [split; reflexivity|].
  split; [exact Hin|]. cbn [input_ref loc] in Hlt. lia.
Defined.

Lemma Inception_Block_output_nonnegative_witness :
  Inception_Block.init theta0 "inception3a" (192, 64, 96, 128, 16, 32, 32) =
    Ok (block_layers theta0 "inception3a" (192, 64, 96, 128, 16, 32, 32)) /\
  positive_params (192, 64, 96, 128, 16, 32, 32) /\
  pts store0 (input_ref [64; 192; 32; 32]) (input_value [64; 192; 32; 32]) /\
  exists y s' out,
    Inception_Block.forward
      (block_layers theta0 "inception3a" (192, 64, 96, 128, 16, 32, 32))
      (input_ref [64; 192; 32; 32]) store0 = Ok (y, s') /\
    pts s' y out /\
    (0 <= get out ([0; 100; 5; 7])%Z)%Q.
Proof.
  assert (Hinit : Inception_Block.init theta0 "inception3a" (192, 64, 96, 128, 16, 32, 32) =
                  Ok (block_layers theta0 "inception3a" (192, 64, 96, 128, 16, 32, 32)))
    by reflexivity.
  assert (Hp : positive_params (192, 64, 96, 128, 16, 32, 32)) by (simpl; lia).
  assert (Hx : pts store0 (input_ref [64; 192; 32; 32]) (input_value [64; 192; 32; 32]))
    by (split; reflexivity).
  split; [exact Hinit|]. split; [exact Hp|]. split; [exact Hx|].
  destruct (@Inception_Block_output_nonnegative theta0 "inception3a"
              (192, 64, 96, 128, 16, 32, 32) _ store0 _ _ 64 32 32
              Hinit Hp ltac:(lia) ltac:(lia) Hx eq_refl)
    as (y & s' & out & Hrun & Hy & Hpos).
  exists y, s', out. auto.
Defined.

Lemma Inception_Block_shape_from_shape_witness :
  Inception_Block.init theta0 "inception3a" (192, 64, 96, 128, 16, 32, 32) =
    Ok (block_layers theta0 "inception3a" (192, 64, 96, 128, 16, 32, 32)) /\
  Inception_Block.init theta1 "b" (192, 64, 96, 128, 16, 32, 32) =
    Ok (block_layers theta1 "b" (192, 64, 96, 128, 16, 32, 32)) /\
  pts store0 (input_ref [64; 192; 32; 32]) (input_value [64; 192; 32; 32]) /\
  pts store1 (input_ref1 [64; 192; 32; 32]) (input_value1 [64; 192; 32; 32]) /\
  run_shape (Inception_Block.forward
               (block_layers theta0 "inception3a" (192, 64, 96, 128, 16, 32, 32))
               (input_ref [64; 192; 32; 32]) store0) =
  run_shape (Inception_Block.forward
               (block_layers theta1 "b" (192, 64, 96, 128, 16, 32, 32))
               (input_ref1 [64; 192; 32; 32]) store1).
Proof.
  assert (H0 : Inception_Block.init theta0 "inception3a" (192, 64, 96, 128, 16, 32, 32) =
               Ok (block_layers theta0 "inception3a" (192, 64, 96, 128, 16, 32, 32)))
    by reflexivity.
  assert (H1 : Inception_Block.init theta1 "b" (192, 64, 96, 128, 16, 32, 32) =
               Ok (block_layers theta1 "b" (192, 64, 96, 128, 16, 32, 32)))
    by reflexivity.
  assert (P0 : pts store0 (input_ref [64; 192; 32; 32]) (input_value [64; 192; 32; 32]))
    by (split; reflexivity).
  assert (P1 : pts store1 (input_ref1 [64; 192; 32; 32]) (input_value1 [64; 192; 32; 32]))
    by (split; reflexivity).
  split; [exact H0|]. split; [exact H1|]. split; [exact P0|]. split; [exact P1|].
  exact (@Inception_Block_shape_from_shape _ _ theta0 theta1 "inception3a" "b" _
           _ _ store0 store1 _ _ _ _ H0 H1 P0 P1 eq_refl).
Defined.

Lemma Auxiliary_Classifier_shape_from_shape_witness :
  Auxiliary_Classifier.init theta0 "aux_classifier1" 512 1000 =
    Ok (aux_layers theta0 "aux_classifier1" 512 1000) /\
  Auxiliary_Classifier.init theta1 "aux_classifier2" 512 1000 =
    Ok (aux_layers theta1 "aux_classifier2" 512 1000) /\
  pts store0 (input_ref [64; 512; 13; 13]) (input_value [64; 512; 13; 13]) /\
  pts store1 (input_ref1 [64; 512; 13; 13]) (input_value1 [64; 512; 13; 13]) /\
  run_shape (Auxiliary_Classifier.forward (aux_layers theta0 "aux_classifier1" 512 1000)
               (input_ref [64; 512; 13; 13]) store0) =
  run_shape (Auxiliary_Classifier.forward (aux_layers theta1 "aux_classifier2" 512 1000)
               (input_ref1 [64; 512; 13; 13]) store1).
Proof.
  assert (H0 : Auxiliary_Classifier.init theta0 "aux_classifier1" 512 1000 =
               Ok (aux_layers theta0 "aux_classifier1" 512 1000)) by reflexivity.
  assert (H1 : Auxiliary_Classifier.init theta1 "aux_classifier2" 512 1000 =
               Ok (aux_layers theta1 "aux_classifier2" 512 1000)) by reflexivity.
  assert (P0 : pts store0 (input_ref [64; 512; 13; 13]) (input_value [64; 512; 13; 13]))
    by (split; reflexivity).
  assert (P1 : pts store1 (input_ref1 [64; 512; 13; 13]) (input_value1 [64; 512; 13; 13]))
    by (split; reflexivity).
  split; [exact H0|]. split; [exact H1|]. split; [exact P0|]. split; [exact P1|].
  exact (proj1 (@Auxiliary_Classifier_shape_from_shape _ _ theta0 theta1
                  "aux_classifier1" "aux_classifier2" 512 1000
                  _ _ store0 store1 _ _ _ _ H0 H1 P0 P1 eq_refl)).
Defined.

Lemma Inception_Net_shapes_from_shape_witness :
  Inception_Net.init theta0 1000 = Ok (net_layers theta0 1000) /\
  Inception_Net.init theta1 1000 = Ok (net_layers theta1 1000) /\
  pts store0 (input_ref [64; 3; 224; 224]) (input_value [64; 3; 224; 224]) /\
  pts store1 (input_ref1 [64; 3; 224; 224]) (input_value1 [64; 3; 224; 224]) /\
  run_shapes3 (Inception_Net.forward (Inception_Net.eval (net_layers theta0 1000))
                 (input_ref [64; 3; 224; 224]) store0) =
  run_shapes3 (Inception_Net.forward (net_layers theta1 1000)
                 (input_ref1 [64; 3; 224; 224]) store1).
Proof.
  assert (H0 : Inception_Net.init theta0 1000 = Ok (net_layers theta0 1000))
    by reflexivity.
  assert (H1 : Inception_Net.init theta1 1000 = Ok (net_layers theta1 1000))
    by reflexivity.
  assert (P0 : pts store0 (input_ref [64; 3; 224; 224]) (input_value [64; 3; 224; 224]))
    by (split; reflexivity).
  assert (P1 : pts store1 (input_ref1 [64; 3; 224; 224]) (input_value1 [64; 3; 224; 224]))
    by (split; reflexivity).
  split; [exact H0|]. split; [exact H1|]. split; [exact P0|]. split; [exact P1|].
  exact (proj2 (@Inception_Net_shapes_from_shape _ _ theta0 theta1 1000
                  _ _ store0 store1 _ _ _ _ H0 H1 P0 P1 eq_refl)).
Defined.

Lemma Inception_Net_forward_training_witness :
  Inception_Net.init theta0 1000 = Ok (net_layers theta0 1000) /\
  0 < 64 /\
  pts store0 (input_ref [64; 3; 224; 224]) (input_value [64; 3; 224; 224]) /\
  exists ys s',
    Inception_Net.forward (net_layers theta0 1000) (input_ref [64; 3; 224; 224]) store0 =
      Ok (ys, s') /\
    cursor (rng s') = 196608.
Proof.
  assert (Hinit : Inception_Net.init theta0 1000 = Ok (net_layers theta0 1000))
    by reflexivity.
  assert (Hx : pts store0 (input_ref [64; 3; 224; 224]) (input_value [64; 3; 224; 224]))
    by (split; reflexivity).
  split; [exact Hinit|]. split; [lia|]. split; [exact Hx|].
  destruct (@Inception_Net_forward_training _ _ theta0 1000 _ store0 _ _ 64
              Hinit ltac:(lia) Hx eq_refl)
    as ((ys & s' & Hrun & Hg & _) & _).
  exists ys, s'. split; [exact Hrun|]. rewrite Hg. reflexivity.
Defined.

Lemma total_loss_nonnegative_witness :
  pts storeR (mkRef 0 [2; 3]) scoresR /\
  labels0 <> [] /\
  Forall (fun c => 0 <= c < 3) labels0 /\
  exists mainLoss total,
    total_loss (mkRef 0 [2; 3]) (mkRef 0 [2; 3]) (mkRef 0 [2; 3]) labels0 storeR =
      Ok (total, storeR) /\
    (0 <= mainLoss <= total)%R.
Proof.
  assert (Hx : pts storeR (mkRef 0 [2; 3]) scoresR) by (split; reflexivity).
  assert (Hne : labels0 <> []) by discriminate.
  assert (Hy : Forall (fun c => 0 <= c < 3) labels0) by (repeat constructor; lia).
  split; [exact Hx|]. split; [exact Hne|]. split; [exact Hy|].
  destruct (@total_loss_nonnegative storeR _ _ _ _ _ _ labels0 2 3
              Hx Hx Hx eq_refl eq_refl eq_refl eq_refl Hne Hy)
    as (m & t & _ & Ht & Hle).
  exists m, t. auto.
Defined.

Lemma total_loss_flat_scores_witness :
  pts storeR0 (mkRef 0 [2; 3]) flatR /\
  labels0 <> [] /\
  Forall (fun c => 0 <= c < 3) labels0 /\
  total_loss (mkRef 0 [2; 3]) (mkRef 0 [2; 3]) (mkRef 0 [2; 3]) labels0 storeR0 =
    Ok ((1.6 * ln 3)%R, storeR0).
Proof.
  assert (Hx : pts storeR0 (mkRef 0 [2; 3]) flatR) by (split; reflexivity).
  assert (Hne : labels0 <> []) by discriminate.
  assert (Hy : Forall (fun c => 0 <= c < 3) labels0) by (repeat constructor; lia).
  assert (Hflat : forall v, In v [flatR; flatR; flatR] ->
            forall j c, 0 <= c < 3 -> get v [j; c] = get v [j; 0]).
  { intros v [<-|[<-|[<-|[]]]] j c _; reflexivity. }
  split; [exact Hx|]. split; [exact Hne|]. split; [exact Hy|].
  exact (proj2 (proj2 (proj2
           (@total_loss_flat_scores storeR0 _ _ _ _ _ _ labels0 2 3
              Hx Hx Hx eq_refl eq_refl eq_refl eq_refl Hne Hy Hflat)))).
Defined.

Lemma total_loss_errors_witness :
  pts storeR (mkRef 0 [2; 3]) scoresR /\
  Z.of_nat (List.length labels_short) <> 2 /\
  total_loss (mkRef 0 [2; 3]) (mkRef 0 [2; 3]) (mkRef 0 [2; 3]) labels_short storeR =
    Raise BatchMismatch /\
  Exists (fun c => c <> -100 /\ (c < 0 \/ 3 <= c)) labels_bad /\
  total_loss (mkRef 0 [2; 3]) (mkRef 0 [2; 3]) (mkRef 0 [2; 3]) labels_bad storeR =
    Raise TargetOutOfBounds.
Proof.
  assert (Hx : pts storeR (mkRef 0 [2; 3]) scoresR) by (split; reflexivity).
  assert (Hl : Z.of_nat (List.length labels_short) <> 2) by (simpl; lia).
  assert (Hbad : Exists (fun c => c <> -100 /\ (c < 0 \/ 3 <= c)) labels_bad)
    by (apply Exists_cons_tl, Exists_cons_hd; lia).
  split; [exact Hx|]. split; [exact Hl|].
  split; [exact (proj2 (proj1 (@total_loss_errors storeR _ _ _ _ _ _ labels_short 2 3
                                  Hx Hx Hx eq_refl eq_refl eq_refl) Hl))|].
  split; [exact Hbad|].
  exact (proj2 (proj2 (@total_loss_errors storeR _ _ _ _ _ _ labels_bad 2 3
                         Hx Hx Hx eq_refl eq_refl eq_refl) eq_refl Hbad)).
Defined.

Lemma loss_cell_value_witness :
  Inception_Net.init thetaR 10 = Ok (net_layers thetaR 10) /\
  0 < 2 /\
  pts storeR (input_ref [2; 3; 224; 224]) (input_valueR [2; 3; 224; 224]) /\
  Forall (fun c => 0 <= c < 10) labels0 /\
  exists loss s',
    loss_cell (net_layers thetaR 10) (input_ref [2; 3; 224; 224]) labels0 storeR =
      Ok (loss, s').
Proof.
  assert (Hinit : Inception_Net.init thetaR 10 = Ok (net_layers thetaR 10))
    by reflexivity.
  assert (Hx : pts storeR (input_ref [2; 3; 224; 224]) (input_valueR [2; 3; 224; 224]))
    by (split; reflexivity).
  assert (Hy : Forall (fun c => 0 <= c < 10) labels0) by (repeat constructor; lia).
  split; [exact Hinit|]. split; [lia|]. split; [exact Hx|]. split; [exact Hy|].
  destruct (@loss_cell_value thetaR 10 _ storeR _ _ labels0 2
              Hinit ltac:(lia) Hx eq_refl eq_refl Hy)
    as (a0 & a1 & m & g' & s' & _ & Hrun & _).
  eexists _, s'. exact Hrun.
Defined.

Lemma Inception_Net_trunk_strides_witness :
  Inception_Net.init theta0 1000 = Ok (net_layers theta0 1000) /\
  0 < 300 /\ 0 < 500 /\
  pts store0 (input_ref [8; 3; 300; 500]) (input_value [8; 3; 300; 500]) /\
  exists x4a s1 v4a,
    forward_to_4a (net_layers theta0 1000) (input_ref [8; 3; 300; 500]) store0 =
      Ok (x4a, s1) /\
    pts s1 x4a v4a /\
    shape v4a = [8; 512; 19; 32].
Proof.
  assert (Hinit : Inception_Net.init theta0 1000 = Ok (net_layers theta0 1000))
    by reflexivity.
  assert (Hx : pts store0 (input_ref [8; 3; 300; 500]) (input_value [8; 3; 300; 500]))
    by (split; reflexivity).
  split; [exact Hinit|]. split; [lia|]. split; [lia|]. split; [exact Hx|].
  destruct (@Inception_Net_trunk_strides _ _ theta0 1000 _ store0 _ _ 8 300 500
              Hinit ltac:(lia) ltac:(lia) Hx eq_refl)
    as (x4a & s1 & v4a & v4d & feat & Hrun & Hp & S4a & _).
  exists x4a, s1, v4a. auto.
Defined.

Lemma Inception_Net_forward_reproducible_witness :
  pts store0 (input_ref [64; 3; 224; 224]) (input_value [64; 3; 224; 224]) /\
  pts {| heap := heap store0 ++ heap store0; rng := rng store0 |}
      (input_ref1 [64; 3; 224; 224]) (input_value [64; 3; 224; 224]) /\
  observe (Inception_Net.forward (net_layers theta0 1000)
             (input_ref [64; 3; 224; 224]) store0) =
  observe (Inception_Net.forward (net_layers theta0 1000)
             (input_ref1 [64; 3; 224; 224])
             {| heap := heap store0 ++ heap store0; rng := rng store0 |}).
Proof.
  assert (P1 : pts store0 (input_ref [64; 3; 224; 224]) (input_value [64; 3; 224; 224]))
    by (split; reflexivity).
  assert (P2 : pts {| heap := heap store0 ++ heap store0; rng := rng store0 |}
                   (input_ref1 [64; 3; 224; 224]) (input_value [64; 3; 224; 224]))
    by (split; reflexivity).
  split; [exact P1|]. split; [exact P2|].
  exact (@Inception_Net_forward_reproducible _ _ (net_layers theta0 1000) _ _ _ _ _
           P1 P2 eq_refl).
Defined.

(** ** Runs evaluated *)

(** The notebook's three checks of output shapes. *)
Example block_3a_shape :
  run_shape (Inception_Block.forward
               (block_layers theta0 "inception3a" (192, 64, 96, 128, 16, 32, 32))
               (input_ref [64; 192; 32; 32]) store0)
  = Ok [64; 256; 32; 32].
Proof. vm_compute. reflexivity. Qed.

Example aux_classifier_shape :
  run_shape (Auxiliary_Classifier.forward (aux_layers theta0 "aux_classifier1" 512 1000)
               (input_ref [64; 512; 14; 14]) store0)
  = Ok [64; 1000].
Proof. vm_compute. reflexivity. Qed.

Example model_shapes :
  run_shapes3 (Inception_Net.forward (net_layers theta0 1000)
                 (input_ref [64; 3; 224; 224]) store0)
  = Ok ([64; 1000], [64; 1000], [64; 1000]).
Proof. vm_compute. reflexivity. Qed.

(** An empty batch reaches the flattening before the main classifier,
    which cannot infer a size from zero elements. *)
Example model_empty_batch :
  run_shapes3 (Inception_Net.forward (net_layers theta0 1000)
                 (input_ref [0; 3; 224; 224]) store0)
  = Raise ShapeAmbiguous.
Proof. vm_compute. reflexivity. Qed.

(** Inputs of other spatial sizes: too small for the final average
    pool, accepted by the final linear layer but not by the auxiliary
    classifiers, and too large for the final linear layer. *)
Example model_100 :
  run_shapes3 (Inception_Net.forward (net_layers theta0 1000)
                 (input_ref [1; 3; 100; 100]) store0)
  = Raise OutputTooSmall.
Proof. vm_compute. reflexivity. Qed.

Example model_200 :
  run_shapes3 (Inception_Net.forward (net_layers theta0 1000)
                 (input_ref [1; 3; 200; 200]) store0)
  = Raise (MatMulMismatch 2048 1152).
Proof. vm_compute. reflexivity. Qed.

Example model_300 :
  run_shapes3 (Inception_Net.forward (net_layers theta0 1000)
                 (input_ref [1; 3; 300; 224]) store0)
  = Raise (MatMulMismatch 1024 4096).
Proof. vm_compute. reflexivity. Qed.

(** A block with a zero channel count is built and fails when run. *)
Example block_zero_channels :
  (exists b, Inception_Block.init theta0 "b" (192, 0, 96, 128, 16, 32, 32) = Ok b) /\
  run_shape (Inception_Block.forward
               (block_layers theta0 "b" (192, 0, 96, 128, 16, 32, 32))
               (input_ref [1; 192; 8; 8]) store0)
  = Raise EmptyWeight.
Proof. split; [eexists|]; vm_compute; reflexivity. Qed.

(** A block built for inputs without channels: its 1x1 convolutions
    return maps without channels, which the 3x3 convolution refuses. *)
Example block_zero_in_channels :
  (exists b, Inception_Block.init theta0 "b" (0, 64, 96, 128, 16, 32, 32) = Ok b) /\
  run_shape (Inception_Block.forward
               (block_layers theta0 "b" (0, 64, 96, 128, 16, 32, 32))
               (input_ref [1; 0; 8; 8]) store0)
  = Raise (ChannelMismatch 96 0).
Proof. split; [eexists|]; vm_compute; reflexivity. Qed.

(** A class count that is no 64-bit integer, and a negative one. *)
Example model_class_count_out_of_range :
  Inception_Net.init theta0 (2 ^ 63) = Raise SizeNotInt64 /\
  Inception_Net.init theta0 (-1) = Raise NegativeDimension.
Proof. split; vm_compute; reflexivity. Qed.

(** ** Where the code differs from the specification as it is written *)

(** C1. Zero is a batch size: the model is built, and on an input of
    shape (0, 3, 224, 224) [forward] returns no scores, the reshape
    before the final classifier raises. *)
Lemma Inception_Net_refuses_empty_batch :
  0 <= 0 /\
  Inception_Net.init theta0 1000 = Ok (net_layers theta0 1000) /\
  pts store0 (input_ref [0; 3; 224; 224]) (input_value [0; 3; 224; 224]) /\
  run_shapes3 (Inception_Net.forward (net_layers theta0 1000)
                 (input_ref [0; 3; 224; 224]) store0)
  = Raise ShapeAmbiguous.
Proof.
  split; [lia|]. split; [vm_compute; reflexivity|].
  split; [split; reflexivity|]. vm_compute. reflexivity.
Qed.

(** C6. Two blocks whose channel counts do not fit (the first produces
    256 channels, the second expects 100) are built without complaint;
    the mismatch shows when the second block runs, as the
    convolution's error on the channel count. *)
Lemma construction_accepts_channel_mismatch :
  out_channels (192, 64, 96, 128, 16, 32, 32) <> in_channels (100, 64, 96, 128, 16, 32, 32) /\
  Inception_Block.init theta0 "a" (192, 64, 96, 128, 16, 32, 32) =
    Ok (block_layers theta0 "a" (192, 64, 96, 128, 16, 32, 32)) /\
  Inception_Block.init theta0 "b" (100, 64, 96, 128, 16, 32, 32) =
    Ok (block_layers theta0 "b" (100, 64, 96, 128, 16, 32, 32)) /\
  run_shape
    (bind (Inception_Block.forward
             (block_layers theta0 "a" (192, 64, 96, 128, 16, 32, 32))
             (input_ref [1; 192; 8; 8]))
          (fun y => Inception_Block.forward
                      (block_layers theta0 "b" (100, 64, 96, 128, 16, 32, 32)) y)
          store0)
  = Raise (ChannelMismatch 100 256).
Proof.
  split; [vm_compute; lia|]. repeat split; vm_compute; reflexivity.
Qed.

(** C9. A feature map that pools to 2 x 8, not 4 x 4, is flattened to
    width 2048 all the same and scored. *)
Lemma Auxiliary_Classifier_accepts_2x8 :
  ((8 - 5) / 3 + 1 = 2 /\ (26 - 5) / 3 + 1 = 8) /\
  Auxiliary_Classifier.init theta0 "aux_classifier1" 512 1000 =
    Ok (aux_layers theta0 "aux_classifier1" 512 1000) /\
  run_shape (Auxiliary_Classifier.forward (aux_layers theta0 "aux_classifier1" 512 1000)
               (input_ref [1; 512; 8; 26]) store0)
  = Ok [1; 1000].
Proof. repeat split; vm_compute; reflexivity. Qed.

(** C10. An input of 223 x 223 is not of the spatial size 224 x 224,
    yet the final linear layer gets its 1024 features and [forward]
    returns the three score tensors. *)
Lemma Inception_Net_accepts_223 :
  223 <> 224 /\
  Inception_Net.init theta0 1000 = Ok (net_layers theta0 1000) /\
  run_shapes3 (Inception_Net.forward (net_layers theta0 1000)
                 (input_ref [1; 3; 223; 223]) store0)
  = Ok ([1; 1000], [1; 1000], [1; 1000]).
Proof. split; [lia|]. split; vm_compute; reflexivity. Qed.
